(** * connect-hire: application ledger, row-level authorization and
      notification handlers

    A shallow embedding of the parts of the job board that decide who may
    read and write which row:

    - the tables [user_roles], [jobs] and [job_applications] with their
      defaults, unique constraints and row-level-security policies
      (supabase/migrations);
    - the two edge functions [send-applicant-email] and [send-to-boss]
      (supabase/functions);
    - the client handlers that issue the requests ([handleApply],
      [handleSubmit], [updateApplicationStatus], [sendEmailAndUpdateStatus],
      [handleSendToBoss], [fetchJobs], [fetchEmployerJobs]) and the
      statements behind the job form and the activate/deactivate button;
    - the remaining handlers of the same components ([handleFileChange],
      [fetchAppliedJobs], the job form's [handleSubmit], the dashboard's
      [fetchData] and [toggleJobActive]) and the redirects of the pages.

    Tables are lists of rows in insertion order, so that uniqueness is a
    property to be proved of the insert path and not a property of the
    container.  External services (the mail provider, the object store, the
    clock, the uuid generator) are oracles carried in the state. *)

From Stdlib Require Import String List ZArith Bool Ascii Lia Permutation.
Import ListNotations.
Open Scope string_scope.
Open Scope bool_scope.

(* ===================================================================== *)
(** * SQL values and errors *)
(* ===================================================================== *)

Definition uuid := string.

(** [a = b] in a policy expression: SQL equality is NULL as soon as one side
    is NULL, and a policy admits a row only when its expression is TRUE. *)
Definition sql_eq (a b : option uuid) : bool :=
  match a, b with
  | Some x, Some y => String.eqb x y
  | _, _ => false
  end.

(** [is_active = true] *)
Definition sql_is_true (b : option bool) : bool :=
  match b with
  | Some true => true
  | _ => false
  end.

(** The errors a statement on these tables can raise. *)
Inductive PostgresError : Type :=
| unique_violation            (* UNIQUE / PRIMARY KEY *)
| foreign_key_violation       (* REFERENCES *)
| insufficient_privilege      (* new row violates row-level security policy *)
| numeric_value_out_of_range  (* INTEGER column, value outside int4 *).

(** SQLSTATE, the [error.code] the client sees. *)
Definition code (e : PostgresError) : string :=
  match e with
  | unique_violation => "23505"
  | foreign_key_violation => "23503"
  | insufficient_privilege => "42501"
  | numeric_value_out_of_range => "22003"
  end.

Definition int4_ok (v : option Z) : bool :=
  match v with
  | None => true
  | Some z => ((-2147483648 <=? z) && (z <=? 2147483647))%Z
  end.

(* ===================================================================== *)
(** * Schema *)
(* ===================================================================== *)

(** CREATE TYPE public.user_role AS ENUM ('job_seeker', 'employer') *)
Inductive user_role : Type := job_seeker | employer.

(** public.user_roles: UNIQUE (user_id). *)
Record user_roles_row : Type := mk_user_role {
  ur_id : uuid;
  ur_user_id : uuid;
  ur_role : user_role
}.

(** public.jobs, with the columns [user_id] and [minimum_experience] added
    by the second migration.  [is_active] and [user_id] are nullable; the
    seeded jobs have no owner. *)
Record jobs_row : Type := mk_job {
  j_id : uuid;
  j_title : string;
  j_company_id : uuid;
  j_job_type : option string;
  j_location : option string;
  j_salary_range : option string;
  j_description : option string;
  j_requirements : option string;
  j_is_active : option bool;
  j_user_id : option uuid;
  j_minimum_experience : option Z
}.

(** public.job_applications: UNIQUE (job_id, user_id); [status] is a
    nullable TEXT with DEFAULT 'pending'.  The applicant columns come from
    the second migration; [applicant_email] is written and read by the
    clients like them and is taken to be one more nullable TEXT column. *)
Record job_applications_row : Type := mk_application {
  a_id : uuid;
  a_job_id : uuid;
  a_user_id : uuid;
  a_status : option string;
  a_applicant_name : option string;
  a_applicant_email : option string;
  a_age : option Z;
  a_experience_years : option Z;
  a_resume_url : option string
}.

Record Db : Type := mk_db {
  user_roles : list user_roles_row;
  jobs : list jobs_row;
  job_applications : list job_applications_row
}.

Definition empty_db : Db := mk_db [] [] [].

Definition set_user_roles (t : list user_roles_row) (db : Db) : Db :=
  mk_db t (jobs db) (job_applications db).
Definition set_jobs (t : list jobs_row) (db : Db) : Db :=
  mk_db (user_roles db) t (job_applications db).
Definition set_job_applications (t : list job_applications_row) (db : Db) : Db :=
  mk_db (user_roles db) (jobs db) t.

Definition with_status (s : option string) (r : job_applications_row)
  : job_applications_row :=
  mk_application (a_id r) (a_job_id r) (a_user_id r) s (a_applicant_name r)
    (a_applicant_email r) (a_age r) (a_experience_years r) (a_resume_url r).

Definition with_is_active (b : option bool) (j : jobs_row) : jobs_row :=
  mk_job (j_id j) (j_title j) (j_company_id j) (j_job_type j) (j_location j)
    (j_salary_range j) (j_description j) (j_requirements j) b (j_user_id j)
    (j_minimum_experience j).

(* ===================================================================== *)
(** * Row-level security policies *)
(* ===================================================================== *)

(** Every table has row-level security enabled.  A request made with the
    user's session carries [auth.uid()], which is NULL for an anonymous
    caller.  Permissive policies of one command are OR-ed; a command with no
    policy sees no row. *)
Module Policy.

(** public.is_job_owner(_user_id, _job_id) *)
Definition is_job_owner (db : Db) (_user_id : option uuid) (_job_id : uuid) : bool :=
  existsb (fun j => String.eqb (j_id j) _job_id && sql_eq (j_user_id j) _user_id)
          (jobs db).

(** "Users can view their own role" *)
Definition user_roles_select (uid : option uuid) (r : user_roles_row) : bool :=
  sql_eq uid (Some (ur_user_id r)).

(** "Users can insert their own role" *)
Definition user_roles_insert_check (uid : option uuid) (r : user_roles_row) : bool :=
  sql_eq uid (Some (ur_user_id r)).

(** "Anyone can view active jobs": the only SELECT policy on jobs. *)
Definition jobs_select (uid : option uuid) (j : jobs_row) : bool :=
  sql_is_true (j_is_active j).

(** "Employers can insert their own jobs" *)
Definition jobs_insert_check (uid : option uuid) (j : jobs_row) : bool :=
  sql_eq uid (j_user_id j).

(** "Employers can update their own jobs"; it has no WITH CHECK, so the
    USING expression also checks the new row. *)
Definition jobs_update_using (uid : option uuid) (j : jobs_row) : bool :=
  sql_eq uid (j_user_id j).
Definition jobs_update_check (uid : option uuid) (j : jobs_row) : bool :=
  jobs_update_using uid j.

(** "Employers can delete their own jobs" *)
Definition jobs_delete_using (uid : option uuid) (j : jobs_row) : bool :=
  sql_eq uid (j_user_id j).

(** "Users can view their own applications" OR
    "Employers can view applications for their jobs" *)
Definition job_applications_select (db : Db) (uid : option uuid)
           (r : job_applications_row) : bool :=
  sql_eq uid (Some (a_user_id r)) || is_job_owner db uid (a_job_id r).

(** "Users can create their own applications" *)
Definition job_applications_insert_check (uid : option uuid)
           (r : job_applications_row) : bool :=
  sql_eq uid (Some (a_user_id r)).

(** "Employers can update applications for their jobs":
    USING and WITH CHECK are the same expression. *)
Definition job_applications_update_using (db : Db) (uid : option uuid)
           (r : job_applications_row) : bool :=
  is_job_owner db uid (a_job_id r).
Definition job_applications_update_check (db : Db) (uid : option uuid)
           (r : job_applications_row) : bool :=
  is_job_owner db uid (a_job_id r).

End Policy.

(** Commands for which a table has no policy: the OR of no policy. *)
Definition no_policy {R : Type} (uid : option uuid) (r : R) : bool := false.

(* ===================================================================== *)
(** * Statements *)
(* ===================================================================== *)

(** A statement returns the error it raised, if any, and the database it
    leaves; a statement that raises leaves the database as it found it. *)
Definition StatementResult : Type := (option PostgresError * Db)%type.

(** SELECT under row-level security: the rows the policy admits among those
    the WHERE clause selects.  ORDER BY is left out (the rows carry no
    [created_at]): the result stands for the rows returned, each as often
    as it is returned, and not for the order they come in.  What is said of
    a query's result is said up to a permutation. *)
Definition rls_select {R : Type} (visible where_ : R -> bool) (t : list R) : list R :=
  filter (fun r => visible r && where_ r) t.

(** UPDATE under row-level security.  [target] is the WHERE clause together
    with the policies that act as filters on existing rows (the UPDATE
    policy's USING and, because the WHERE clause reads a column, the SELECT
    policy): a row they exclude is skipped without an error.  [check] is
    what every new row must satisfy (the UPDATE policy's WITH CHECK and the
    SELECT policy): a new row that fails it aborts the statement. *)
Definition rls_update {R : Type} (target : R -> bool) (set : R -> R)
           (check : R -> bool) (t : list R) : option PostgresError * list R :=
  if existsb (fun r => target r && negb (check (set r))) t
  then (Some insufficient_privilege, t)
  else (None, map (fun r => if target r then set r else r) t).

(** DELETE under row-level security. *)
Definition rls_delete {R : Type} (target : R -> bool) (t : list R) : list R :=
  filter (fun r => negb (target r)) t.

(** ** user_roles *)

(** INSERT INTO user_roles (user_id, role); [gen] is what gen_random_uuid()
    yields for the id.  The policy check comes before the unique index. *)
Definition insert_user_roles (uid : option uuid) (gen : uuid) (user_id : uuid)
           (role : user_role) (db : Db) : StatementResult :=
  let row := mk_user_role gen user_id role in
  if negb (Policy.user_roles_insert_check uid row)
  then (Some insufficient_privilege, db)
  else if existsb (fun r => String.eqb (ur_id r) gen
                            || String.eqb (ur_user_id r) user_id) (user_roles db)
  then (Some unique_violation, db)
  else (None, set_user_roles (user_roles db ++ [row]) db).

(** UPDATE user_roles SET role = ... WHERE ...: the table has no UPDATE
    policy. *)
Definition update_user_roles (uid : option uuid) (where_ : user_roles_row -> bool)
           (role : user_role) (db : Db) : StatementResult :=
  let '(e, t) :=
    rls_update
      (fun r => where_ r && Policy.user_roles_select uid r && no_policy uid r)
      (fun r => mk_user_role (ur_id r) (ur_user_id r) role)
      (fun r => no_policy uid r && Policy.user_roles_select uid r)
      (user_roles db) in
  (e, set_user_roles t db).

(** DELETE FROM user_roles WHERE ...: the table has no DELETE policy. *)
Definition delete_user_roles (uid : option uuid) (where_ : user_roles_row -> bool)
           (db : Db) : StatementResult :=
  (None,
   set_user_roles
     (rls_delete
        (fun r => where_ r && Policy.user_roles_select uid r && no_policy uid r)
        (user_roles db)) db).

(** ** jobs *)

(** INSERT INTO jobs: the row as the client sends it, [j_id] being the
    generated id.  The reference to the catalog's companies table is not
    modelled. *)
Definition insert_jobs (uid : option uuid) (row : jobs_row) (db : Db)
  : StatementResult :=
  if negb (int4_ok (j_minimum_experience row))
  then (Some numeric_value_out_of_range, db)
  else if negb (Policy.jobs_insert_check uid row)
  then (Some insufficient_privilege, db)
  else if existsb (fun j => String.eqb (j_id j) (j_id row)) (jobs db)
  then (Some unique_violation, db)
  else (None, set_jobs (jobs db ++ [row]) db).

(** UPDATE jobs SET is_active = $1 WHERE id = $2 *)
Definition update_jobs_is_active (uid : option uuid) (jobId : uuid)
           (is_active : bool) (db : Db) : StatementResult :=
  let '(e, t) :=
    rls_update
      (fun j => String.eqb (j_id j) jobId
                && Policy.jobs_select uid j && Policy.jobs_update_using uid j)
      (with_is_active (Some is_active))
      (fun j => Policy.jobs_update_check uid j && Policy.jobs_select uid j)
      (jobs db) in
  (e, set_jobs t db).

(** ** job_applications *)

(** The columns an INSERT may name.  [ai_status = None] is a request that
    does not name the status column; [Some v] names it with value [v]. *)
Record application_insert : Type := mk_application_insert {
  ai_job_id : uuid;
  ai_user_id : uuid;
  ai_status : option (option string);
  ai_applicant_name : option string;
  ai_applicant_email : option string;
  ai_age : option Z;
  ai_experience_years : option Z;
  ai_resume_url : option string
}.

(** Column defaults: id DEFAULT gen_random_uuid(), status DEFAULT 'pending'.
    A default fills a column the statement does not name. *)
Definition apply_defaults (gen : uuid) (p : application_insert)
  : job_applications_row :=
  mk_application gen (ai_job_id p) (ai_user_id p)
    (match ai_status p with
     | None => Some "pending"
     | Some v => v
     end)
    (ai_applicant_name p) (ai_applicant_email p) (ai_age p)
    (ai_experience_years p) (ai_resume_url p).

Definition same_pair (job_id user_id : uuid) (r : job_applications_row) : bool :=
  String.eqb (a_job_id r) job_id && String.eqb (a_user_id r) user_id.

(** INSERT INTO job_applications.  Order of the checks: the values are
    converted to the column types, the INSERT policy is checked on the new
    row, the unique indexes are probed when the row is stored, and the
    foreign key to jobs is checked at the end of the statement. *)
Definition insert_job_applications (uid : option uuid) (gen : uuid)
           (p : application_insert) (db : Db) : StatementResult :=
  let row := apply_defaults gen p in
  if negb (int4_ok (ai_age p) && int4_ok (ai_experience_years p))
  then (Some numeric_value_out_of_range, db)
  else if negb (Policy.job_applications_insert_check uid row)
  then (Some insufficient_privilege, db)
  else if existsb (fun r => String.eqb (a_id r) gen
                            || same_pair (ai_job_id p) (ai_user_id p) r)
                  (job_applications db)
  then (Some unique_violation, db)
  else if negb (existsb (fun j => String.eqb (j_id j) (ai_job_id p)) (jobs db))
  then (Some foreign_key_violation, db)
  else (None, set_job_applications (job_applications db ++ [row]) db).

(** The rows a session's status update reaches: WHERE id = $2, among the
    rows the SELECT policies show and the UPDATE policy's USING admits. *)
Definition targeted (db : Db) (uid : option uuid) (applicationId : uuid)
           (r : job_applications_row) : bool :=
  String.eqb (a_id r) applicationId
  && Policy.job_applications_select db uid r
  && Policy.job_applications_update_using db uid r.

(** UPDATE job_applications SET status = $1 WHERE id = $2, with the
    caller's session. *)
Definition update_job_applications_status (uid : option uuid)
           (applicationId : uuid) (status : string) (db : Db) : StatementResult :=
  let '(e, t) :=
    rls_update
      (targeted db uid applicationId)
      (with_status (Some status))
      (fun r => Policy.job_applications_update_check db uid r
                && Policy.job_applications_select db uid r)
      (job_applications db) in
  (e, set_job_applications t db).

(** The same statement issued with the service-role key, which bypasses
    row-level security altogether.  [applicationId] is a value of the
    column's type.  A request whose text the server does not read as a uuid
    reaches no row either, like an id that no row has; the error it is
    answered with (SQLSTATE 22P02) is not modelled, so what is said below of
    the error a status update returns is said of ids that are uuids. *)
Definition service_update_job_applications_status (applicationId : uuid)
           (status : string) (db : Db) : StatementResult :=
  (None,
   set_job_applications
     (map (fun r => if String.eqb (a_id r) applicationId
                    then with_status (Some status) r else r)
          (job_applications db)) db).


(* ===================================================================== *)
(** * JavaScript values *)
(* ===================================================================== *)

(** Truthiness of a string: only the empty string is falsy. *)
Definition truthy (s : string) : bool := negb (String.eqb s "").

(** Truthiness of a [string | null]. *)
Definition truthy_opt (s : option string) : bool :=
  match s with
  | Some v => truthy v
  | None => false
  end.

(** [s || d] on a [string | null]. *)
Definition or_else (s : option string) (d : string) : string :=
  match s with
  | Some v => if truthy v then v else d
  | None => d
  end.

(** [s === lit] on a [string | null]. *)
Definition strict_eq (s : option string) (lit : string) : bool :=
  match s with
  | Some v => String.eqb v lit
  | None => false
  end.

(** The integer-valued numbers the handlers compare, with the two values
    that are not integers. *)
Inductive number : Type :=
| Finite (z : Z)
| Infinity
| NegInfinity
| NaN.

(** [a < b]; false as soon as one side is NaN. *)
Definition number_lt (a b : number) : bool :=
  match a, b with
  | Finite x, Finite y => (x <? y)%Z
  | Finite _, Infinity => true
  | NegInfinity, Finite _ => true
  | NegInfinity, Infinity => true
  | _, _ => false
  end.

(** [a > b] *)
Definition number_gt (a b : number) : bool := number_lt b a.

(** JSON.stringify of a number inside a request body: NaN and Infinity
    become null. *)
Definition json_number (n : number) : option Z :=
  match n with
  | Finite z => Some z
  | _ => None
  end.

(** [s.split(sep)] for a non-empty separator.  [skip] counts the characters
    of a separator just matched that are still to be passed over; [cur] is
    the piece being collected. *)
Fixpoint split_go (sep s : string) (skip : nat) (cur : string) : list string :=
  match s with
  | EmptyString => [cur]
  | String c s' =>
      match skip with
      | S k => split_go sep s' k cur
      | O =>
          if String.prefix sep s
          then cur :: split_go sep s' (String.length sep - 1) ""
          else split_go sep s' 0 (cur ++ String c "")
      end
  end.

Definition split (sep s : string) : list string := split_go sep s 0 "".

(** [xs.pop()] read as a value: the last element. *)
Definition pop (xs : list string) : option string := last (map Some xs) None.

(** [xs[1]] *)
Definition second (xs : list string) : option string := nth_error xs 1.

(** Decimal rendering of an integer inside a template literal. *)
Fixpoint digits_go (fuel : nat) (n : N) (acc : string) : string :=
  match fuel with
  | O => acc
  | S f =>
      let d := String (ascii_of_N (48 + N.modulo n 10)) acc in
      if (n <? 10)%N then d else digits_go f (N.div n 10) d
  end.

Definition to_string (z : Z) : string :=
  let n := Z.to_N (Z.abs z) in
  let body := digits_go (S (N.to_nat (N.log2 n))) n "" in
  if (z <? 0)%Z then "-" ++ body else body.

(* ===================================================================== *)
(** * The world the handlers run in *)
(* ===================================================================== *)

(** What an email says.  The markup is not modelled; the body is kept as
    the template chosen and the values spliced into it. *)
Record CandidateRow : Type := mk_row {
  row_number : string;
  row_name : string;
  row_age : string;
  row_experience : string;
  row_resume : option string
}.

Inductive EmailBody : Type :=
| ShortlistedLetter (applicantName jobTitle companyName : string)
| RejectedLetter (applicantName jobTitle companyName : string)
| SelectedLetter (applicantName jobTitle companyName : string)
| StatusLetter (applicantName jobTitle companyName status : string)
| CandidateTable (jobTitle companyName : string) (optionalMessage : option string)
                 (count : nat) (rows : list CandidateRow).

Record Email : Type := mk_email {
  email_from : string;
  email_to : list string;
  email_subject : string;
  email_html : EmailBody
}.

(** The object [resend.emails.send] of resend@2.0.0 resolves to:
    [{ data: { id }, error: null }] when the provider took the message,
    [{ data: null, error }] when it refused it (key, sender, recipient or
    quota not accepted). *)
Record CreateEmailResponse : Type := mk_email_response {
  data : option string;    (* data.id *)
  error : option string    (* error.message *)
}.

(** [await resend.emails.send(...)] resolves to a response object, also when
    the provider refuses the message; it rejects only when the request
    itself fails. *)
Inductive SendOutcome : Type :=
| Resolves (emailResponse : CreateEmailResponse)
| Rejects (message : string).

(** What leaves a handler, in order. *)
Inductive Event : Type :=
| EmailSend (e : Email)
| StatusUpdate (applicationId : uuid) (status : string).

Record World : Type := mk_world {
  db : Db;
  trace : list Event;
  (* oracles *)
  resend : Email -> SendOutcome;
  uuids : nat -> uuid;
  drawn : nat;
  now : Z;
  storage_upload : string -> option string;
  storage_public_url : string -> string;
  storage_signed_url : string -> Z -> option string;
  companies_name : uuid -> option string
}.

Definition set_db (d : Db) (w : World) : World :=
  mk_world d (trace w) (resend w) (uuids w) (drawn w) (now w)
           (storage_upload w) (storage_public_url w) (storage_signed_url w)
           (companies_name w).

Definition emit (e : Event) (w : World) : World :=
  mk_world (db w) (trace w ++ [e]) (resend w) (uuids w) (drawn w) (now w)
           (storage_upload w) (storage_public_url w) (storage_signed_url w)
           (companies_name w).

(** gen_random_uuid() *)
Definition gen_random_uuid (w : World) : uuid * World :=
  (uuids w (drawn w),
   mk_world (db w) (trace w) (resend w) (uuids w) (S (drawn w)) (now w)
            (storage_upload w) (storage_public_url w) (storage_signed_url w)
           (companies_name w)).

(** Run a statement against the world's database. *)
Definition run_statement (st : Db -> StatementResult) (w : World)
  : option PostgresError * World :=
  let '(e, d) := st (db w) in (e, set_db d w).

(* ===================================================================== *)
(** * Edge functions *)
(* ===================================================================== *)

(** What a handler body can throw. *)
Inductive Thrown : Type :=
| JsError (message : string)
| ProviderError (message : string)
| DatabaseError (e : PostgresError).

Inductive Completion (A : Type) : Type :=
| Normal (a : A)
| Abrupt (t : Thrown).
Arguments Normal {A} a.
Arguments Abrupt {A} t.

(** Handler code: reads and writes the world, may throw. *)
Definition Eff (A : Type) : Type := World -> Completion A * World.

Definition ret {A : Type} (a : A) : Eff A := fun w => (Normal a, w).

Definition bind {A B : Type} (m : Eff A) (k : A -> Eff B) : Eff B :=
  fun w =>
    match m w with
    | (Normal a, w') => k a w'
    | (Abrupt t, w') => (Abrupt t, w')
    end.

Definition throw {A : Type} (t : Thrown) : Eff A := fun w => (Abrupt t, w).

Definition try_catch {A : Type} (m : Eff A) (h : Thrown -> Eff A) : Eff A :=
  fun w =>
    match m w with
    | (Normal a, w') => (Normal a, w')
    | (Abrupt t, w') => h t w'
    end.

Declare Scope eff_scope.
Delimit Scope eff_scope with eff.
Notation "x <- m ;; k" := (bind m (fun x => k))
  (at level 61, m at next level, right associativity) : eff_scope.
Notation "m ;;; k" := (bind m (fun _ => k))
  (at level 61, right associativity) : eff_scope.
Open Scope eff_scope.

(** [await resend.emails.send(email)] *)
Definition resend_emails_send (e : Email) : Eff CreateEmailResponse :=
  fun w =>
    let w' := emit (EmailSend e) w in
    match resend w e with
    | Resolves r => (Normal r, w')
    | Rejects m => (Abrupt (ProviderError m), w')
    end.

(** [supabase.from("job_applications").update({ status }).eq("id", id)] on
    a client created with SUPABASE_SERVICE_ROLE_KEY. *)
Definition service_update_status (applicationId : uuid) (status : string)
  : Eff (option PostgresError) :=
  fun w =>
    let '(e, w') :=
      run_statement (service_update_job_applications_status applicationId status)
                    (emit (StatusUpdate applicationId status) w) in
    (Normal e, w').

Record Request (B : Type) : Type := mk_request {
  method : string;
  body : B
}.
Arguments mk_request {B} method body.
Arguments method {B} r.
Arguments body {B} r.

Inductive ResponseBody : Type :=
| NoBody
| Success (emailResponse : CreateEmailResponse)
| Failure (error : Thrown).

Record Response : Type := mk_response {
  http_status : Z;
  http_body : ResponseBody
}.

(** [new Response(null, { headers: corsHeaders })] *)
Definition preflight : Response := mk_response 200 NoBody.

(** ** supabase/functions/send-applicant-email *)
Module SendApplicantEmail.

Record EmailRequest : Type := mk_body {
  applicationId : uuid;
  applicantName : string;
  applicantEmail : string;
  jobTitle : string;
  status : string;
  companyName : string
}.

Definition getEmailContent (status applicantName jobTitle companyName : string)
  : string * EmailBody :=
  if String.eqb status "shortlisted" then
    ("Congratulations! You've been shortlisted for " ++ jobTitle,
     ShortlistedLetter applicantName jobTitle companyName)
  else if String.eqb status "rejected" then
    ("Application Update for " ++ jobTitle,
     RejectedLetter applicantName jobTitle companyName)
  else if String.eqb status "selected" then
    ("Congratulations! You've been selected for " ++ jobTitle,
     SelectedLetter applicantName jobTitle companyName)
  else
    ("Application Update for " ++ jobTitle,
     StatusLetter applicantName jobTitle companyName status).

(** The message handed to [resend.emails.send]. *)
Definition letter (b : EmailRequest) : Email :=
  let '(subject, html) :=
    getEmailContent (status b) (applicantName b) (jobTitle b) (companyName b) in
  mk_email (companyName b ++ " <onboarding@resend.dev>")
           [applicantEmail b] subject html.

(** The handler.  The request carries no caller identity that the body
    reads: nothing below depends on who invoked the function. *)
Definition handler (req : Request EmailRequest) : Eff Response :=
  if String.eqb (method req) "OPTIONS" then ret preflight
  else
    try_catch
      (let b := body req in
       emailResponse <- resend_emails_send (letter b) ;;
       (* Update application status in database *)
       updateError <- service_update_status (applicationId b) (status b) ;;
       match updateError with
       | Some e => throw (DatabaseError e)
       | None => ret (mk_response 200 (Success emailResponse))
       end)
      (fun error => ret (mk_response 500 (Failure error))).

End SendApplicantEmail.

(** ** supabase/functions/send-to-boss *)
Module SendToBoss.

Record Applicant : Type := mk_applicant {
  name : string;
  age : option Z;
  experienceYears : option Z;
  resumeUrl : option string
}.

Record SendToBossRequest : Type := mk_body {
  bossEmail : string;
  jobTitle : string;
  companyName : string;
  optionalMessage : option string;
  shortlistedApplicants : list Applicant
}.

Definition missing_required_fields : string :=
  "Missing required fields: bossEmail, jobTitle, or shortlistedApplicants".

Definition generateApplicantRow (applicant : Applicant) (index : nat) : CandidateRow :=
  let resumeLink :=
    if truthy_opt (resumeUrl applicant) then resumeUrl applicant else None in
  mk_row (to_string (Z.of_nat index + 1))
         (name applicant)
         (match age applicant with Some a => to_string a | None => "N/A" end)
         (to_string (match experienceYears applicant with Some y => y | None => 0%Z end)
          ++ " years")
         resumeLink.

(** [xs.map((x, index) => f(x, index))] *)
Fixpoint map_indexed {A B : Type} (f : A -> nat -> B) (i : nat) (xs : list A) : list B :=
  match xs with
  | [] => []
  | x :: xs' => f x i :: map_indexed f (S i) xs'
  end.

(** The message handed to [resend.emails.send]. *)
Definition digest (b : SendToBossRequest) : Email :=
  let applicantRows :=
    map_indexed generateApplicantRow 0 (shortlistedApplicants b) in
  let optionalMessageHtml :=
    if truthy_opt (optionalMessage b) then optionalMessage b else None in
  mk_email (companyName b ++ " Hiring <onboarding@resend.dev>")
           [bossEmail b]
           ("Shortlisted Candidates for " ++ jobTitle b)
           (CandidateTable (jobTitle b) (companyName b) optionalMessageHtml
                           (length (shortlistedApplicants b)) applicantRows).

Definition handler (req : Request SendToBossRequest) : Eff Response :=
  if String.eqb (method req) "OPTIONS" then ret preflight
  else
    try_catch
      (let b := body req in
       if negb (truthy (bossEmail b)) || negb (truthy (jobTitle b))
          || (length (shortlistedApplicants b) =? 0)%nat
       then throw (JsError missing_required_fields)
       else
         emailResponse <- resend_emails_send (digest b) ;;
         ret (mk_response 200 (Success emailResponse)))
      (fun error => ret (mk_response 500 (Failure error))).

End SendToBoss.

(* ===================================================================== *)
(** * Client *)
(* ===================================================================== *)

Inductive Variant : Type := plain | destructive.

Record Toast : Type := mk_toast {
  variant : Variant;
  title : string;
  description : string
}.

(** The signed-in user of [useAuth()]. *)
Record User : Type := mk_user {
  u_id : uuid;
  u_email : option string
}.

(** [auth.uid()] of a request sent with this session. *)
Definition auth_uid (user : option User) : option uuid := option_map u_id user.

(** [supabase.functions.invoke(name, { body })]: a POST to the function;
    [error] is set when the response is not 2xx. *)
Inductive FunctionsError : Type :=
| FunctionsHttpError (r : Response).

Definition functions_invoke {B : Type} (handler : Request B -> Eff Response)
           (b : B) (w : World) : option FunctionsError * World :=
  match handler (mk_request "POST" b) w with
  | (Normal r, w') =>
      if ((200 <=? http_status r) && (http_status r <? 300))%Z
      then (None, w')
      else (Some (FunctionsHttpError r), w')
  | (Abrupt t, w') => (Some (FunctionsHttpError (mk_response 500 NoBody)), w')
  end.

Definition is_space (c : ascii) : bool :=
  let n := nat_of_ascii c in
  (n =? 32)%nat || ((9 <=? n)%nat && (n <=? 13)%nat).

Fixpoint trim_start (s : string) : string :=
  match s with
  | String c s' => if is_space c then trim_start s' else s
  | EmptyString => EmptyString
  end.

Fixpoint rev_string (s acc : string) : string :=
  match s with
  | String c s' => rev_string s' (String c acc)
  | EmptyString => acc
  end.

(** [s.trim()], for the ASCII white space characters. *)
Definition trim (s : string) : string :=
  rev_string (trim_start (rev_string (trim_start s) "")) "".

(** A set of strings kept as a list without repetition. *)
Definition set_add (x : string) (s : list string) : list string :=
  if existsb (String.eqb x) s then s else s ++ [x].

(** ** src/pages/JobSeekerDashboard.tsx *)
Module JobSeekerDashboard.

Record State : Type := mk_state {
  jobs_shown : list jobs_row;
  appliedJobs : list uuid;
  toasts : list Toast
}.

Definition toast (t : Toast) (ui : State) : State :=
  mk_state (jobs_shown ui) (appliedJobs ui) (toasts ui ++ [t]).

(** The query of [fetchJobs], under the caller's session. *)
Definition fetchJobs_query (user : option User) (companyId : uuid) (d : Db)
  : list jobs_row :=
  rls_select (Policy.jobs_select (auth_uid user))
             (fun j => String.eqb (j_company_id j) companyId
                       && sql_is_true (j_is_active j))
             (jobs d).

Definition fetchJobs (user : option User) (companyId : uuid) (w : World)
           (ui : State) : State :=
  mk_state (fetchJobs_query user companyId (db w)) (appliedJobs ui) (toasts ui).

Definition handleApply (user : option User) (jobId : uuid) (w : World)
           (ui : State) : World * State :=
  match user with
  | None => (w, ui)
  | Some u =>
      let '(gen, w1) := gen_random_uuid w in
      let '(error, w2) :=
        run_statement
          (insert_job_applications (auth_uid user) gen
             (mk_application_insert jobId (u_id u) None None None None None None))
          w1 in
      match error with
      | Some e =>
          if String.eqb (code e) "23505"
          then (w2, toast (mk_toast destructive "Already Applied"
                             "You have already applied for this job") ui)
          else (w2, toast (mk_toast destructive "Error"
                             "Failed to submit application") ui)
      | None =>
          (w2, toast (mk_toast plain "Application Submitted!"
                        "Your application has been sent to the employer")
                 (mk_state (jobs_shown ui) (set_add jobId (appliedJobs ui))
                           (toasts ui)))
      end
  end.

End JobSeekerDashboard.

(** ** src/components/JobApplicationForm.tsx *)
Module JobApplicationForm.

Record File : Type := mk_file {
  file_name : string;
  file_type : string;
  file_size : Z
}.

Record State : Type := mk_state {
  is_open : bool;
  loading : bool;
  fullName : string;
  email : string;
  age : string;
  experienceYears : string;
  resumeFile : option File;
  submitted : nat;             (* calls of the onSuccess prop *)
  toasts : list Toast
}.

Definition toast (t : Toast) (ui : State) : State :=
  mk_state (is_open ui) (loading ui) (fullName ui) (email ui) (age ui)
           (experienceYears ui) (resumeFile ui) (submitted ui) (toasts ui ++ [t]).

Definition setLoading (b : bool) (ui : State) : State :=
  mk_state (is_open ui) b (fullName ui) (email ui) (age ui)
           (experienceYears ui) (resumeFile ui) (submitted ui) (toasts ui).

(** onSuccess(); onOpenChange(false); resetForm() *)
Definition succeed (ui : State) : State :=
  mk_state false (loading ui) (fullName ui) (email ui) "" "" None
           (S (submitted ui)) (toasts ui).

Definition submit_failed : Toast :=
  mk_toast destructive "Error" "Failed to submit application. Please try again.".

Section WithParseInt.

(** The built-in [parseInt]. *)
Variable parseInt : string -> number.

Definition handleSubmit (user : option User) (jobId : uuid) (w : World)
           (ui : State) : World * State :=
  match user, resumeFile ui with
  | Some u, Some file =>
      let ui1 := setLoading true ui in
      (* Upload resume to storage *)
      let fileExt := match pop (split "." (file_name file)) with
                     | Some e => e
                     | None => "undefined"
                     end in
      let filePath :=
        u_id u ++ "/" ++ jobId ++ "-" ++ to_string (now w) ++ "." ++ fileExt in
      match storage_upload w filePath with
      | Some uploadError => (w, setLoading false (toast submit_failed ui1))
      | None =>
          (* Get public URL *)
          let publicUrl := storage_public_url w filePath in
          (* Create application *)
          let '(gen, w1) := gen_random_uuid w in
          let '(appError, w2) :=
            run_statement
              (insert_job_applications (auth_uid user) gen
                 (mk_application_insert jobId (u_id u) None
                    (Some (fullName ui)) (Some (email ui))
                    (json_number (parseInt (age ui)))
                    (json_number (parseInt (experienceYears ui)))
                    (Some publicUrl)))
              w1 in
          match appError with
          | Some e =>
              if String.eqb (code e) "23505"
              then (w2, setLoading false
                          (toast (mk_toast destructive "Already Applied"
                                    "You have already applied for this job") ui1))
              else (w2, setLoading false (toast submit_failed ui1))
          | None =>
              (w2, setLoading false
                     (succeed
                        (toast (mk_toast plain "Application Submitted!"
                                  "Your application has been sent to the employer")
                               ui1)))
          end
      end
  | _, _ => (w, ui)
  end.

End WithParseInt.

End JobApplicationForm.

(** ** ViewApplicants (employer side) *)
Module ViewApplicants.

(** [{ id, title, company: { name } | null }] *)
Record Job : Type := mk_listed_job {
  job_id : uuid;
  job_title : string;
  job_company : option string
}.

Record Applicant : Type := mk_applicant {
  applicant_id : uuid;
  applicant_name : option string;
  applicant_email : option string;
  age : option Z;
  experience_years : option Z;
  resume_url : option string;
  status : option string
}.

Record State : Type := mk_state {
  jobs_listed : list Job;
  applicants : list Applicant;
  selectedJobId : string;
  selectedJob : option Job;
  loading : bool;
  sendingEmail : option string;
  (* Filtering state *)
  minExperience : string;
  maxExperience : string;
  statusFilter : string;
  (* Send to Boss modal state *)
  sendToBossOpen : bool;
  bossEmail : string;
  optionalMessage : string;
  sendingToBoss : bool;
  toasts : list Toast
}.

Definition initial : State :=
  mk_state [] [] "" None false None "" "" "all" false "" "" false [].

Definition toast (t : Toast) (ui : State) : State :=
  mk_state (jobs_listed ui) (applicants ui) (selectedJobId ui) (selectedJob ui)
           (loading ui) (sendingEmail ui) (minExperience ui) (maxExperience ui)
           (statusFilter ui) (sendToBossOpen ui) (bossEmail ui)
           (optionalMessage ui) (sendingToBoss ui) (toasts ui ++ [t]).

Definition setJobs (js : list Job) (ui : State) : State :=
  mk_state js (applicants ui) (selectedJobId ui) (selectedJob ui)
           (loading ui) (sendingEmail ui) (minExperience ui) (maxExperience ui)
           (statusFilter ui) (sendToBossOpen ui) (bossEmail ui)
           (optionalMessage ui) (sendingToBoss ui) (toasts ui).

Definition setApplicants (f : list Applicant -> list Applicant) (ui : State) : State :=
  mk_state (jobs_listed ui) (f (applicants ui)) (selectedJobId ui) (selectedJob ui)
           (loading ui) (sendingEmail ui) (minExperience ui) (maxExperience ui)
           (statusFilter ui) (sendToBossOpen ui) (bossEmail ui)
           (optionalMessage ui) (sendingToBoss ui) (toasts ui).

Definition setSendingEmail (v : option string) (ui : State) : State :=
  mk_state (jobs_listed ui) (applicants ui) (selectedJobId ui) (selectedJob ui)
           (loading ui) v (minExperience ui) (maxExperience ui)
           (statusFilter ui) (sendToBossOpen ui) (bossEmail ui)
           (optionalMessage ui) (sendingToBoss ui) (toasts ui).

Definition setSendingToBoss (b : bool) (ui : State) : State :=
  mk_state (jobs_listed ui) (applicants ui) (selectedJobId ui) (selectedJob ui)
           (loading ui) (sendingEmail ui) (minExperience ui) (maxExperience ui)
           (statusFilter ui) (sendToBossOpen ui) (bossEmail ui)
           (optionalMessage ui) b (toasts ui).

(** setSendToBossOpen(false); setBossEmail(''); setOptionalMessage('') *)
Definition closeSendToBoss (ui : State) : State :=
  mk_state (jobs_listed ui) (applicants ui) (selectedJobId ui) (selectedJob ui)
           (loading ui) (sendingEmail ui) (minExperience ui) (maxExperience ui)
           (statusFilter ui) false "" "" (sendingToBoss ui) (toasts ui).

Definition to_job (w : World) (j : jobs_row) : Job :=
  mk_listed_job (j_id j) (j_title j) (companies_name w (j_company_id j)).

Definition to_applicant (r : job_applications_row) : Applicant :=
  mk_applicant (a_id r) (a_applicant_name r) (a_applicant_email r) (a_age r)
               (a_experience_years r) (a_resume_url r) (a_status r).

(** The query of [fetchEmployerJobs] (and of the dashboard's [fetchData]):
    [.from('jobs').select(...).eq('user_id', user.id)], under the caller's
    session. *)
Definition fetchEmployerJobs_query (u : User) (d : Db) : list jobs_row :=
  rls_select (Policy.jobs_select (Some (u_id u)))
             (fun j => sql_eq (j_user_id j) (Some (u_id u)))
             (jobs d).

Definition fetchEmployerJobs (user : option User) (w : World) (ui : State) : State :=
  match user with
  | None => ui
  | Some u => setJobs (map (to_job w) (fetchEmployerJobs_query u (db w))) ui
  end.

Definition fetchApplicants (user : option User) (jobId : uuid) (w : World)
           (ui : State) : State :=
  setApplicants
    (fun _ =>
       map to_applicant
           (rls_select (Policy.job_applications_select (db w) (auth_uid user))
                       (fun r => String.eqb (a_job_id r) jobId)
                       (job_applications (db w))))
    ui.

(** handleJobSelect *)
Definition handleJobSelect (user : option User) (jobId : uuid) (w : World)
           (ui : State) : State :=
  let job := find (fun j => String.eqb (job_id j) jobId) (jobs_listed ui) in
  let ui1 :=
    mk_state (jobs_listed ui) (applicants ui) jobId job
             (loading ui) (sendingEmail ui) "" "" "all"
             (sendToBossOpen ui) (bossEmail ui) (optionalMessage ui)
             (sendingToBoss ui) (toasts ui) in
  fetchApplicants user jobId w ui1.

(** [{ ...app, status }] *)
Definition spread_status (s : string) (app : Applicant) : Applicant :=
  mk_applicant (applicant_id app) (applicant_name app) (applicant_email app)
               (age app) (experience_years app) (resume_url app) (Some s).

(** [prev.map(app => app.id === applicationId ? { ...app, status } : app)] *)
Definition mark (applicationId : uuid) (s : string) (prev : list Applicant)
  : list Applicant :=
  map (fun app => if String.eqb (applicant_id app) applicationId
                  then spread_status s app else app) prev.

Definition updateApplicationStatus (user : option User) (applicationId : uuid)
           (s : string) (w : World) (ui : State) : World * State :=
  let '(error, w1) :=
    run_statement
      (update_job_applications_status (auth_uid user) applicationId s) w in
  match error with
  | Some _ =>
      (w1, toast (mk_toast destructive "Error" "Failed to update status") ui)
  | None =>
      (w1, toast (mk_toast plain "Status Updated" ("Application marked as " ++ s))
             (setApplicants (mark applicationId s) ui))
  end.

(** The statuses [sendEmailAndUpdateStatus] accepts. *)
Inductive LetterStatus : Type := shortlisted | rejected | selected.

Definition status_text (s : LetterStatus) : string :=
  match s with
  | shortlisted => "shortlisted"
  | rejected => "rejected"
  | selected => "selected"
  end.

(** status.charAt(0).toUpperCase() + status.slice(1) *)
Definition capitalised (s : LetterStatus) : string :=
  match s with
  | shortlisted => "Shortlisted"
  | rejected => "Rejected"
  | selected => "Selected"
  end.

Definition sendEmailAndUpdateStatus (applicant : Applicant) (s : LetterStatus)
           (w : World) (ui : State) : World * State :=
  if negb (truthy_opt (applicant_email applicant)) then
    (w, toast (mk_toast destructive "Error" "Applicant email not available") ui)
  else
    match selectedJob ui with
    | None =>
        (w, toast (mk_toast destructive "Error" "Job information not available") ui)
    | Some job =>
        let ui1 := setSendingEmail (Some (applicant_id applicant)) ui in
        let '(error, w1) :=
          functions_invoke SendApplicantEmail.handler
            (SendApplicantEmail.mk_body
               (applicant_id applicant)
               (or_else (applicant_name applicant) "Applicant")
               (match applicant_email applicant with Some e => e | None => "" end)
               (job_title job)
               (status_text s)
               (or_else (job_company job) "Our Company"))
            w in
        match error with
        | Some _ =>
            (w1, setSendingEmail None
                   (toast (mk_toast destructive "Email Failed"
                             "Failed to send email. Please check your Resend configuration.")
                          ui1))
        | None =>
            (w1, setSendingEmail None
                   (toast (mk_toast plain "Email Sent!"
                             (capitalised s ++ " email sent to "
                              ++ match applicant_name applicant with
                                 | Some n => n
                                 | None => "null"
                                 end))
                          (setApplicants (mark (applicant_id applicant) (status_text s))
                                         ui1)))
        end
    end.

Section WithParseInt.

(** The built-in [parseInt]. *)
Variable parseInt : string -> number.

(** The predicate of [filteredApplicants]. *)
Definition passes_filters (ui : State) (applicant : Applicant) : bool :=
  let exp := Finite (match experience_years applicant with
                     | Some y => y
                     | None => 0%Z
                     end) in
  let minExp := if truthy (minExperience ui)
                then parseInt (minExperience ui) else Finite 0 in
  let maxExp := if truthy (maxExperience ui)
                then parseInt (maxExperience ui) else Infinity in
  if number_lt exp minExp || number_gt exp maxExp then false
  else if negb (String.eqb (statusFilter ui) "all")
          && negb (String.eqb (or_else (status applicant) "pending") (statusFilter ui))
  then false
  else true.

Definition filteredApplicants (ui : State) : list Applicant :=
  filter (passes_filters ui) (applicants ui).

Definition shortlistedApplicants (ui : State) : list Applicant :=
  filter (fun a => strict_eq (status a) "shortlisted") (filteredApplicants ui).

(** [applicantsToSend] of handleSendToBoss *)
Definition applicantsToSend (ui : State) : list Applicant :=
  if (0 <? length (shortlistedApplicants ui))%nat
  then shortlistedApplicants ui
  else filteredApplicants ui.

(** Generate signed URLs for resumes *)
Definition with_signed_url (w : World) (applicant : Applicant) : SendToBoss.Applicant :=
  let signedResumeUrl :=
    match resume_url applicant with
    | Some url =>
        if truthy url then
          let urlParts := split "/resumes/" url in
          match second urlParts with
          | Some filePath =>
              Some (or_else (storage_signed_url w filePath (60 * 60 * 24 * 7)) url)
          | None => Some url
          end
        else None
    | None => None
    end in
  SendToBoss.mk_applicant (or_else (applicant_name applicant) "Unknown")
                          (age applicant) (experience_years applicant)
                          signedResumeUrl.

Definition handleSendToBoss (w : World) (ui : State) : World * State :=
  if negb (truthy (trim (bossEmail ui))) then
    (w, toast (mk_toast destructive "Error" "Boss email is required") ui)
  else
    match selectedJob ui with
    | None =>
        (w, toast (mk_toast destructive "Error" "Please select a job first") ui)
    | Some job =>
        let toSend := applicantsToSend ui in
        if (length toSend =? 0)%nat then
          (w, toast (mk_toast destructive "Error" "No applicants to send") ui)
        else
          let ui1 := setSendingToBoss true ui in
          let applicantsWithSignedUrls := map (with_signed_url w) toSend in
          let '(error, w1) :=
            functions_invoke SendToBoss.handler
              (SendToBoss.mk_body
                 (trim (bossEmail ui))
                 (job_title job)
                 (or_else (job_company job) "Our Company")
                 (if truthy (trim (optionalMessage ui))
                  then Some (trim (optionalMessage ui)) else None)
                 applicantsWithSignedUrls)
              w in
          match error with
          | Some _ =>
              (w1, setSendingToBoss false
                     (toast (mk_toast destructive "Failed to Send"
                               "Could not send email to boss. Please check Resend configuration.")
                            ui1))
          | None =>
              (w1, setSendingToBoss false
                     (closeSendToBoss
                        (toast (mk_toast plain "Email Sent!"
                                  ("Shortlisted candidates sent to " ++ bossEmail ui))
                               ui1)))
          end
    end.

End WithParseInt.

End ViewApplicants.

(* ===================================================================== *)
(** * The ledger as a transition system *)
(* ===================================================================== *)

(** The statements the application issues, each with the session (or the
    service key) it is sent with.  No handler deletes a row or rewrites a
    role. *)
Inductive Command : Type :=
| SetRole (uid : option uuid) (gen : uuid) (user_id : uuid) (role : user_role)
| CreateJob (uid : option uuid) (row : jobs_row)
| ToggleJobActive (uid : option uuid) (jobId : uuid) (is_active : bool)
| CreateApplication (uid : option uuid) (gen : uuid) (p : application_insert)
| UpdateStatus (uid : option uuid) (applicationId : uuid) (status : string)
| ServiceUpdateStatus (applicationId : uuid) (status : string).

Definition exec (c : Command) (d : Db) : StatementResult :=
  match c with
  | SetRole uid gen user_id role => insert_user_roles uid gen user_id role d
  | CreateJob uid row => insert_jobs uid row d
  | ToggleJobActive uid jobId b => update_jobs_is_active uid jobId b d
  | CreateApplication uid gen p => insert_job_applications uid gen p d
  | UpdateStatus uid applicationId s =>
      update_job_applications_status uid applicationId s d
  | ServiceUpdateStatus applicationId s =>
      service_update_job_applications_status applicationId s d
  end.

Definition run (cs : list Command) (d : Db) : Db :=
  fold_left (fun d c => snd (exec c d)) cs d.

(** Number of application rows for a (job, applicant) pair. *)
Definition count_pair (job_id user_id : uuid) (d : Db) : nat :=
  length (filter (same_pair job_id user_id) (job_applications d)).

(** Number of role rows of a user, and the roles they carry. *)
Definition roles_of (user_id : uuid) (d : Db) : list user_role :=
  map ur_role (filter (fun r => String.eqb (ur_user_id r) user_id) (user_roles d)).

(** The status of the application rows with a given id. *)
Definition statuses_of (applicationId : uuid) (d : Db) : list (option string) :=
  map a_status (filter (fun r => String.eqb (a_id r) applicationId)
                       (job_applications d)).

(** What a command can do to the applications table: rewrite rows in place,
    keeping their keys, or append one row for a pair that has none. *)
Inductive applications_change (t : list job_applications_row)
  : list job_applications_row -> Prop :=
| rows_rewritten (f : job_applications_row -> job_applications_row) :
    (forall r, a_id (f r) = a_id r /\ a_job_id (f r) = a_job_id r
               /\ a_user_id (f r) = a_user_id r) ->
    applications_change t (map f t)
| row_appended (row : job_applications_row) :
    (forall r, In r t -> same_pair (a_job_id row) (a_user_id row) r = false) ->
    applications_change t (t ++ [row]).

(* ===================================================================== *)
(** * A small deployment used in the examples *)
(* ===================================================================== *)

Module Scenario.

Definition employer1 : User := mk_user "e1" (Some "e1@corp.example").
Definition employer2 : User := mk_user "e2" (Some "e2@other.example").
Definition seeker : User := mk_user "a1" (Some "a1@mail.example").

Definition job1 : jobs_row :=
  mk_job "j1" "Data Analyst" "c1" (Some "Full-time") None None None None
         (Some true) (Some "e1") (Some 2%Z).

(** The same posting, switched off. *)
Definition job1_inactive : jobs_row := with_is_active (Some false) job1.

Definition application1 : application_insert :=
  mk_application_insert "j1" "a1" None (Some "Ada") (Some "a1@mail.example")
                        (Some 30%Z) (Some 4%Z) (Some "https://s/resumes/a1/j1-1.pdf").

(** e1 posts job j1, a1 applies. *)
Definition ledger : Db :=
  run [CreateJob (Some "e1") job1; CreateApplication (Some "a1") "app1" application1]
      empty_db.

Definition world (d : Db) (mail : Email -> SendOutcome) : World :=
  mk_world d [] mail (fun n => "app" ++ to_string (Z.of_nat n + 2)) 0 1766400000000
           (fun _ => None) (fun p => "https://s/resumes/" ++ p)
           (fun p _ => Some ("https://s/sign/resumes/" ++ p))
           (fun _ => Some "DataFlow Systems").

(** The provider takes every message. *)
Definition delivering : Email -> SendOutcome :=
  fun _ => Resolves (mk_email_response (Some "re_1") None).

(** The request to the provider fails. *)
Definition failing : Email -> SendOutcome := fun _ => Rejects "fetch failed".

(** The provider answers every message with a refusal. *)
Definition refusing : Email -> SendOutcome :=
  fun _ => Resolves (mk_email_response None (Some "API key is invalid")).

(** Three applicants as the dialog lists them. *)
Definition ada : ViewApplicants.Applicant :=
  ViewApplicants.mk_applicant "app1" (Some "Ada") (Some "a1@mail.example")
    (Some 30%Z) (Some 4%Z) (Some "https://s/resumes/a1/j1-1.pdf") (Some "pending").
Definition bob : ViewApplicants.Applicant :=
  ViewApplicants.mk_applicant "app2" (Some "Bob") (Some "a2@mail.example")
    (Some 41%Z) (Some 9%Z) None (Some "shortlisted").
Definition cyd : ViewApplicants.Applicant :=
  ViewApplicants.mk_applicant "app3" None None None None None (Some "reviewed").

(** The dialog with job j1 selected, no filter set, and the boss's address
    typed in. *)
Definition dialog (listed : list ViewApplicants.Applicant) : ViewApplicants.State :=
  ViewApplicants.mk_state [] listed "j1"
    (Some (ViewApplicants.mk_listed_job "j1" "Data Analyst" (Some "DataFlow Systems")))
    false None "" "" "all" true " boss@corp.example" "" false [].

(** A [parseInt] for inputs that are not numerals. *)
Definition not_a_number : string -> number := fun _ => NaN.

End Scenario.

(** A deployment with the ids as the database prints them: one employer,
    one posting, one application, still pending. *)
Module Refusal.

Definition employer_id : uuid := "3f2a9c1e-6b4d-4e8a-9d27-5c1b7a90e4f2".
Definition seeker_id : uuid := "b81d4c06-2e5f-4a93-8c7e-0d9a6f13b254".
Definition company_id : uuid := "7c5e1b90-a3d8-4f26-b1c4-e92f08d6a7b3".
Definition posting_id : uuid := "d4a7e2f8-19c3-4b65-a0e1-6f8b3c57d920".
Definition application_id : uuid := "0e9b6d34-c7a1-4f58-92b0-a15d3e8f6c47".

Definition posting : jobs_row :=
  mk_job posting_id "Data Analyst" company_id (Some "Full-time") None None None
         None (Some true) (Some employer_id) (Some 2%Z).

Definition application : application_insert :=
  mk_application_insert posting_id seeker_id None (Some "Ada")
                        (Some "ada@mail.example") (Some 30%Z) (Some 4%Z) None.

Definition ledger : Db :=
  run [CreateJob (Some employer_id) posting;
       CreateApplication (Some seeker_id) application_id application]
      empty_db.

(** The applicant as the employer's dialog lists her, and the dialog with
    the posting selected. *)
Definition ada : ViewApplicants.Applicant :=
  ViewApplicants.mk_applicant application_id (Some "Ada") (Some "ada@mail.example")
    (Some 30%Z) (Some 4%Z) None (Some "pending").

Definition dialog (listed : list ViewApplicants.Applicant) : ViewApplicants.State :=
  ViewApplicants.mk_state [] listed posting_id
    (Some (ViewApplicants.mk_listed_job posting_id "Data Analyst"
             (Some "DataFlow Systems")))
    false None "" "" "all" false "" "" false [].

(** What the "Shortlist" button of that dialog sends for her. *)
Definition request : Request SendApplicantEmail.EmailRequest :=
  mk_request "POST"
    (SendApplicantEmail.mk_body application_id "Ada" "ada@mail.example"
                                "Data Analyst" "shortlisted" "DataFlow Systems").

End Refusal.

(* ===================================================================== *)
(** * Further handlers *)
(* ===================================================================== *)

(** [s || null] on a string. *)
Definition or_null (s : string) : option string :=
  if truthy s then Some s else None.

(** [s.includes(sep)]: [sep] occurs somewhere in [s]. *)
Fixpoint occurs (sep s : string) : bool :=
  match s with
  | EmptyString => String.prefix sep s
  | String _ s' => String.prefix sep s || occurs sep s'
  end.

(** [new Set(xs)], kept as a list in order of first occurrence. *)
Definition set_of (xs : list string) : list string :=
  fold_left (fun s x => set_add x s) xs [].

(** ** src/components/JobApplicationForm.tsx: the resume input *)
Module ResumeInput.

Definition setResumeFile (f : option JobApplicationForm.File)
           (ui : JobApplicationForm.State) : JobApplicationForm.State :=
  JobApplicationForm.mk_state
    (JobApplicationForm.is_open ui) (JobApplicationForm.loading ui)
    (JobApplicationForm.fullName ui) (JobApplicationForm.email ui)
    (JobApplicationForm.age ui) (JobApplicationForm.experienceYears ui)
    f (JobApplicationForm.submitted ui) (JobApplicationForm.toasts ui).

(** [handleFileChange]; [picked] is [e.target.files?.[0]]. *)
Definition handleFileChange (picked : option JobApplicationForm.File)
           (ui : JobApplicationForm.State) : JobApplicationForm.State :=
  match picked with
  | None => ui
  | Some file =>
      if negb (String.eqb (JobApplicationForm.file_type file) "application/pdf")
      then JobApplicationForm.toast
             (mk_toast destructive "Invalid File" "Please upload a PDF file only") ui
      else if (5 * 1024 * 1024 <? JobApplicationForm.file_size file)%Z
      then JobApplicationForm.toast
             (mk_toast destructive "File Too Large" "Resume must be less than 5MB") ui
      else setResumeFile (Some file) ui
  end.

(** What the input lets through. *)
Definition acceptable (f : JobApplicationForm.File) : bool :=
  String.eqb (JobApplicationForm.file_type f) "application/pdf"
  && (JobApplicationForm.file_size f <=? 5 * 1024 * 1024)%Z.

End ResumeInput.

(** ** src/pages/JobSeekerDashboard.tsx: the jobs already applied to *)
Module AppliedJobs.

(** The query of [fetchAppliedJobs]:
    [.from('job_applications').select('job_id').eq('user_id', user.id)]. *)
Definition fetchAppliedJobs_query (u : User) (d : Db) : list uuid :=
  map a_job_id
      (rls_select (Policy.job_applications_select d (Some (u_id u)))
                  (fun r => String.eqb (a_user_id r) (u_id u))
                  (job_applications d)).

Definition fetchAppliedJobs (user : option User) (w : World)
           (ui : JobSeekerDashboard.State) : JobSeekerDashboard.State :=
  match user with
  | None => ui
  | Some u =>
      JobSeekerDashboard.mk_state
        (JobSeekerDashboard.jobs_shown ui)
        (set_of (fetchAppliedJobs_query u (db w)))
        (JobSeekerDashboard.toasts ui)
  end.

End AppliedJobs.

(** ** src/components/CreateJobForm.tsx *)
Module CreateJobForm.

Record State : Type := mk_state {
  is_open : bool;
  loading : bool;
  title : string;
  companyId : string;
  jobType : string;
  location : string;
  salaryRange : string;
  minimumExperience : string;
  description : string;
  requirements : string;
  posted : nat;                (* calls of the onSuccess prop *)
  toasts : list Toast
}.

Definition initial : State :=
  mk_state true false "" "" "Full-time" "" "" "0" "" "" 0 [].

Definition toast (t : Toast) (ui : State) : State :=
  mk_state (is_open ui) (loading ui) (title ui) (companyId ui) (jobType ui)
           (location ui) (salaryRange ui) (minimumExperience ui)
           (description ui) (requirements ui) (posted ui) (toasts ui ++ [t]).

Definition setLoading (b : bool) (ui : State) : State :=
  mk_state (is_open ui) b (title ui) (companyId ui) (jobType ui)
           (location ui) (salaryRange ui) (minimumExperience ui)
           (description ui) (requirements ui) (posted ui) (toasts ui).

(** onSuccess(); onOpenChange(false); resetForm() *)
Definition succeed (ui : State) : State :=
  mk_state false (loading ui) "" "" "Full-time" "" "" "0" "" ""
           (S (posted ui)) (toasts ui).

Definition post_failed : Toast :=
  mk_toast destructive "Error" "Failed to create job posting. Please try again.".

Section WithParseInt.

(** The built-in [parseInt]. *)
Variable parseInt : string -> number.

(** The row the form asks to insert, [gen] being the generated id. *)
Definition new_job (u : User) (gen : uuid) (ui : State) : jobs_row :=
  mk_job gen (title ui) (companyId ui) (Some (jobType ui))
         (or_null (location ui)) (or_null (salaryRange ui))
         (or_null (description ui)) (or_null (requirements ui))
         (Some true) (Some (u_id u))
         (json_number (parseInt (minimumExperience ui))).

Definition handleSubmit (user : option User) (w : World) (ui : State)
  : World * State :=
  match user with
  | None => (w, ui)
  | Some u =>
      if negb (truthy (companyId ui)) then (w, ui)
      else
        let ui1 := setLoading true ui in
        let '(gen, w1) := gen_random_uuid w in
        let '(error, w2) :=
          run_statement (insert_jobs (auth_uid user) (new_job u gen ui)) w1 in
        match error with
        | Some _ => (w2, setLoading false (toast post_failed ui1))
        | None =>
            (w2, setLoading false
                   (succeed
                      (toast (mk_toast plain "Job Posted!"
                                "Your job listing is now live") ui1)))
        end
  end.

End WithParseInt.

End CreateJobForm.

(** ** src/pages/EmployerDashboard.tsx *)
Module EmployerDashboard.

Record Job : Type := mk_listed {
  job_id : uuid;
  job_title : string;
  job_type : option string;
  job_location : option string;
  job_salary_range : option string;
  job_is_active : option bool;
  job_company : option string
}.

Record State : Type := mk_state {
  jobs_listed : list Job;
  activeJobs : Z;
  totalApplications : nat;
  loadingData : bool
}.

Definition to_listed (w : World) (j : jobs_row) : Job :=
  mk_listed (j_id j) (j_title j) (j_job_type j) (j_location j)
            (j_salary_range j) (j_is_active j) (companies_name w (j_company_id j)).

(** Truthiness of a [boolean | null]. *)
Definition is_true (b : option bool) : bool :=
  match b with
  | Some true => true
  | _ => false
  end.

(** The head count of [fetchData]:
    [.from('job_applications').select('id', { count: 'exact', head: true })
     .in('job_id', ids)], under the caller's session. *)
Definition count_applications (u : User) (ids : list uuid) (d : Db) : nat :=
  length (rls_select (Policy.job_applications_select d (Some (u_id u)))
                     (fun r => existsb (String.eqb (a_job_id r)) ids)
                     (job_applications d)).

Definition fetchData (user : option User) (w : World) (ui : State) : State :=
  match user with
  | None => ui
  | Some u =>
      let jobsData := map (to_listed w)
                          (ViewApplicants.fetchEmployerJobs_query u (db w)) in
      mk_state jobsData
               (Z.of_nat (length (filter (fun j => is_true (job_is_active j)) jobsData)))
               (count_applications u (map job_id jobsData) (db w))
               false
  end.

Definition toggleJobActive (user : option User) (jobId : uuid) (currentActive : bool)
           (w : World) (ui : State) : World * State :=
  let '(error, w1) :=
    run_statement
      (update_jobs_is_active (auth_uid user) jobId (negb currentActive)) w in
  match error with
  | Some _ => (w1, ui)
  | None =>
      (w1,
       mk_state
         (map (fun job => if String.eqb (job_id job) jobId
                          then mk_listed (job_id job) (job_title job) (job_type job)
                                         (job_location job) (job_salary_range job)
                                         (Some (negb currentActive)) (job_company job)
                          else job)
              (jobs_listed ui))
         (activeJobs ui + (if negb currentActive then 1 else -1))%Z
         (totalApplications ui)
         (loadingData ui))
  end.

End EmployerDashboard.

(** ** The redirects of the four pages *)
Module Routes.

Inductive Page : Type :=
| Index                 (* "/" *)
| Auth                  (* "/auth" *)
| EmployerDashboard     (* "/employer-dashboard" *)
| JobSeekerDashboard    (* "/job-seeker-dashboard" *).

(** What [useAuth()] hands to a page. *)
Record Session : Type := mk_session {
  loading : bool;
  user : option User;
  role : option user_role
}.

Definition is_employer (r : option user_role) : bool :=
  match r with
  | Some employer => true
  | _ => false
  end.

Definition is_job_seeker (r : option user_role) : bool :=
  match r with
  | Some job_seeker => true
  | _ => false
  end.

Definition present {A : Type} (x : option A) : bool :=
  match x with
  | Some _ => true
  | None => false
  end.

(** The [navigate] call of the page's effect, if it makes one. *)
Definition redirect (p : Page) (s : Session) : option Page :=
  match p with
  | Index | Auth =>
      if negb (loading s) && present (user s) && present (role s)
      then if is_employer (role s) then Some EmployerDashboard
           else Some JobSeekerDashboard
      else None
  | EmployerDashboard =>
      if negb (loading s) && (negb (present (user s)) || negb (is_employer (role s)))
      then Some Auth
      else None
  | JobSeekerDashboard =>
      if negb (loading s) && (negb (present (user s)) || negb (is_job_seeker (role s)))
      then Some Auth
      else None
  end.

(** Follow at most [n] redirects. *)
Fixpoint settle (n : nat) (p : Page) (s : Session) : Page :=
  match n with
  | O => p
  | S k =>
      match redirect p s with
      | Some q => settle k q s
      | None => p
      end
  end.

Definition home (r : user_role) : Page :=
  match r with
  | employer => EmployerDashboard
  | job_seeker => JobSeekerDashboard
  end.

End Routes.

(** ** Invariants of the ledger *)

(** Every application refers to a stored job. *)
Definition references_hold (d : Db) : Prop :=
  forall r, In r (job_applications d) ->
            exists j, In j (jobs d) /\ j_id j = a_job_id r.

(** No two rows of a table share an id. *)
Definition ids_unique (d : Db) : Prop :=
  NoDup (map a_id (job_applications d)) /\ NoDup (map j_id (jobs d)).

(** Further cases used in the examples. *)
Module Cases.

Definition cv : JobApplicationForm.File :=
  JobApplicationForm.mk_file "cv.pdf" "application/pdf" 120000.

Definition photo : JobApplicationForm.File :=
  JobApplicationForm.mk_file "me.png" "image/png" 120000.

Definition blank_form : JobApplicationForm.State :=
  JobApplicationForm.mk_state true false "Ada" "a1@mail.example" "30" "4" None 0 [].

Definition job_form : CreateJobForm.State :=
  CreateJobForm.mk_state true false "Data Analyst" "c1" "Full-time" "" "" "2"
                         "Analyze large datasets" "" 0 [].

(** A [parseInt] good for the one-digit entries of the examples. *)
Definition one_digit (s : string) : number :=
  match s with
  | String c EmptyString =>
      let n := nat_of_ascii c in
      if ((48 <=? n) && (n <=? 57))%nat then Finite (Z.of_nat n - 48) else NaN
  | _ => NaN
  end.

Definition signed_in (r : user_role) : Routes.Session :=
  Routes.mk_session false (Some Scenario.seeker) (Some r).

End Cases.

(* ===================================================================== *)
(** * Concrete runs *)
(* ===================================================================== *)

Example split_resume_url :
  split "/resumes/" "https://x/storage/v1/object/public/resumes/u1/j1-17.pdf"
  = ["https://x/storage/v1/object/public"; "u1/j1-17.pdf"].
Proof. reflexivity. Qed.

Example split_extension : pop (split "." "cv.final.pdf") = Some "pdf".
Proof. reflexivity. Qed.

Example split_trailing_separator : split "/resumes/" "a/resumes/" = ["a"; ""].
Proof. reflexivity. Qed.

Example to_string_runs :
  to_string 1766400000000 = "1766400000000" /\ to_string 0 = "0"
  /\ to_string (-42) = "-42" /\ to_string 1000 = "1000".
Proof. repeat split; reflexivity. Qed.

Example trim_runs : trim "  boss@corp.example " = "boss@corp.example" /\ trim "   " = "".
Proof. split; reflexivity. Qed.

Example ledger_has_pending_application :
  statuses_of "app1" Scenario.ledger = [Some "pending"].
Proof. reflexivity. Qed.

(* ===================================================================== *)
(** * Facts about the statements *)
(* ===================================================================== *)

Lemma String_eqb_true_iff (a b : string) : String.eqb a b = true <-> a = b.
Proof. apply String.eqb_eq. Qed.

Lemma sql_eq_true (a b : option uuid) :
  sql_eq a b = true <-> exists x, a = Some x /\ b = Some x.
Proof.
  split.
  - destruct a as [x|], b as [y|]; simpl; intros H; try discriminate.
    apply String.eqb_eq in H. subst. eauto.
  - intros [x [-> ->]]. simpl. apply String.eqb_refl.
Qed.

Lemma sql_eq_sym (a b : option uuid) : sql_eq a b = sql_eq b a.
Proof.
  destruct a, b; simpl; auto using String.eqb_sym.
Qed.

(** is_job_owner is the SQL EXISTS it abbreviates. *)
Lemma is_job_owner_spec (d : Db) (u : uuid) (job : uuid) :
  Policy.is_job_owner d (Some u) job = true
  <-> exists j, In j (jobs d) /\ j_id j = job /\ j_user_id j = Some u.
Proof.
  unfold Policy.is_job_owner. rewrite existsb_exists. split.
  - intros [j [Hin H]]. apply andb_true_iff in H as [H1 H2].
    apply String.eqb_eq in H1. apply sql_eq_true in H2 as [x [Hx1 Hx2]].
    inversion Hx2; subst. eauto.
  - intros [j [Hin [H1 H2]]]. exists j. split; [assumption|].
    rewrite H1, H2. simpl. now rewrite !String.eqb_refl.
Qed.

(** An anonymous caller owns nothing. *)
Lemma is_job_owner_anonymous (d : Db) (job : uuid) :
  Policy.is_job_owner d None job = false.
Proof.
  unfold Policy.is_job_owner. induction (jobs d) as [|j js IH]; simpl; auto.
  rewrite IH. destruct (j_user_id j); simpl; now rewrite andb_false_r.
Qed.

Section RlsUpdate.

Context {R : Type} (target : R -> bool) (set : R -> R) (check : R -> bool).

(** An UPDATE whose filters admit no row changes nothing and reports
    nothing. *)
Lemma rls_update_no_target (t : list R) :
  (forall r, In r t -> target r = false) ->
  rls_update target set check t = (None, t).
Proof.
  intros H. unfold rls_update.
  assert (E : existsb (fun r => target r && negb (check (set r))) t = false).
  { apply not_true_is_false. intros C. apply existsb_exists in C as [r [Hin Hr]].
    rewrite (H r Hin) in Hr. discriminate. }
  rewrite E. f_equal. clear E.
  induction t as [|r t IH]; simpl; [reflexivity|].
  rewrite (H r (or_introl eq_refl)). f_equal.
  apply IH. intros r' Hr'. apply H. now right.
Qed.

(** An UPDATE whose new rows all pass the check rewrites exactly the
    targeted rows. *)
Lemma rls_update_all_checked (t : list R) :
  (forall r, In r t -> target r = true -> check (set r) = true) ->
  rls_update target set check t
  = (None, map (fun r => if target r then set r else r) t).
Proof.
  intros H. unfold rls_update.
  assert (E : existsb (fun r => target r && negb (check (set r))) t = false).
  { apply not_true_is_false. intros C. apply existsb_exists in C as [r [Hin Hr]].
    apply andb_true_iff in Hr as [H1 H2]. rewrite (H r Hin H1) in H2. discriminate. }
  now rewrite E.
Qed.

(** Either way the result is the table or the table with [set] applied to
    some rows. *)
Lemma rls_update_shape (t : list R) :
  snd (rls_update target set check t) = t
  \/ snd (rls_update target set check t)
     = map (fun r => if target r then set r else r) t.
Proof.
  unfold rls_update. destruct (existsb _ t); simpl; auto.
Qed.

End RlsUpdate.

(** The status update of a session never raises: the new row differs from
    the old one in [status] only, which no policy reads. *)
Lemma update_job_applications_status_reports_nothing
      (uid : option uuid) (applicationId : uuid) (s : string) (d : Db) :
  update_job_applications_status uid applicationId s d
  = (None,
     set_job_applications
       (map (fun r => if targeted d uid applicationId r
                      then with_status (Some s) r else r)
            (job_applications d)) d).
Proof.
  unfold update_job_applications_status.
  rewrite rls_update_all_checked; [reflexivity|].
  intros r _ H. unfold targeted in H.
  apply andb_true_iff in H as [H Hu]. apply andb_true_iff in H as [_ Hs].
  unfold Policy.job_applications_update_check, Policy.job_applications_select in *.
  unfold Policy.job_applications_update_using in Hu. simpl.
  rewrite Hu. now rewrite orb_true_r.
Qed.

Lemma set_job_applications_same (d : Db) :
  set_job_applications (job_applications d) d = d.
Proof. now destruct d. Qed.

Lemma set_db_same (w : World) : set_db (db w) w = w.
Proof. now destruct w. Qed.

(** An anonymous request updates no application. *)
Lemma anonymous_update_changes_nothing (applicationId : uuid) (s : string) (d : Db) :
  update_job_applications_status None applicationId s d = (None, d).
Proof.
  unfold update_job_applications_status.
  rewrite rls_update_no_target.
  - now rewrite set_job_applications_same.
  - intros r _. unfold targeted, Policy.job_applications_update_using.
    rewrite is_job_owner_anonymous. now rewrite andb_false_r.
Qed.

(* ===================================================================== *)
(** * C1: who may update a status *)
(* ===================================================================== *)

(** C1, as the statement behaves (amended): for every user U and every
    application whose job is not owned by U, the status update sent with U's
    session rewrites no row and reports no error; the database is left as it
    was.  U may be the applicant. *)
Theorem C1_non_owner_update_changes_nothing
        (d : Db) (U : uuid) (applicationId : uuid) (s : string) :
  (forall r J, In r (job_applications d) -> a_id r = applicationId ->
               In J (jobs d) -> j_id J = a_job_id r -> j_user_id J <> Some U) ->
  update_job_applications_status (Some U) applicationId s d = (None, d).
Proof.
  intros Hnot. unfold update_job_applications_status.
  rewrite rls_update_no_target.
  - now rewrite set_job_applications_same.
  - intros r Hin. unfold targeted.
    destruct (String.eqb (a_id r) applicationId) eqn:Eid; simpl; [|reflexivity].
    apply String.eqb_eq in Eid.
    assert (Hown : Policy.is_job_owner d (Some U) (a_job_id r) = false).
    { apply not_true_is_false. intros C.
      apply is_job_owner_spec in C as [J [HJ [Hid Hu]]].
      exact (Hnot r J Hin Eid HJ Hid Hu). }
    unfold Policy.job_applications_update_using. rewrite Hown.
    now rewrite andb_false_r.
Qed.

(** e2 does not own j1; the applicant a1 does not either. *)
Lemma C1_non_owner_update_witness :
  update_job_applications_status (Some "e2") "app1" "rejected" Scenario.ledger
  = (None, Scenario.ledger)
  /\ update_job_applications_status (Some "a1") "app1" "selected" Scenario.ledger
     = (None, Scenario.ledger).
Proof.
  split; apply C1_non_owner_update_changes_nothing;
    intros r J [Hr|[]] _ [HJ|[]] _; subst J; simpl; discriminate.
Defined.

(** C1 as stated fails on the code: with e2's session the update of an
    application under e1's job is not refused, it reports no error at all;
    and the same update requested through the send-applicant-email function,
    which checks no caller, rewrites the status. *)
Lemma C1_not_forbidden_counterexample :
  Policy.is_job_owner Scenario.ledger (Some "e2") "j1" = false
  /\ fst (update_job_applications_status (Some "e2") "app1" "rejected" Scenario.ledger)
     = None
  /\ statuses_of "app1" Scenario.ledger = [Some "pending"]
  /\ statuses_of "app1"
       (db (snd (SendApplicantEmail.handler
                   (mk_request "POST"
                      (SendApplicantEmail.mk_body "app1" "Ada" "a1@mail.example"
                                                  "Data Analyst" "rejected" "Other Corp"))
                   (Scenario.world Scenario.ledger Scenario.delivering))))
     = [Some "rejected"].
Proof. repeat split; reflexivity. Qed.

(* ===================================================================== *)
(** * C2: one application per (job, applicant) *)
(* ===================================================================== *)

Lemma run_app (cs cs' : list Command) (d : Db) :
  run (cs ++ cs') d = run cs' (run cs d).
Proof. apply fold_left_app. Qed.

Lemma run_cons (c : Command) (cs : list Command) (d : Db) :
  run (c :: cs) d = run cs (snd (exec c d)).
Proof. reflexivity. Qed.

Lemma applications_unchanged (t : list job_applications_row) :
  applications_change t t.
Proof.
  rewrite <- (map_id t) at 2. now apply rows_rewritten.
Qed.

Lemma with_status_keys (s : option string) (r : job_applications_row) :
  a_id (with_status s r) = a_id r /\ a_job_id (with_status s r) = a_job_id r
  /\ a_user_id (with_status s r) = a_user_id r.
Proof. now destruct r. Qed.

Lemma exec_applications_change (c : Command) (d : Db) :
  applications_change (job_applications d) (job_applications (snd (exec c d))).
Proof.
  destruct c as [uid gen user role|uid row|uid jobId b|uid gen p|uid appId s|appId s];
    simpl.
  - unfold insert_user_roles.
    repeat match goal with |- context [if ?b then _ else _] => destruct b end;
      simpl; apply applications_unchanged.
  - unfold insert_jobs.
    repeat match goal with |- context [if ?b then _ else _] => destruct b end;
      simpl; apply applications_unchanged.
  - unfold update_jobs_is_active. destruct (rls_update _ _ _ _) as [e t].
    simpl. apply applications_unchanged.
  - unfold insert_job_applications.
    destruct (negb (int4_ok (ai_age p) && int4_ok (ai_experience_years p)));
      [simpl; apply applications_unchanged|].
    destruct (negb (Policy.job_applications_insert_check uid (apply_defaults gen p)));
      [simpl; apply applications_unchanged|].
    destruct (existsb _ (job_applications d)) eqn:E;
      [simpl; apply applications_unchanged|].
    destruct (negb (existsb _ (jobs d)));
      [simpl; apply applications_unchanged|].
    simpl. apply row_appended. intros r Hin. simpl.
    destruct (same_pair (ai_job_id p) (ai_user_id p) r) eqn:Es; [|reflexivity].
    exfalso. assert (C : existsb
      (fun r0 => String.eqb (a_id r0) gen || same_pair (ai_job_id p) (ai_user_id p) r0)
      (job_applications d) = true).
    { apply existsb_exists. exists r. split; [assumption|].
      rewrite Es. apply orb_true_r. }
    congruence.
  - rewrite update_job_applications_status_reports_nothing. simpl.
    apply rows_rewritten. intros r.
    destruct (targeted d uid appId r); [apply with_status_keys | auto].
  - apply rows_rewritten. intros r.
    destruct (String.eqb _ _); [apply with_status_keys | auto].
Qed.

Lemma count_filter_map_keys (j u : uuid)
      (f : job_applications_row -> job_applications_row)
      (t : list job_applications_row) :
  (forall r, a_id (f r) = a_id r /\ a_job_id (f r) = a_job_id r
             /\ a_user_id (f r) = a_user_id r) ->
  length (filter (same_pair j u) (map f t)) = length (filter (same_pair j u) t).
Proof.
  intros Hf. induction t as [|r t IH]; simpl; [reflexivity|].
  assert (E : same_pair j u (f r) = same_pair j u r).
  { unfold same_pair. destruct (Hf r) as [_ [-> ->]]. reflexivity. }
  rewrite E. destruct (same_pair j u r); simpl; now rewrite IH.
Qed.

Lemma same_pair_eq (j u : uuid) (r : job_applications_row) :
  same_pair j u r = true <-> a_job_id r = j /\ a_user_id r = u.
Proof.
  unfold same_pair. rewrite andb_true_iff, !String.eqb_eq. tauto.
Qed.

Lemma count_pair_zero (j u : uuid) (t : list job_applications_row) :
  (forall r, In r t -> same_pair j u r = false) ->
  filter (same_pair j u) t = [].
Proof.
  intros H. induction t as [|r t IH]; simpl; [reflexivity|].
  rewrite (H r (or_introl eq_refl)). apply IH. intros r' Hr'. apply H. now right.
Qed.

(** A command never removes an application, and never makes a second one
    for a pair. *)
Lemma exec_count_pair (c : Command) (d : Db) (j u : uuid) :
  count_pair j u d <= count_pair j u (snd (exec c d))
  /\ (count_pair j u d <= 1 -> count_pair j u (snd (exec c d)) <= 1).
Proof.
  unfold count_pair.
  destruct (exec_applications_change c d) as [f Hf|row Hrow].
  - rewrite (count_filter_map_keys j u f _ Hf). lia.
  - rewrite filter_app, length_app. simpl.
    destruct (same_pair j u row) eqn:E; simpl; [|lia].
    apply same_pair_eq in E as [<- <-].
    rewrite (count_pair_zero _ _ _ Hrow). simpl. lia.
Qed.

Lemma run_count_pair (cs : list Command) (d : Db) (j u : uuid) :
  count_pair j u d <= count_pair j u (run cs d)
  /\ (count_pair j u d <= 1 -> count_pair j u (run cs d) <= 1).
Proof.
  revert d. induction cs as [|c cs IH]; intros d; [simpl; lia|].
  rewrite run_cons.
  destruct (exec_count_pair c d j u) as [H1 H2].
  destruct (IH (snd (exec c d))) as [H3 H4].
  split; [lia | auto].
Qed.

(** In every state the ledger can reach, a (job, applicant) pair has at most
    one application. *)
Lemma reachable_applications_unique (cs : list Command) (j u : uuid) :
  count_pair j u (run cs empty_db) <= 1.
Proof.
  apply run_count_pair. unfold count_pair. simpl. lia.
Qed.

Lemma count_pair_positive (j u : uuid) (d : Db) :
  1 <= count_pair j u d ->
  exists r, In r (job_applications d) /\ same_pair j u r = true.
Proof.
  unfold count_pair. intros H.
  destruct (filter (same_pair j u) (job_applications d)) as [|r t] eqn:E;
    [simpl in H; lia|].
  exists r. apply filter_In. rewrite E. now left.
Qed.

(** When a row for the pair exists, the applicant's own insert meets the
    unique index. *)
Lemma insert_existing_pair_conflicts
      (gen : uuid) (p : application_insert) (d : Db) :
  int4_ok (ai_age p) = true -> int4_ok (ai_experience_years p) = true ->
  1 <= count_pair (ai_job_id p) (ai_user_id p) d ->
  insert_job_applications (Some (ai_user_id p)) gen p d = (Some unique_violation, d).
Proof.
  intros Ha He Hc. unfold insert_job_applications.
  rewrite Ha, He. simpl.
  unfold Policy.job_applications_insert_check. simpl.
  rewrite String.eqb_refl. simpl.
  destruct (count_pair_positive _ _ _ Hc) as [r [Hin Hr]].
  assert (E : existsb
    (fun r0 => String.eqb (a_id r0) gen || same_pair (ai_job_id p) (ai_user_id p) r0)
    (job_applications d) = true).
  { apply existsb_exists. exists r. split; [assumption|]. rewrite Hr. apply orb_true_r. }
  now rewrite E.
Qed.

(** A successful insert was made by the applicant and leaves one row for
    the pair. *)
Lemma insert_success (uid : option uuid) (gen : uuid) (p : application_insert) (d : Db) :
  fst (insert_job_applications uid gen p d) = None ->
  uid = Some (ai_user_id p)
  /\ job_applications (snd (insert_job_applications uid gen p d))
     = (job_applications d ++ [apply_defaults gen p])%list
  /\ count_pair (ai_job_id p) (ai_user_id p) d = 0.
Proof.
  unfold insert_job_applications.
  destruct (negb (int4_ok (ai_age p) && int4_ok (ai_experience_years p)));
    [discriminate|].
  destruct (negb (Policy.job_applications_insert_check uid (apply_defaults gen p)))
    eqn:Ep; [discriminate|].
  destruct (existsb _ (job_applications d)) eqn:E; [discriminate|].
  destruct (negb (existsb _ (jobs d))); [discriminate|].
  intros _. simpl. repeat split.
  - apply negb_false_iff in Ep. unfold Policy.job_applications_insert_check in Ep.
    apply sql_eq_true in Ep as [x [-> Hx]]. simpl in Hx. congruence.
  - unfold count_pair. rewrite count_pair_zero; [reflexivity|].
    intros r Hin. apply not_true_is_false. intros C.
    assert (C' : existsb
      (fun r0 => String.eqb (a_id r0) gen || same_pair (ai_job_id p) (ai_user_id p) r0)
      (job_applications d) = true).
    { apply existsb_exists. exists r. split; [assumption|]. rewrite C. apply orb_true_r. }
    congruence.
Qed.

(** C2: in every state the ledger reaches, each (job, applicant) pair has at
    most one application row; once a createApplication has succeeded, a
    later createApplication by the same applicant for the same job (with
    values that fit the columns) is refused by the unique index, SQLSTATE
    23505, whatever happened in between, the table is left as it was and
    holds exactly one row for the pair. *)
Theorem C2_one_application_per_pair
        (cs cs' : list Command) (uid : option uuid) (gen gen' : uuid)
        (p p' : application_insert) :
  fst (exec (CreateApplication uid gen p) (run cs empty_db)) = None ->
  ai_job_id p' = ai_job_id p ->
  ai_user_id p' = ai_user_id p ->
  int4_ok (ai_age p') = true ->
  int4_ok (ai_experience_years p') = true ->
  (forall j u,
      count_pair j u (run (cs ++ CreateApplication uid gen p :: cs') empty_db) <= 1)
  /\ insert_job_applications uid gen' p'
       (run (cs ++ CreateApplication uid gen p :: cs') empty_db)
     = (Some unique_violation,
        run (cs ++ CreateApplication uid gen p :: cs') empty_db)
  /\ code unique_violation = "23505"
  /\ count_pair (ai_job_id p) (ai_user_id p)
       (run (cs ++ CreateApplication uid gen p :: cs') empty_db) = 1.
Proof.
  intros Hok Hj Hu Ha He.
  assert (Hall : forall j u,
    count_pair j u (run (cs ++ CreateApplication uid gen p :: cs') empty_db) <= 1)
    by (intros; apply reachable_applications_unique).
  simpl in Hok. destruct (insert_success _ _ _ _ Hok) as [Huid [Hrows Hzero]].
  assert (Hone : count_pair (ai_job_id p) (ai_user_id p)
    (run (cs ++ CreateApplication uid gen p :: cs') empty_db) = 1).
  { specialize (Hall (ai_job_id p) (ai_user_id p)).
    rewrite run_app, run_cons in *. simpl exec in *.
    pose proof (proj1 (run_count_pair cs'
      (snd (insert_job_applications uid gen p (run cs empty_db)))
      (ai_job_id p) (ai_user_id p))) as Hmono.
    assert (H1 : count_pair (ai_job_id p) (ai_user_id p)
      (snd (insert_job_applications uid gen p (run cs empty_db))) = 1).
    { unfold count_pair in *. rewrite Hrows, filter_app, length_app, Hzero.
      simpl. unfold same_pair. simpl. now rewrite !String.eqb_refl. }
    lia. }
  repeat split; auto.
  subst uid. rewrite <- Hu.
  apply insert_existing_pair_conflicts; auto.
  rewrite Hj, Hu, Hone. lia.
Qed.

(** a1 applies to j1, the employer shortlists, a1 applies again. *)
Lemma C2_one_application_per_pair_witness :
  fst (exec (CreateApplication (Some "a1") "app1" Scenario.application1)
            (run [CreateJob (Some "e1") Scenario.job1] empty_db)) = None
  /\ insert_job_applications (Some "a1") "app2"
       (mk_application_insert "j1" "a1" None None None None None None)
       (run ([CreateJob (Some "e1") Scenario.job1]
               ++ CreateApplication (Some "a1") "app1" Scenario.application1
               :: [UpdateStatus (Some "e1") "app1" "shortlisted"]) empty_db)
     = (Some unique_violation,
        run ([CreateJob (Some "e1") Scenario.job1]
               ++ CreateApplication (Some "a1") "app1" Scenario.application1
               :: [UpdateStatus (Some "e1") "app1" "shortlisted"]) empty_db)
  /\ count_pair "j1" "a1"
       (run ([CreateJob (Some "e1") Scenario.job1]
               ++ CreateApplication (Some "a1") "app1" Scenario.application1
               :: [UpdateStatus (Some "e1") "app1" "shortlisted"]) empty_db) = 1.
Proof.
  split; [reflexivity|].
  pose proof (C2_one_application_per_pair
                [CreateJob (Some "e1") Scenario.job1]
                [UpdateStatus (Some "e1") "app1" "shortlisted"]
                (Some "a1") "app1" "app2" Scenario.application1
                (mk_application_insert "j1" "a1" None None None None None None)
                eq_refl eq_refl eq_refl eq_refl eq_refl) as [_ [H1 [_ H2]]].
  split; [exact H1 | exact H2].
Defined.

(** The two client paths tell the conflict from any other failure:
    [handleApply] on a job the user has applied to reports "Already Applied"
    and stores nothing. *)
Lemma handleApply_again (u : User) (jobId : uuid) (w : World)
      (ui : JobSeekerDashboard.State) :
  1 <= count_pair jobId (u_id u) (db w) ->
  db (fst (JobSeekerDashboard.handleApply (Some u) jobId w ui)) = db w
  /\ JobSeekerDashboard.toasts (snd (JobSeekerDashboard.handleApply (Some u) jobId w ui))
     = (JobSeekerDashboard.toasts ui
          ++ [mk_toast destructive "Already Applied"
                       "You have already applied for this job"])%list.
Proof.
  intros H. unfold JobSeekerDashboard.handleApply, run_statement. simpl.
  pose proof (insert_existing_pair_conflicts (uuids w (drawn w))
    (mk_application_insert jobId (u_id u) None None None None None None)
    (db w) eq_refl eq_refl H) as E.
  simpl in E. rewrite E. simpl. split; reflexivity.
Qed.

Lemma handleSubmit_again (parseInt : string -> number) (u : User) (jobId : uuid)
      (w : World) (ui : JobApplicationForm.State) (file : JobApplicationForm.File) :
  JobApplicationForm.resumeFile ui = Some file ->
  (forall path, storage_upload w path = None) ->
  int4_ok (json_number (parseInt (JobApplicationForm.age ui))) = true ->
  int4_ok (json_number (parseInt (JobApplicationForm.experienceYears ui))) = true ->
  1 <= count_pair jobId (u_id u) (db w) ->
  db (fst (JobApplicationForm.handleSubmit parseInt (Some u) jobId w ui)) = db w
  /\ JobApplicationForm.toasts
       (snd (JobApplicationForm.handleSubmit parseInt (Some u) jobId w ui))
     = (JobApplicationForm.toasts ui
          ++ [mk_toast destructive "Already Applied"
                       "You have already applied for this job"])%list.
Proof.
  intros Hf Hup Ha He H. unfold JobApplicationForm.handleSubmit, run_statement.
  rewrite Hf, Hup. simpl.
  match goal with
  | |- context [insert_job_applications ?a ?g ?p ?d] =>
      pose proof (insert_existing_pair_conflicts g p d Ha He H) as E
  end.
  simpl in E. rewrite E. simpl. split; reflexivity.
Qed.

(* ===================================================================== *)
(** * C3: the status of a new application *)
(* ===================================================================== *)

(** C3, as the insert behaves (amended): a created application is the row
    appended by the insert; its status is 'pending' when the request names
    no status, and is the value the request names otherwise. *)
Theorem C3_status_of_new_application
        (uid : option uuid) (gen : uuid) (p : application_insert) (d : Db) :
  fst (insert_job_applications uid gen p d) = None ->
  job_applications (snd (insert_job_applications uid gen p d))
  = (job_applications d ++ [apply_defaults gen p])%list
  /\ (ai_status p = None -> a_status (apply_defaults gen p) = Some "pending")
  /\ (forall v, ai_status p = Some v -> a_status (apply_defaults gen p) = v).
Proof.
  intros Hok. destruct (insert_success _ _ _ _ Hok) as [_ [Hrows _]].
  split; [exact Hrows|]. unfold apply_defaults. simpl.
  split; [intros -> | intros v ->]; reflexivity.
Qed.

(** a1's application to j1, which names no status, is stored as pending. *)
Lemma C3_status_of_new_application_witness :
  job_applications
    (snd (insert_job_applications (Some "a1") "app1" Scenario.application1
            (run [CreateJob (Some "e1") Scenario.job1] empty_db)))
  = [apply_defaults "app1" Scenario.application1]
  /\ a_status (apply_defaults "app1" Scenario.application1) = Some "pending".
Proof.
  destruct (C3_status_of_new_application (Some "a1") "app1" Scenario.application1
              (run [CreateJob (Some "e1") Scenario.job1] empty_db) eq_refl)
    as [H1 [H2 _]].
  split; [exact H1 | exact (H2 eq_refl)].
Defined.

(** C3 as stated fails on the code: the INSERT policy looks at the applicant
    only, so an insert that names status 'selected' creates the application
    as selected. *)
Lemma C3_supplied_status_counterexample :
  insert_job_applications (Some "a1") "app1"
    (mk_application_insert "j1" "a1" (Some (Some "selected")) None None None None None)
    (run [CreateJob (Some "e1") Scenario.job1] empty_db)
  = (None,
     set_job_applications
       [mk_application "app1" "j1" "a1" (Some "selected") None None None None None]
       (run [CreateJob (Some "e1") Scenario.job1] empty_db))
  /\ Some "selected" <> Some "pending".
Proof. split; [reflexivity | discriminate]. Qed.

(** Both client paths name no status, so what they create is pending. *)
Lemma handleApply_creates_pending (u : User) (jobId : uuid) (w : World)
      (ui : JobSeekerDashboard.State) :
  db (fst (JobSeekerDashboard.handleApply (Some u) jobId w ui)) = db w
  \/ exists row,
      job_applications (db (fst (JobSeekerDashboard.handleApply (Some u) jobId w ui)))
      = (job_applications (db w) ++ [row])%list
      /\ a_job_id row = jobId /\ a_user_id row = u_id u
      /\ a_status row = Some "pending".
Proof.
  unfold JobSeekerDashboard.handleApply, run_statement. simpl.
  destruct (insert_job_applications _ _ _ (db w)) as [[e|] d'] eqn:E.
  - left. assert (Hd : d' = db w).
    { revert E. unfold insert_job_applications.
      repeat match goal with |- context [if ?b then _ else _] => destruct b end;
        intros E; inversion E; reflexivity. }
    subst d'. destruct (String.eqb (code e) "23505"); reflexivity.
  - right. eexists. split.
    + simpl. pose proof (insert_success (Some (u_id u))
        (uuids w (drawn w))
        (mk_application_insert jobId (u_id u) None None None None None None) (db w)) as H.
      simpl in H. rewrite E in H. simpl in H. destruct (H eq_refl) as [_ [H1 _]].
      exact H1.
    + simpl. auto.
Qed.

(* ===================================================================== *)
(** * C5: who sees a job *)
(* ===================================================================== *)

(** Whatever the query and whoever asks, a SELECT on jobs returns active
    rows only: the table's one SELECT policy is [is_active = true]. *)
Lemma jobs_select_only_active (uid : option uuid) (where_ : jobs_row -> bool)
      (t : list jobs_row) (j : jobs_row) :
  In j (rls_select (Policy.jobs_select uid) where_ t) -> j_is_active j = Some true.
Proof.
  unfold rls_select. intros H. apply filter_In in H as [_ H].
  apply andb_true_iff in H as [H _]. unfold Policy.jobs_select in H.
  destruct (j_is_active j) as [[|]|]; simpl in H; congruence.
Qed.

(** Job seekers see a job only while it is active, and do see every active
    job of the company they browse. *)
Lemma fetchJobs_active_only (user : option User) (companyId : uuid) (d : Db)
      (j : jobs_row) :
  In j (JobSeekerDashboard.fetchJobs_query user companyId d)
  <-> In j (jobs d) /\ j_company_id j = companyId /\ j_is_active j = Some true.
Proof.
  unfold JobSeekerDashboard.fetchJobs_query, rls_select, Policy.jobs_select.
  rewrite filter_In, !andb_true_iff, String.eqb_eq.
  destruct (j_is_active j) as [[|]|]; simpl; intuition congruence.
Qed.

(** The owner's own listing is filtered by the same policy. *)
Lemma fetchEmployerJobs_active_only (u : User) (d : Db) (j : jobs_row) :
  In j (ViewApplicants.fetchEmployerJobs_query u d)
  <-> In j (jobs d) /\ j_user_id j = Some (u_id u) /\ j_is_active j = Some true.
Proof.
  unfold ViewApplicants.fetchEmployerJobs_query, rls_select, Policy.jobs_select.
  rewrite filter_In, !andb_true_iff.
  split.
  - intros [Hin [Ha Hu]]. apply sql_eq_true in Hu as [x [Hx1 Hx2]].
    inversion Hx2; subst x.
    destruct (j_is_active j) as [[|]|]; simpl in Ha; try discriminate. auto.
  - intros [Hin [Hu Ha]]. rewrite Hu, Ha. simpl. rewrite String.eqb_refl. auto.
Qed.

(** C5 at the failing input: e1 posts j1 switched off; the row is stored
    with e1 as owner, and e1's own listing of their jobs comes back empty. *)
Theorem C5_owner_does_not_see_inactive_job :
  jobs (run [CreateJob (Some "e1") Scenario.job1_inactive] empty_db)
  = [Scenario.job1_inactive]
  /\ j_user_id Scenario.job1_inactive = Some (u_id Scenario.employer1)
  /\ ViewApplicants.fetchEmployerJobs_query Scenario.employer1
       (run [CreateJob (Some "e1") Scenario.job1_inactive] empty_db) = [].
Proof. repeat split; reflexivity. Qed.

(* ===================================================================== *)
(** * C6 and C9: the owner's status updates *)
(* ===================================================================== *)

Lemma with_status_twice (s s' : option string) (r : job_applications_row) :
  with_status s (with_status s' r) = with_status s r.
Proof. reflexivity. Qed.

Lemma with_status_same (r : job_applications_row) :
  with_status (a_status r) r = r.
Proof. now destruct r. Qed.

Lemma targeted_with_status (d : Db) (uid : option uuid) (applicationId : uuid)
      (s : option string) (r : job_applications_row) :
  targeted d uid applicationId (with_status s r) = targeted d uid applicationId r.
Proof. reflexivity. Qed.

Lemma targeted_set_job_applications (d : Db) (t : list job_applications_row)
      (uid : option uuid) (applicationId : uuid) (r : job_applications_row) :
  targeted (set_job_applications t d) uid applicationId r
  = targeted d uid applicationId r.
Proof. reflexivity. Qed.

Lemma update_status_as_map (uid : option uuid) (applicationId : uuid) (s : string)
      (d : Db) :
  update_job_applications_status uid applicationId s d
  = (None,
     set_job_applications
       (map (fun r => if targeted d uid applicationId r
                      then with_status (Some s) r else r)
            (job_applications d)) d).
Proof. apply update_job_applications_status_reports_nothing. Qed.

(** C6: for the owner of the application's job the update succeeds and the
    application carries the new status, whatever status it had before and
    whatever the new one is. *)
Theorem C6_owner_update_always_succeeds
        (d : Db) (U : uuid) (J : jobs_row) (r : job_applications_row)
        (new_status : string) :
  In r (job_applications d) ->
  In J (jobs d) -> j_id J = a_job_id r -> j_user_id J = Some U ->
  fst (update_job_applications_status (Some U) (a_id r) new_status d) = None
  /\ In (with_status (Some new_status) r)
        (job_applications
           (snd (update_job_applications_status (Some U) (a_id r) new_status d)))
  /\ a_status (with_status (Some new_status) r) = Some new_status.
Proof.
  intros Hr HJ Hid Hown. rewrite update_status_as_map. simpl.
  split; [reflexivity|]. split; [|reflexivity].
  assert (Ht : targeted d (Some U) (a_id r) r = true).
  { unfold targeted, Policy.job_applications_select,
      Policy.job_applications_update_using.
    assert (Ho : Policy.is_job_owner d (Some U) (a_job_id r) = true)
      by (apply is_job_owner_spec; eauto).
    rewrite String.eqb_refl, Ho. simpl. now rewrite orb_true_r. }
  apply in_map_iff. exists r. rewrite Ht. auto.
Qed.

(** e1 rejects a1's application and then shortlists it; rejecting twice
    succeeds as well. *)
Lemma C6_owner_update_witness :
  update_job_applications_status (Some "e1") "app1" "shortlisted"
    (run [UpdateStatus (Some "e1") "app1" "rejected"] Scenario.ledger)
  = (None, run [UpdateStatus (Some "e1") "app1" "shortlisted"] Scenario.ledger)
  /\ fst (update_job_applications_status (Some "e1") "app1" "rejected"
            (run [UpdateStatus (Some "e1") "app1" "rejected"] Scenario.ledger))
     = None
  /\ statuses_of "app1" (run [UpdateStatus (Some "e1") "app1" "rejected"] Scenario.ledger)
     = [Some "rejected"].
Proof.
  split; [reflexivity|]. split; [|reflexivity].
  apply (C6_owner_update_always_succeeds
           (run [UpdateStatus (Some "e1") "app1" "rejected"] Scenario.ledger)
           "e1" Scenario.job1
           (with_status (Some "rejected") (apply_defaults "app1" Scenario.application1))
           "rejected").
  - simpl. now left.
  - simpl. now left.
  - reflexivity.
  - reflexivity.
Defined.

(** In the dialog, the owner's click ends in "Status Updated" and the list
    shows the new status. *)
Lemma updateApplicationStatus_reports_success (user : option User)
      (applicationId : uuid) (s : string) (w : World) (ui : ViewApplicants.State) :
  ViewApplicants.updateApplicationStatus user applicationId s w ui
  = (set_db (snd (update_job_applications_status (auth_uid user) applicationId s (db w))) w,
     ViewApplicants.toast
       (mk_toast plain "Status Updated" ("Application marked as " ++ s))
       (ViewApplicants.setApplicants (ViewApplicants.mark applicationId s) ui)).
Proof.
  unfold ViewApplicants.updateApplicationStatus, run_statement.
  rewrite update_status_as_map. reflexivity.
Qed.

Lemma mark_twice (applicationId : uuid) (s : string)
      (l : list ViewApplicants.Applicant) :
  ViewApplicants.mark applicationId s (ViewApplicants.mark applicationId s l)
  = ViewApplicants.mark applicationId s l.
Proof.
  unfold ViewApplicants.mark. rewrite map_map. apply map_ext. intros a.
  destruct (String.eqb (ViewApplicants.applicant_id a) applicationId) eqn:E.
  - simpl. now rewrite E.
  - now rewrite E.
Qed.

(** C9: the status update is idempotent.  Sent a second time with the same
    status it returns what the first returned and leaves the database the
    first left; sent for an application that already has that status it
    leaves the database as it is; and the dialog's list of applicants after
    two identical updates is the list after one. *)
Theorem C9_update_status_idempotent
        (uid : option uuid) (applicationId : uuid) (s : string) (d : Db) :
  update_job_applications_status uid applicationId s
    (snd (update_job_applications_status uid applicationId s d))
  = update_job_applications_status uid applicationId s d
  /\ ((forall r, In r (job_applications d) -> a_id r = applicationId ->
                 a_status r = Some s) ->
      update_job_applications_status uid applicationId s d = (None, d))
  /\ (forall l, ViewApplicants.mark applicationId s
                  (ViewApplicants.mark applicationId s l)
                = ViewApplicants.mark applicationId s l).
Proof.
  split; [|split].
  - rewrite !update_status_as_map. simpl. f_equal.
    unfold set_job_applications. simpl. f_equal.
    rewrite map_map. apply map_ext. intros r.
    change (targeted (mk_db (user_roles d) (jobs d) _) uid applicationId)
      with (targeted d uid applicationId).
    destruct (targeted d uid applicationId r) eqn:E.
    + rewrite targeted_with_status, E. reflexivity.
    + now rewrite E.
  - intros Hs. rewrite update_status_as_map.
    assert (E : map (fun r => if targeted d uid applicationId r
                              then with_status (Some s) r else r)
                    (job_applications d) = job_applications d).
    { rewrite <- (map_id (job_applications d)) at 2.
      apply map_ext_in. intros r Hin.
      destruct (targeted d uid applicationId r) eqn:E; [|reflexivity].
      unfold targeted in E. apply andb_true_iff in E as [E _].
      apply andb_true_iff in E as [E _]. apply String.eqb_eq in E.
      rewrite <- (Hs r Hin E). apply with_status_same. }
    rewrite E. now rewrite set_job_applications_same.
  - apply mark_twice.
Qed.

(** Shortlisting a shortlisted application changes nothing. *)
Lemma C9_update_status_idempotent_witness :
  update_job_applications_status (Some "e1") "app1" "shortlisted"
    (run [UpdateStatus (Some "e1") "app1" "shortlisted"] Scenario.ledger)
  = (None, run [UpdateStatus (Some "e1") "app1" "shortlisted"] Scenario.ledger).
Proof.
  apply (C9_update_status_idempotent (Some "e1") "app1" "shortlisted"
           (run [UpdateStatus (Some "e1") "app1" "shortlisted"] Scenario.ledger)).
  intros r [Hr|[]] _. subst r. reflexivity.
Defined.

(* ===================================================================== *)
(** * C4: send, then update *)
(* ===================================================================== *)

(** The handler attempts the send before anything else.  When the call
    rejects, the handler answers 500 with the error, issues no update and
    leaves the database as it was. *)
Lemma send_applicant_email_when_send_rejects
      (req : Request SendApplicantEmail.EmailRequest) (w : World) (m : string) :
  method req <> "OPTIONS" ->
  resend w (SendApplicantEmail.letter (body req)) = Rejects m ->
  SendApplicantEmail.handler req w
  = (Normal (mk_response 500 (Failure (ProviderError m))),
     emit (EmailSend (SendApplicantEmail.letter (body req))) w)
  /\ db (snd (SendApplicantEmail.handler req w)) = db w
  /\ trace (snd (SendApplicantEmail.handler req w))
     = (trace w ++ [EmailSend (SendApplicantEmail.letter (body req))])%list.
Proof.
  intros Hm Hr. apply String.eqb_neq in Hm.
  unfold SendApplicantEmail.handler. rewrite Hm.
  unfold try_catch, bind, resend_emails_send. rewrite Hr. simpl. auto.
Qed.

(** When the call resolves, whatever the response says, the update follows:
    for a request that names a stored application, every row with that id
    gets the status of the request, no other row changes, and the handler
    answers 200 with the response.  The handler never reads
    [emailResponse.error]. *)
Lemma send_applicant_email_when_send_resolves
      (req : Request SendApplicantEmail.EmailRequest) (w : World)
      (r : CreateEmailResponse) :
  method req <> "OPTIONS" ->
  resend w (SendApplicantEmail.letter (body req)) = Resolves r ->
  (exists row, In row (job_applications (db w))
               /\ a_id row = SendApplicantEmail.applicationId (body req)) ->
  fst (SendApplicantEmail.handler req w) = Normal (mk_response 200 (Success r))
  /\ job_applications (db (snd (SendApplicantEmail.handler req w)))
     = map (fun row =>
              if String.eqb (a_id row) (SendApplicantEmail.applicationId (body req))
              then mk_application (a_id row) (a_job_id row) (a_user_id row)
                     (Some (SendApplicantEmail.status (body req)))
                     (a_applicant_name row) (a_applicant_email row) (a_age row)
                     (a_experience_years row) (a_resume_url row)
              else row)
           (job_applications (db w))
  /\ trace (snd (SendApplicantEmail.handler req w))
     = (trace w
          ++ [EmailSend (SendApplicantEmail.letter (body req));
              StatusUpdate (SendApplicantEmail.applicationId (body req))
                           (SendApplicantEmail.status (body req))])%list.
Proof.
  intros Hm Hr _. apply String.eqb_neq in Hm.
  unfold SendApplicantEmail.handler. rewrite Hm.
  unfold try_catch, bind, resend_emails_send, service_update_status,
    run_statement, throw, ret.
  rewrite Hr. simpl. rewrite <- app_assoc. auto.
Qed.

(** C4 at the failing input: the employer shortlists a pending application
    while the provider refuses every message.  The call resolves to
    [{ data: null, error }]; the handler goes on to the update, the stored
    status becomes "shortlisted" and the answer is 200 with the refusal
    inside, where C4 asks for an error and an unchanged status: a letter the
    provider refuses is not a send that succeeded, yet the handler treats it
    as one. *)
Theorem C4_refused_send_still_updates :
  resend (Scenario.world Refusal.ledger Scenario.refusing)
         (SendApplicantEmail.letter (body Refusal.request))
  = Resolves (mk_email_response None (Some "API key is invalid"))
  /\ statuses_of Refusal.application_id Refusal.ledger = [Some "pending"]
  /\ fst (SendApplicantEmail.handler Refusal.request
            (Scenario.world Refusal.ledger Scenario.refusing))
     = Normal (mk_response 200
                 (Success (mk_email_response None (Some "API key is invalid"))))
  /\ statuses_of Refusal.application_id
       (db (snd (SendApplicantEmail.handler Refusal.request
                   (Scenario.world Refusal.ledger Scenario.refusing))))
     = [Some "shortlisted"]
  /\ trace (snd (SendApplicantEmail.handler Refusal.request
                   (Scenario.world Refusal.ledger Scenario.refusing)))
     = [EmailSend (SendApplicantEmail.letter (body Refusal.request));
        StatusUpdate Refusal.application_id "shortlisted"].
Proof.
  split; [reflexivity|].
  split; [reflexivity|].
  split; [reflexivity|].
  split; reflexivity.
Qed.

(** The same run seen from the dialog: the employer is told the letter was
    sent and the list shows the applicant as shortlisted. *)
Lemma refused_letter_is_reported_as_sent :
  ViewApplicants.toasts
    (snd (ViewApplicants.sendEmailAndUpdateStatus Refusal.ada
            ViewApplicants.shortlisted
            (Scenario.world Refusal.ledger Scenario.refusing)
            (Refusal.dialog [Refusal.ada])))
  = [mk_toast plain "Email Sent!" "Shortlisted email sent to Ada"]
  /\ map ViewApplicants.status
       (ViewApplicants.applicants
          (snd (ViewApplicants.sendEmailAndUpdateStatus Refusal.ada
                  ViewApplicants.shortlisted
                  (Scenario.world Refusal.ledger Scenario.refusing)
                  (Refusal.dialog [Refusal.ada]))))
     = [Some "shortlisted"].
Proof. split; reflexivity. Qed.

(** The same request with the call itself failing: the status stays
    pending and the answer is 500.  With the provider taking the letter the
    status becomes the one sent. *)
Lemma send_applicant_email_runs :
  SendApplicantEmail.handler Refusal.request
    (Scenario.world Refusal.ledger Scenario.failing)
  = (Normal (mk_response 500 (Failure (ProviderError "fetch failed"))),
     emit (EmailSend (SendApplicantEmail.letter (body Refusal.request)))
          (Scenario.world Refusal.ledger Scenario.failing))
  /\ statuses_of Refusal.application_id
       (db (snd (SendApplicantEmail.handler Refusal.request
                   (Scenario.world Refusal.ledger Scenario.failing))))
     = [Some "pending"]
  /\ statuses_of Refusal.application_id
       (db (snd (SendApplicantEmail.handler Refusal.request
                   (Scenario.world Refusal.ledger Scenario.delivering))))
     = [Some "shortlisted"].
Proof. split; [reflexivity|]. split; reflexivity. Qed.

(** The employer's button: without a recipient address nothing is sent and
    nothing is stored; when the function answers with an error the list
    keeps the old status. *)
Lemma sendEmailAndUpdateStatus_without_email
      (applicant : ViewApplicants.Applicant) (s : ViewApplicants.LetterStatus)
      (w : World) (ui : ViewApplicants.State) :
  truthy_opt (ViewApplicants.applicant_email applicant) = false ->
  ViewApplicants.sendEmailAndUpdateStatus applicant s w ui
  = (w, ViewApplicants.toast
          (mk_toast destructive "Error" "Applicant email not available") ui).
Proof.
  intros H. unfold ViewApplicants.sendEmailAndUpdateStatus. now rewrite H.
Qed.

Lemma sendEmailAndUpdateStatus_send_fails
      (applicant : ViewApplicants.Applicant) (s : ViewApplicants.LetterStatus)
      (w : World) (ui : ViewApplicants.State) :
  (forall e, exists m, resend w e = Rejects m) ->
  db (fst (ViewApplicants.sendEmailAndUpdateStatus applicant s w ui)) = db w
  /\ ViewApplicants.applicants
       (snd (ViewApplicants.sendEmailAndUpdateStatus applicant s w ui))
     = ViewApplicants.applicants ui.
Proof.
  intros Hdown. unfold ViewApplicants.sendEmailAndUpdateStatus.
  destruct (negb (truthy_opt (ViewApplicants.applicant_email applicant)));
    [split; reflexivity|].
  destruct (ViewApplicants.selectedJob ui) as [job|]; [|split; reflexivity].
  unfold functions_invoke, SendApplicantEmail.handler. simpl.
  unfold try_catch, bind, resend_emails_send.
  match goal with
  | |- context [resend w ?e] => destruct (Hdown e) as [m Hm]; rewrite Hm
  end.
  simpl. split; reflexivity.
Qed.

(* ===================================================================== *)
(** * C7: the bulk notification validates before it sends *)
(* ===================================================================== *)

(** C7: a send-to-boss request with no recipient or with no applicant is
    answered with the "Missing required fields" error and leaves the world
    untouched: no send is attempted. *)
Theorem C7_bulk_notify_fails_fast
        (req : Request SendToBoss.SendToBossRequest) (w : World) :
  method req <> "OPTIONS" ->
  SendToBoss.bossEmail (body req) = ""
  \/ SendToBoss.shortlistedApplicants (body req) = [] ->
  SendToBoss.handler req w
  = (Normal (mk_response 500 (Failure (JsError SendToBoss.missing_required_fields))),
     w)
  /\ trace (snd (SendToBoss.handler req w)) = trace w.
Proof.
  intros Hm Hempty. apply String.eqb_neq in Hm.
  assert (E : SendToBoss.handler req w
    = (Normal (mk_response 500 (Failure (JsError SendToBoss.missing_required_fields))),
       w)).
  { unfold SendToBoss.handler. rewrite Hm. unfold try_catch.
    destruct Hempty as [He|He]; rewrite He; simpl.
    - reflexivity.
    - rewrite orb_true_r. reflexivity. }
  rewrite E. auto.
Qed.

Lemma C7_bulk_notify_fails_fast_witness :
  SendToBoss.handler
    (mk_request "POST"
       (SendToBoss.mk_body "boss@corp.example" "Data Analyst" "DataFlow Systems" None []))
    (Scenario.world Scenario.ledger Scenario.delivering)
  = (Normal (mk_response 500 (Failure (JsError SendToBoss.missing_required_fields))),
     Scenario.world Scenario.ledger Scenario.delivering)
  /\ SendToBoss.handler
       (mk_request "POST"
          (SendToBoss.mk_body "" "Data Analyst" "DataFlow Systems" None
             [SendToBoss.mk_applicant "Ada" (Some 30%Z) (Some 4%Z) None]))
       (Scenario.world Scenario.ledger Scenario.delivering)
     = (Normal (mk_response 500 (Failure (JsError SendToBoss.missing_required_fields))),
        Scenario.world Scenario.ledger Scenario.delivering).
Proof.
  split.
  - apply C7_bulk_notify_fails_fast; [discriminate | right; reflexivity].
  - apply C7_bulk_notify_fails_fast; [discriminate | left; reflexivity].
Defined.

(** The dialog does not even call the function in these two cases. *)
Lemma handleSendToBoss_without_recipient (parseInt : string -> number)
      (w : World) (ui : ViewApplicants.State) :
  trim (ViewApplicants.bossEmail ui) = "" ->
  ViewApplicants.handleSendToBoss parseInt w ui
  = (w, ViewApplicants.toast
          (mk_toast destructive "Error" "Boss email is required") ui).
Proof.
  intros H. unfold ViewApplicants.handleSendToBoss. now rewrite H.
Qed.

Lemma handleSendToBoss_without_applicants (parseInt : string -> number)
      (w : World) (ui : ViewApplicants.State) :
  ViewApplicants.applicantsToSend parseInt ui = [] ->
  fst (ViewApplicants.handleSendToBoss parseInt w ui) = w.
Proof.
  intros H. unfold ViewApplicants.handleSendToBoss.
  destruct (negb (truthy (trim (ViewApplicants.bossEmail ui)))); [reflexivity|].
  destruct (ViewApplicants.selectedJob ui); [|reflexivity].
  now rewrite H.
Qed.

(* ===================================================================== *)
(** * C10: whom the boss hears about *)
(* ===================================================================== *)

Lemma strict_eq_true (s : option string) (lit : string) :
  strict_eq s lit = true <-> s = Some lit.
Proof.
  destruct s as [v|]; simpl; [|split; discriminate].
  rewrite String.eqb_eq. split; congruence.
Qed.

Lemma length_map_indexed {A B : Type} (f : A -> nat -> B) (i : nat) (xs : list A) :
  length (SendToBoss.map_indexed f i xs) = length xs.
Proof.
  revert i. induction xs as [|x xs IH]; intros i; simpl; auto.
Qed.

(** A well-formed send-to-boss request makes one send attempt, of the
    digest of its applicants, and touches nothing else. *)
Lemma send_to_boss_sends_digest (b : SendToBoss.SendToBossRequest) (w : World) :
  truthy (SendToBoss.bossEmail b) = true ->
  truthy (SendToBoss.jobTitle b) = true ->
  SendToBoss.shortlistedApplicants b <> [] ->
  snd (SendToBoss.handler (mk_request "POST" b) w)
  = emit (EmailSend (SendToBoss.digest b)) w.
Proof.
  intros Hb Ht Hne. unfold SendToBoss.handler. simpl.
  rewrite Hb, Ht. simpl.
  destruct (SendToBoss.shortlistedApplicants b) as [|a l] eqn:E; [congruence|].
  simpl. unfold try_catch, bind, resend_emails_send, ret.
  destruct (resend w (SendToBoss.digest b)); reflexivity.
Qed.

(** C10: when no applicant that passes the filters is shortlisted, the
    applicants sent to the boss are all those that pass the filters; when at
    least one is, they are exactly the shortlisted among them; and the
    message that goes out carries one row per applicant so chosen. *)
Theorem C10_send_to_boss_fallback
        (parseInt : string -> number) (ui : ViewApplicants.State) :
  ((forall a, In a (ViewApplicants.filteredApplicants parseInt ui) ->
              ViewApplicants.status a <> Some "shortlisted") ->
   ViewApplicants.applicantsToSend parseInt ui
   = ViewApplicants.filteredApplicants parseInt ui)
  /\ ((exists a, In a (ViewApplicants.filteredApplicants parseInt ui)
                 /\ ViewApplicants.status a = Some "shortlisted") ->
      forall a, In a (ViewApplicants.applicantsToSend parseInt ui)
                <-> In a (ViewApplicants.filteredApplicants parseInt ui)
                    /\ ViewApplicants.status a = Some "shortlisted")
  /\ (forall w job,
         truthy (trim (ViewApplicants.bossEmail ui)) = true ->
         ViewApplicants.selectedJob ui = Some job ->
         truthy (ViewApplicants.job_title job) = true ->
         ViewApplicants.applicantsToSend parseInt ui <> [] ->
         trace (fst (ViewApplicants.handleSendToBoss parseInt w ui))
         = (trace w
              ++ [EmailSend
                    (SendToBoss.digest
                       (SendToBoss.mk_body
                          (trim (ViewApplicants.bossEmail ui))
                          (ViewApplicants.job_title job)
                          (or_else (ViewApplicants.job_company job) "Our Company")
                          (if truthy (trim (ViewApplicants.optionalMessage ui))
                           then Some (trim (ViewApplicants.optionalMessage ui))
                           else None)
                          (map (ViewApplicants.with_signed_url w)
                               (ViewApplicants.applicantsToSend parseInt ui))))])%list).
Proof.
  split; [|split].
  - intros Hnone. unfold ViewApplicants.applicantsToSend.
    assert (E : ViewApplicants.shortlistedApplicants parseInt ui = []).
    { unfold ViewApplicants.shortlistedApplicants.
      destruct (filter _ (ViewApplicants.filteredApplicants parseInt ui))
        as [|a l] eqn:E; [reflexivity|].
      assert (Ha : In a (a :: l)) by now left.
      rewrite <- E in Ha. apply filter_In in Ha as [Hin Hs].
      apply strict_eq_true in Hs. now destruct (Hnone a Hin). }
    now rewrite E.
  - intros [a0 [Hin0 Hs0]] a. unfold ViewApplicants.applicantsToSend.
    assert (E : In a0 (ViewApplicants.shortlistedApplicants parseInt ui)).
    { apply filter_In. split; [assumption|]. now apply strict_eq_true. }
    assert (L : (0 <? length (ViewApplicants.shortlistedApplicants parseInt ui))%nat
                = true).
    { destruct (ViewApplicants.shortlistedApplicants parseInt ui); [destruct E|].
      reflexivity. }
    rewrite L. unfold ViewApplicants.shortlistedApplicants.
    rewrite filter_In, strict_eq_true. tauto.
  - intros w job Hb Hj Ht Hne. unfold ViewApplicants.handleSendToBoss.
    rewrite Hb, Hj. simpl negb. cbv iota.
    destruct (ViewApplicants.applicantsToSend parseInt ui) as [|a l] eqn:E;
      [congruence|].
    change (length (a :: l) =? 0)%nat with false. cbv iota.
    unfold functions_invoke.
    match goal with
    | |- context [SendToBoss.handler (mk_request "POST" ?b) w] =>
        pose proof (send_to_boss_sends_digest b w Hb Ht) as Hs;
        destruct (SendToBoss.handler (mk_request "POST" b) w) as [[r|t] w'] eqn:Eh
    end.
    + simpl in Hs. rewrite Hs by discriminate.
      destruct ((200 <=? http_status r) && (http_status r <? 300))%Z; reflexivity.
    + simpl in Hs. rewrite Hs by discriminate. reflexivity.
Qed.

(** With Ada pending and Cyd reviewed, both go to the boss; once Bob is
    shortlisted, Bob alone goes. *)
Lemma C10_send_to_boss_fallback_witness :
  ViewApplicants.applicantsToSend Scenario.not_a_number
    (Scenario.dialog [Scenario.ada; Scenario.cyd])
  = [Scenario.ada; Scenario.cyd]
  /\ (In Scenario.ada
         (ViewApplicants.applicantsToSend Scenario.not_a_number
            (Scenario.dialog [Scenario.ada; Scenario.bob; Scenario.cyd])) -> False)
  /\ trace (fst (ViewApplicants.handleSendToBoss Scenario.not_a_number
                   (Scenario.world Scenario.ledger Scenario.delivering)
                   (Scenario.dialog [Scenario.ada; Scenario.cyd])))
     = [EmailSend
          (mk_email "DataFlow Systems Hiring <onboarding@resend.dev>"
             ["boss@corp.example"]
             "Shortlisted Candidates for Data Analyst"
             (CandidateTable "Data Analyst" "DataFlow Systems" None 2
                [mk_row "1" "Ada" "30" "4 years"
                        (Some "https://s/sign/resumes/a1/j1-1.pdf");
                 mk_row "2" "Unknown" "N/A" "0 years" None]))].
Proof.
  destruct (C10_send_to_boss_fallback Scenario.not_a_number
              (Scenario.dialog [Scenario.ada; Scenario.cyd])) as [H1 [_ H3]].
  destruct (C10_send_to_boss_fallback Scenario.not_a_number
              (Scenario.dialog [Scenario.ada; Scenario.bob; Scenario.cyd]))
    as [_ [H2 _]].
  split; [|split].
  - rewrite H1; [reflexivity|].
    intros a [<-|[<-|[]]]; discriminate.
  - intros Hin. apply H2 in Hin.
    + destruct Hin as [_ Hs]. discriminate Hs.
    + exists Scenario.bob. split; [right; left|]; reflexivity.
  - rewrite (H3 (Scenario.world Scenario.ledger Scenario.delivering)
                (ViewApplicants.mk_listed_job "j1" "Data Analyst" (Some "DataFlow Systems")));
      try reflexivity.
    discriminate.
Defined.

(* ===================================================================== *)
(** * C8: a role is written once *)
(* ===================================================================== *)

Lemma set_user_roles_same (d : Db) : set_user_roles (user_roles d) d = d.
Proof. now destruct d. Qed.

Lemma roles_of_nonempty (user_id : uuid) (role : user_role) (d : Db) :
  In role (roles_of user_id d) ->
  existsb (fun r => String.eqb (ur_user_id r) user_id) (user_roles d) = true.
Proof.
  unfold roles_of. intros H. apply in_map_iff in H as [r [_ Hr]].
  apply filter_In in Hr as [Hin Hu]. apply existsb_exists. eauto.
Qed.

(** A command leaves the roles of a user who has one as they are. *)
Lemma exec_keeps_role (c : Command) (d : Db) (user_id : uuid) (role : user_role) :
  In role (roles_of user_id d) ->
  roles_of user_id (snd (exec c d)) = roles_of user_id d.
Proof.
  intros Hhas.
  destruct c as [uid gen u' role'|uid row|uid jobId b|uid gen p|uid appId s|appId s];
    simpl.
  - unfold insert_user_roles.
    destruct (negb (Policy.user_roles_insert_check uid (mk_user_role gen u' role')));
      [reflexivity|].
    destruct (existsb _ (user_roles d)) eqn:E; [reflexivity|].
    simpl. unfold roles_of. simpl. rewrite filter_app, map_app. simpl.
    destruct (String.eqb u' user_id) eqn:Eu; [|now rewrite app_nil_r].
    exfalso. apply String.eqb_eq in Eu. subst u'.
    apply roles_of_nonempty in Hhas. apply existsb_exists in Hhas as [r [Hin Hr]].
    assert (C : existsb
      (fun r0 => String.eqb (ur_id r0) gen || String.eqb (ur_user_id r0) user_id)
      (user_roles d) = true).
    { apply existsb_exists. exists r. split; [assumption|]. rewrite Hr.
      apply orb_true_r. }
    congruence.
  - unfold insert_jobs.
    repeat match goal with |- context [if ?b then _ else _] => destruct b end;
      reflexivity.
  - unfold update_jobs_is_active. destruct (rls_update _ _ _ _). reflexivity.
  - unfold insert_job_applications.
    repeat match goal with |- context [if ?b then _ else _] => destruct b end;
      reflexivity.
  - rewrite update_status_as_map. reflexivity.
  - reflexivity.
Qed.

Lemma run_keeps_role (cs : list Command) (d : Db) (user_id : uuid) (role : user_role) :
  In role (roles_of user_id d) ->
  roles_of user_id (run cs d) = roles_of user_id d.
Proof.
  revert d. induction cs as [|c cs IH]; intros d H; [reflexivity|].
  rewrite run_cons, IH.
  - now apply exec_keeps_role with role.
  - now rewrite (exec_keeps_role c d user_id role H).
Qed.

Lemma existsb_false {A : Type} (f : A -> bool) (l : list A) :
  (forall x, In x l -> f x = false) -> existsb f l = false.
Proof.
  intros H. apply not_true_is_false. intros C.
  apply existsb_exists in C as [x [Hin Hx]]. rewrite (H x Hin) in Hx. discriminate.
Qed.

(** A user who has no role has no row in the table. *)
Lemma roles_of_empty (user_id : uuid) (d : Db) :
  roles_of user_id d = [] ->
  forall r, In r (user_roles d) -> String.eqb (ur_user_id r) user_id = false.
Proof.
  unfold roles_of. intros H r Hin.
  destruct (String.eqb (ur_user_id r) user_id) eqn:E; [|reflexivity].
  assert (Hf : In r (filter (fun r0 => String.eqb (ur_user_id r0) user_id)
                            (user_roles d))).
  { apply filter_In. now split. }
  apply (in_map ur_role) in Hf. rewrite H in Hf. destruct Hf.
Qed.

(** When the unique indexes let a row for [user_id] in, the user had none. *)
Lemma no_row_no_role (gen user_id : uuid) (d : Db) :
  existsb (fun r => String.eqb (ur_id r) gen || String.eqb (ur_user_id r) user_id)
          (user_roles d) = false ->
  roles_of user_id d = [].
Proof.
  unfold roles_of. induction (user_roles d) as [|r t IH]; simpl; [reflexivity|].
  intros H. apply orb_false_iff in H as [Hr Ht].
  apply orb_false_iff in Hr as [_ Hu]. rewrite Hu. now apply IH.
Qed.

(** A command that changes the roles of a user is that user's own insert of
    their first role. *)
Lemma exec_changes_role (c : Command) (d : Db) (user_id : uuid) :
  roles_of user_id (snd (exec c d)) <> roles_of user_id d ->
  exists gen role,
    c = SetRole (Some user_id) gen user_id role
    /\ fst (exec c d) = None
    /\ roles_of user_id d = []
    /\ roles_of user_id (snd (exec c d)) = [role].
Proof.
  destruct c as [uid gen u' role'|uid row|uid jobId b|uid gen p|uid appId s|appId s];
    simpl.
  - unfold insert_user_roles, Policy.user_roles_insert_check. simpl.
    destruct (sql_eq uid (Some u')) eqn:Ep; simpl; [|intros C; now destruct C].
    destruct (existsb _ (user_roles d)) eqn:E; simpl; [intros C; now destruct C|].
    assert (Hr : roles_of user_id
                   (set_user_roles (user_roles d ++ [mk_user_role gen u' role']) d)
                 = (roles_of user_id d
                      ++ if String.eqb u' user_id then [role'] else [])%list).
    { unfold roles_of. simpl. rewrite filter_app, map_app. simpl.
      destruct (String.eqb u' user_id); reflexivity. }
    rewrite Hr. clear Hr.
    destruct (String.eqb u' user_id) eqn:Eu.
    + intros _. apply String.eqb_eq in Eu. subst u'.
      apply sql_eq_true in Ep as [x [-> Hx]]. inversion Hx; subst x.
      apply no_row_no_role in E. rewrite E.
      exists gen, role'. auto.
    + rewrite app_nil_r. intros C. now destruct C.
  - unfold insert_jobs.
    repeat match goal with |- context [if ?b then _ else _] => destruct b end;
      intros C; now destruct C.
  - unfold update_jobs_is_active. destruct (rls_update _ _ _ _).
    intros C; now destruct C.
  - unfold insert_job_applications.
    repeat match goal with |- context [if ?b then _ else _] => destruct b end;
      intros C; now destruct C.
  - rewrite update_status_as_map. intros C; now destruct C.
  - intros C; now destruct C.
Qed.

(** C8: a role row for a user is written by that user only -- anyone
    else's insert, the first included, is refused by the INSERT policy, and
    a command that changes a user's roles is that user's own first insert;
    the first insert by the user goes through; once the user has a role,
    another insert for that user is refused by the unique index (SQLSTATE
    23505) and leaves the table as it was, and no command of the
    application changes the user's role; the table admits neither UPDATE
    nor DELETE. *)
Theorem C8_role_written_once (d : Db) (user_id : uuid) :
  (forall uid gen role,
      uid <> Some user_id ->
      insert_user_roles uid gen user_id role d = (Some insufficient_privilege, d))
  /\ (forall c,
         roles_of user_id (snd (exec c d)) <> roles_of user_id d ->
         exists gen role,
           c = SetRole (Some user_id) gen user_id role
           /\ fst (exec c d) = None
           /\ roles_of user_id d = []
           /\ roles_of user_id (snd (exec c d)) = [role])
  /\ (forall gen role,
         roles_of user_id d = [] ->
         (forall r, In r (user_roles d) -> ur_id r <> gen) ->
         insert_user_roles (Some user_id) gen user_id role d
         = (None, set_user_roles (user_roles d ++ [mk_user_role gen user_id role]) d)
         /\ roles_of user_id
              (snd (insert_user_roles (Some user_id) gen user_id role d))
            = [role])
  /\ (forall existing,
         In existing (roles_of user_id d) ->
         (forall gen role,
             insert_user_roles (Some user_id) gen user_id role d
             = (Some unique_violation, d))
         /\ (forall cs, roles_of user_id (run cs d) = roles_of user_id d))
  /\ (forall uid where_ role, update_user_roles uid where_ role d = (None, d))
  /\ (forall uid where_, delete_user_roles uid where_ d = (None, d)).
Proof.
  split; [|split; [|split; [|split; [|split]]]].
  - intros uid gen role Hne. unfold insert_user_roles, Policy.user_roles_insert_check.
    simpl. destruct (sql_eq uid (Some user_id)) eqn:E; [|reflexivity].
    apply sql_eq_true in E as [x [-> Hx]]. congruence.
  - intros c. apply exec_changes_role.
  - intros gen role Hnone Hfresh.
    assert (E : insert_user_roles (Some user_id) gen user_id role d
                = (None,
                   set_user_roles (user_roles d ++ [mk_user_role gen user_id role]) d)).
    { unfold insert_user_roles, Policy.user_roles_insert_check.
      simpl. rewrite String.eqb_refl. simpl.
      rewrite existsb_false; [reflexivity|].
      intros r Hin. apply orb_false_iff. split.
      - apply String.eqb_neq. now apply Hfresh.
      - now apply (roles_of_empty user_id d). }
    rewrite E. split; [reflexivity|].
    simpl. unfold roles_of in *. simpl. rewrite filter_app, map_app, Hnone.
    simpl. now rewrite String.eqb_refl.
  - intros existing Hhas. split.
    + intros gen role. unfold insert_user_roles, Policy.user_roles_insert_check.
      simpl. rewrite String.eqb_refl. simpl.
      apply roles_of_nonempty in Hhas. apply existsb_exists in Hhas as [r [Hin Hr]].
      assert (C : existsb
        (fun r0 => String.eqb (ur_id r0) gen || String.eqb (ur_user_id r0) user_id)
        (user_roles d) = true).
      { apply existsb_exists. exists r. split; [assumption|]. rewrite Hr.
        apply orb_true_r. }
      now rewrite C.
    + intros cs. now apply run_keeps_role with existing.
  - intros uid where_ role. unfold update_user_roles.
    rewrite rls_update_no_target.
    + now rewrite set_user_roles_same.
    + intros r _. unfold no_policy. apply andb_false_r.
  - intros uid where_. unfold delete_user_roles.
    assert (E : forall t : list user_roles_row,
               rls_delete
                 (fun r => where_ r && Policy.user_roles_select uid r && no_policy uid r)
                 t = t).
    { unfold rls_delete, no_policy.
      induction t as [|r t IH]; simpl; [reflexivity|].
      rewrite andb_false_r. simpl. now rewrite IH. }
    rewrite E. now rewrite set_user_roles_same.
Qed.

(** Nobody has a role yet: e1's attempt to write a1's role is refused, a1's
    own insert goes through.  After it, a1's request to be an employer is
    refused by the unique index, e1's attempt by the policy, and a1 is still
    a job seeker whatever e1 and a1 send next. *)
Lemma C8_role_written_once_witness :
  insert_user_roles (Some "e1") "r1" "a1" employer empty_db
  = (Some insufficient_privilege, empty_db)
  /\ roles_of "a1"
       (snd (insert_user_roles (Some "a1") "r1" "a1" job_seeker empty_db))
     = [job_seeker]
  /\ insert_user_roles (Some "a1") "r2" "a1" employer
       (run [SetRole (Some "a1") "r1" "a1" job_seeker] empty_db)
     = (Some unique_violation, run [SetRole (Some "a1") "r1" "a1" job_seeker] empty_db)
  /\ insert_user_roles (Some "e1") "r2" "a1" employer
       (run [SetRole (Some "a1") "r1" "a1" job_seeker] empty_db)
     = (Some insufficient_privilege,
        run [SetRole (Some "a1") "r1" "a1" job_seeker] empty_db)
  /\ roles_of "a1"
       (run [SetRole (Some "e1") "r2" "a1" employer;
             SetRole (Some "a1") "r3" "a1" employer]
            (run [SetRole (Some "a1") "r1" "a1" job_seeker] empty_db))
     = [job_seeker].
Proof.
  destruct (C8_role_written_once empty_db "a1") as [F1 [_ [F3 _]]].
  destruct (C8_role_written_once
              (run [SetRole (Some "a1") "r1" "a1" job_seeker] empty_db) "a1")
    as [H1 [_ [_ [H4 _]]]].
  destruct (H4 job_seeker) as [H5 H6]; [simpl; now left|].
  split; [apply F1; discriminate|].
  split; [apply F3; [reflexivity | intros r []]|].
  split; [apply H5|].
  split; [apply H1; discriminate|].
  rewrite H6. reflexivity.
Defined.

(** From the empty registry no user ever gets two role rows. *)
Lemma reachable_roles_unique (cs : list Command) (user_id : uuid) :
  length (roles_of user_id (run cs empty_db)) <= 1.
Proof.
  assert (G : forall d, length (roles_of user_id d) <= 1 ->
                        length (roles_of user_id (run cs d)) <= 1).
  { induction cs as [|c cs IH]; intros d Hd; [exact Hd|].
    rewrite run_cons. apply IH.
    destruct (roles_of user_id d) as [|role l] eqn:E.
    - destruct c as [uid gen u' role'|uid row|uid jobId b|uid gen p|uid appId s|appId s];
        simpl.
      + unfold insert_user_roles.
        repeat match goal with |- context [if ?b then _ else _] => destruct b end;
          simpl; try (rewrite E; simpl; lia).
        unfold roles_of in *. simpl. rewrite filter_app, map_app, E. simpl.
        destruct (String.eqb u' user_id); simpl; lia.
      + unfold insert_jobs.
        repeat match goal with |- context [if ?b then _ else _] => destruct b end;
          simpl; unfold roles_of in *; simpl; rewrite E; simpl; lia.
      + unfold update_jobs_is_active. destruct (rls_update _ _ _ _).
        simpl. unfold roles_of in *. simpl. rewrite E. simpl. lia.
      + unfold insert_job_applications.
        repeat match goal with |- context [if ?b then _ else _] => destruct b end;
          simpl; unfold roles_of in *; simpl; rewrite E; simpl; lia.
      + rewrite update_status_as_map. simpl. unfold roles_of in *. simpl.
        rewrite E. simpl. lia.
      + simpl. unfold roles_of in *. simpl. rewrite E. simpl. lia.
    - rewrite (exec_keeps_role c d user_id role); [now rewrite E|].
      rewrite E. now left. }
  apply G. simpl. lia.
Qed.

(* ===================================================================== *)
(** * Updates that reach no row *)
(* ===================================================================== *)

Lemma targeted_other_id (d : Db) (uid : option uuid) (applicationId : uuid)
      (r : job_applications_row) :
  a_id r <> applicationId -> targeted d uid applicationId r = false.
Proof.
  intros H. unfold targeted. apply String.eqb_neq in H. now rewrite H.
Qed.

Lemma map_unchanged {A : Type} (f : A -> A) (l : list A) :
  (forall x, In x l -> f x = x) -> map f l = l.
Proof.
  intros H. rewrite <- (map_id l) at 2. now apply map_ext_in.
Qed.

Lemma service_update_unknown (applicationId : uuid) (s : string) (d : Db) :
  (forall r, In r (job_applications d) -> a_id r <> applicationId) ->
  service_update_job_applications_status applicationId s d = (None, d).
Proof.
  intros H. unfold service_update_job_applications_status. f_equal.
  rewrite map_unchanged; [apply set_job_applications_same|].
  intros r Hin. apply H in Hin. apply String.eqb_neq in Hin. now rewrite Hin.
Qed.

(** There is no "not found": a status update for an application id that is
    not in the table stores nothing, reports no error, and the dialog still
    announces "Status Updated". *)
Theorem update_of_unknown_application_reports_success
        (user : option User) (applicationId : uuid) (s : string) (w : World)
        (ui : ViewApplicants.State) :
  (forall r, In r (job_applications (db w)) -> a_id r <> applicationId) ->
  fst (ViewApplicants.updateApplicationStatus user applicationId s w ui) = w
  /\ ViewApplicants.toasts
       (snd (ViewApplicants.updateApplicationStatus user applicationId s w ui))
     = (ViewApplicants.toasts ui
          ++ [mk_toast plain "Status Updated" ("Application marked as " ++ s)])%list.
Proof.
  intros H. rewrite updateApplicationStatus_reports_success. simpl.
  split; [|reflexivity].
  rewrite update_status_as_map. simpl.
  rewrite map_unchanged.
  - rewrite set_job_applications_same. apply set_db_same.
  - intros r Hin. now rewrite (targeted_other_id _ _ _ _ (H r Hin)).
Qed.

Lemma update_of_unknown_application_witness :
  fst (ViewApplicants.updateApplicationStatus (Some Scenario.employer1) "app9"
         "hired" (Scenario.world Scenario.ledger Scenario.delivering)
         ViewApplicants.initial)
  = Scenario.world Scenario.ledger Scenario.delivering.
Proof.
  apply (update_of_unknown_application_reports_success
           (Some Scenario.employer1) "app9" "hired"
           (Scenario.world Scenario.ledger Scenario.delivering)
           ViewApplicants.initial).
  intros r [Hr|[]]. subst r. simpl. discriminate.
Defined.

(** The same through the edge function: for an application id that no row
    carries, the letter is still handed to the provider, before anything
    else, and nothing is stored, whatever the provider and the handler
    answer. *)
Theorem send_applicant_email_for_unknown_application
        (req : Request SendApplicantEmail.EmailRequest) (w : World) :
  method req <> "OPTIONS" ->
  (forall r, In r (job_applications (db w)) ->
             a_id r <> SendApplicantEmail.applicationId (body req)) ->
  db (snd (SendApplicantEmail.handler req w)) = db w
  /\ exists rest,
       trace (snd (SendApplicantEmail.handler req w))
       = (trace w ++ EmailSend (SendApplicantEmail.letter (body req)) :: rest)%list.
Proof.
  intros Hm Hnone. apply String.eqb_neq in Hm.
  unfold SendApplicantEmail.handler. rewrite Hm.
  unfold try_catch, bind, resend_emails_send, service_update_status,
    run_statement, throw, ret.
  destruct (resend w (SendApplicantEmail.letter (body req))) as [r|m]; simpl.
  - pose proof (service_update_unknown _ (SendApplicantEmail.status (body req)) _ Hnone) as E.
    unfold service_update_job_applications_status in E. inversion E as [E'].
    rewrite !E'. split; [reflexivity|].
    exists [StatusUpdate (SendApplicantEmail.applicationId (body req))
                         (SendApplicantEmail.status (body req))].
    now rewrite <- app_assoc.
  - split; [reflexivity|]. now exists [].
Qed.

Lemma send_applicant_email_for_unknown_application_witness :
  db (snd (SendApplicantEmail.handler
             (mk_request "POST"
                (SendApplicantEmail.mk_body Refusal.seeker_id "Ada" "ada@mail.example"
                                            "Data Analyst" "selected" "DataFlow Systems"))
             (Scenario.world Refusal.ledger Scenario.delivering)))
  = Refusal.ledger
  /\ exists rest,
       trace (snd (SendApplicantEmail.handler
                     (mk_request "POST"
                        (SendApplicantEmail.mk_body Refusal.seeker_id "Ada"
                           "ada@mail.example" "Data Analyst" "selected"
                           "DataFlow Systems"))
                     (Scenario.world Refusal.ledger Scenario.delivering)))
       = EmailSend
           (SendApplicantEmail.letter
              (SendApplicantEmail.mk_body Refusal.seeker_id "Ada" "ada@mail.example"
                                          "Data Analyst" "selected" "DataFlow Systems"))
         :: rest.
Proof.
  apply (send_applicant_email_for_unknown_application
           (mk_request "POST"
              (SendApplicantEmail.mk_body Refusal.seeker_id "Ada" "ada@mail.example"
                                          "Data Analyst" "selected" "DataFlow Systems"))
           (Scenario.world Refusal.ledger Scenario.delivering)).
  - discriminate.
  - intros r [Hr|[]]. subst r. simpl. discriminate.
Defined.

(** The single-applicant function writes the status column and nothing
    else: roles and jobs are as before, and so is every application once
    the status is left out of the comparison; rows with another id are
    untouched, status included. *)
Theorem send_applicant_email_writes_status_only
        (req : Request SendApplicantEmail.EmailRequest) (w : World) :
  user_roles (db (snd (SendApplicantEmail.handler req w))) = user_roles (db w)
  /\ jobs (db (snd (SendApplicantEmail.handler req w))) = jobs (db w)
  /\ map (with_status None)
         (job_applications (db (snd (SendApplicantEmail.handler req w))))
     = map (with_status None) (job_applications (db w))
  /\ filter (fun r => negb (String.eqb (a_id r)
                                       (SendApplicantEmail.applicationId (body req))))
            (job_applications (db (snd (SendApplicantEmail.handler req w))))
     = filter (fun r => negb (String.eqb (a_id r)
                                         (SendApplicantEmail.applicationId (body req))))
              (job_applications (db w)).
Proof.
  unfold SendApplicantEmail.handler.
  destruct (String.eqb (method req) "OPTIONS"); [simpl; auto|].
  unfold try_catch, bind, resend_emails_send, service_update_status,
    run_statement, throw, ret.
  destruct (resend w (SendApplicantEmail.letter (body req))); simpl; auto.
  repeat split.
  - rewrite map_map. apply map_ext. intros r.
    destruct (String.eqb (a_id r) _); reflexivity.
  - induction (job_applications (db w)) as [|r t IH]; simpl; [reflexivity|].
    destruct (String.eqb (a_id r) (SendApplicantEmail.applicationId (body req))) eqn:E;
      simpl.
    + rewrite E. simpl. exact IH.
    + rewrite E. simpl. now rewrite IH.
Qed.

(** The bulk function never writes to the database and makes at most one
    send attempt: it leaves the world as it was, or as it was with the one
    digest recorded as sent. *)
Theorem send_to_boss_sends_at_most_once
        (req : Request SendToBoss.SendToBossRequest) (w : World) :
  snd (SendToBoss.handler req w) = w
  \/ snd (SendToBoss.handler req w) = emit (EmailSend (SendToBoss.digest (body req))) w.
Proof.
  unfold SendToBoss.handler.
  destruct (String.eqb (method req) "OPTIONS"); [now left|].
  unfold try_catch.
  destruct (negb (truthy (SendToBoss.bossEmail (body req)))
            || negb (truthy (SendToBoss.jobTitle (body req)))
            || (length (SendToBoss.shortlistedApplicants (body req)) =? 0)%nat);
    [now left|].
  right. unfold bind, resend_emails_send, ret.
  destruct (resend w (SendToBoss.digest (body req))); reflexivity.
Qed.

(* ===================================================================== *)
(** * Applying, and the set of jobs applied to *)
(* ===================================================================== *)

Lemma count_pair_zero_rows (j u : uuid) (d : Db) (r : job_applications_row) :
  count_pair j u d = 0 -> In r (job_applications d) -> same_pair j u r = false.
Proof.
  unfold count_pair. intros H Hin. apply not_true_is_false. intros C.
  assert (Hf : In r (filter (same_pair j u) (job_applications d)))
    by (apply filter_In; auto).
  destruct (filter (same_pair j u) (job_applications d)); [destruct Hf | discriminate].
Qed.

Lemma count_pair_of_row (j u : uuid) (d : Db) (r : job_applications_row) :
  In r (job_applications d) -> same_pair j u r = true -> 1 <= count_pair j u d.
Proof.
  unfold count_pair. intros Hin Hs.
  assert (Hf : In r (filter (same_pair j u) (job_applications d)))
    by (apply filter_In; auto).
  destruct (filter (same_pair j u) (job_applications d)); [destruct Hf | simpl; lia].
Qed.

(** When an insert goes through: the applicant asks for themself, the
    values fit, the id is new, the pair is new and the job is there. *)
Lemma insert_job_applications_succeeds
      (gen : uuid) (p : application_insert) (d : Db) :
  int4_ok (ai_age p) = true -> int4_ok (ai_experience_years p) = true ->
  (forall r, In r (job_applications d) -> a_id r <> gen) ->
  count_pair (ai_job_id p) (ai_user_id p) d = 0 ->
  (exists j, In j (jobs d) /\ j_id j = ai_job_id p) ->
  insert_job_applications (Some (ai_user_id p)) gen p d
  = (None, set_job_applications (job_applications d ++ [apply_defaults gen p]) d).
Proof.
  intros Ha He Hfresh Hnew [j [Hj Hid]]. unfold insert_job_applications.
  rewrite Ha, He. simpl.
  unfold Policy.job_applications_insert_check. simpl. rewrite String.eqb_refl. simpl.
  rewrite existsb_false.
  - assert (E : existsb (fun j0 => String.eqb (j_id j0) (ai_job_id p)) (jobs d) = true).
    { apply existsb_exists. exists j. split; [assumption|].
      rewrite Hid. apply String.eqb_refl. }
    now rewrite E.
  - intros r Hin. rewrite (count_pair_zero_rows _ _ _ _ Hnew Hin).
    apply Hfresh in Hin. apply String.eqb_neq in Hin. now rewrite Hin.
Qed.

Lemma set_add_In (x y : string) (s : list string) :
  In y (set_add x s) <-> y = x \/ In y s.
Proof.
  unfold set_add. destruct (existsb (String.eqb x) s) eqn:E.
  - apply existsb_exists in E as [z [Hz Hx]]. apply String.eqb_eq in Hx. subst z.
    split; [auto | intros [->|H]; auto].
  - rewrite in_app_iff. simpl. intuition.
Qed.

Lemma set_add_NoDup (x : string) (s : list string) :
  NoDup s -> NoDup (set_add x s).
Proof.
  intros H. unfold set_add. destruct (existsb (String.eqb x) s) eqn:E; [assumption|].
  apply NoDup_app; [assumption | repeat constructor; intros [] |].
  intros y Hy [Hxy|[]]. subst y.
  assert (C : existsb (String.eqb x) s = true).
  { apply existsb_exists. exists x. split; [assumption | apply String.eqb_refl]. }
  congruence.
Qed.

Lemma fold_set_add (xs acc : list string) (y : string) :
  (In y (fold_left (fun s x => set_add x s) xs acc) <-> In y acc \/ In y xs)
  /\ (NoDup acc -> NoDup (fold_left (fun s x => set_add x s) xs acc)).
Proof.
  revert acc. induction xs as [|x xs IH]; intros acc; simpl.
  - intuition.
  - destruct (IH (set_add x acc)) as [H1 H2]. split.
    + rewrite H1, set_add_In. intuition.
    + intros Hn. apply H2. now apply set_add_NoDup.
Qed.

(** [new Set(xs)] has the elements of [xs], each once. *)
Lemma set_of_spec (xs : list string) (y : string) :
  (In y (set_of xs) <-> In y xs) /\ NoDup (set_of xs).
Proof.
  unfold set_of. destruct (fold_set_add xs [] y) as [H1 H2]. split.
  - rewrite H1. simpl. intuition.
  - apply H2. constructor.
Qed.

(** The applied-jobs query returns the jobs the user has an application
    for. *)
Lemma fetchAppliedJobs_query_In (u : User) (d : Db) (jobId : uuid) :
  In jobId (AppliedJobs.fetchAppliedJobs_query u d)
  <-> 1 <= count_pair jobId (u_id u) d.
Proof.
  unfold AppliedJobs.fetchAppliedJobs_query, rls_select. rewrite in_map_iff. split.
  - intros [r [Hj Hr]]. apply filter_In in Hr as [Hin Hp].
    apply andb_true_iff in Hp as [_ Hu].
    apply (count_pair_of_row _ _ _ r Hin). unfold same_pair.
    rewrite Hj, Hu. now rewrite String.eqb_refl.
  - intros H. destruct (count_pair_positive _ _ _ H) as [r [Hin Hs]].
    apply same_pair_eq in Hs as [Hj Hu]. exists r. split; [assumption|].
    apply filter_In. split; [assumption|].
    unfold Policy.job_applications_select. simpl. rewrite Hu.
    now rewrite !String.eqb_refl.
Qed.

(** After [fetchAppliedJobs] a job is marked as applied exactly when the
    database holds an application of the user for it, and no job is marked
    twice. *)
Theorem fetchAppliedJobs_marks_the_jobs_applied_to
        (u : User) (w : World) (ui : JobSeekerDashboard.State) :
  (forall jobId,
      In jobId (JobSeekerDashboard.appliedJobs
                  (AppliedJobs.fetchAppliedJobs (Some u) w ui))
      <-> 1 <= count_pair jobId (u_id u) (db w))
  /\ NoDup (JobSeekerDashboard.appliedJobs
              (AppliedJobs.fetchAppliedJobs (Some u) w ui)).
Proof.
  simpl. split; [|apply (set_of_spec _ "")].
  intros jobId. rewrite (proj1 (set_of_spec _ jobId)).
  apply fetchAppliedJobs_query_In.
Qed.

(** Applying to a job that exists and that the user has not applied to
    stores one pending application of theirs, marks the job as applied, and
    a reload of the applied jobs agrees. *)
Theorem handleApply_stores_and_marks
        (u : User) (jobId : uuid) (w : World) (ui : JobSeekerDashboard.State) :
  (exists j, In j (jobs (db w)) /\ j_id j = jobId) ->
  count_pair jobId (u_id u) (db w) = 0 ->
  (forall r, In r (job_applications (db w)) -> a_id r <> uuids w (drawn w)) ->
  job_applications (db (fst (JobSeekerDashboard.handleApply (Some u) jobId w ui)))
  = (job_applications (db w)
       ++ [mk_application (uuids w (drawn w)) jobId (u_id u) (Some "pending")
                          None None None None None])%list
  /\ In jobId (JobSeekerDashboard.appliedJobs
                 (snd (JobSeekerDashboard.handleApply (Some u) jobId w ui)))
  /\ In jobId (JobSeekerDashboard.appliedJobs
                 (AppliedJobs.fetchAppliedJobs (Some u)
                    (fst (JobSeekerDashboard.handleApply (Some u) jobId w ui))
                    (snd (JobSeekerDashboard.handleApply (Some u) jobId w ui)))).
Proof.
  intros Hjob Hnew Hfresh.
  pose proof (insert_job_applications_succeeds (uuids w (drawn w))
    (mk_application_insert jobId (u_id u) None None None None None None)
    (db w) eq_refl eq_refl Hfresh Hnew Hjob) as E.
  assert (Hrows :
    job_applications (db (fst (JobSeekerDashboard.handleApply (Some u) jobId w ui)))
    = (job_applications (db w)
         ++ [mk_application (uuids w (drawn w)) jobId (u_id u) (Some "pending")
                            None None None None None])%list).
  { unfold JobSeekerDashboard.handleApply, run_statement. simpl.
    simpl in E. rewrite E. reflexivity. }
  split; [exact Hrows|]. split.
  - unfold JobSeekerDashboard.handleApply, run_statement. simpl.
    simpl in E. rewrite E. simpl. apply set_add_In. now left.
  - assert (Hc : 1 <= count_pair jobId (u_id u)
                     (db (fst (JobSeekerDashboard.handleApply (Some u) jobId w ui)))).
    { apply (count_pair_of_row _ _ _
               (mk_application (uuids w (drawn w)) jobId (u_id u) (Some "pending")
                               None None None None None)).
      + rewrite Hrows. apply in_or_app. right. now left.
      + unfold same_pair. simpl. now rewrite !String.eqb_refl. }
    apply fetchAppliedJobs_query_In in Hc. apply (set_of_spec _ jobId) in Hc.
    exact Hc.
Qed.

(** a1 applies to a second posting of e1. *)
Lemma handleApply_stores_and_marks_witness :
  In "j2"
     (JobSeekerDashboard.appliedJobs
        (snd (JobSeekerDashboard.handleApply (Some Scenario.seeker) "j2"
                (Scenario.world
                   (run [CreateJob (Some "e1")
                           (mk_job "j2" "Data Engineer" "c1" None None None None None
                                   (Some true) (Some "e1") None)]
                        Scenario.ledger)
                   Scenario.delivering)
                (JobSeekerDashboard.mk_state [] ["j1"] [])))).
Proof.
  apply (handleApply_stores_and_marks Scenario.seeker "j2"
           (Scenario.world
              (run [CreateJob (Some "e1")
                      (mk_job "j2" "Data Engineer" "c1" None None None None None
                              (Some true) (Some "e1") None)]
                   Scenario.ledger)
              Scenario.delivering)
           (JobSeekerDashboard.mk_state [] ["j1"] [])).
  - eexists. split; [right; left; reflexivity | reflexivity].
  - reflexivity.
  - intros r [Hr|[]]. subst r. simpl. discriminate.
Defined.

(** Applying to a job that is not in the table is refused by the foreign
    key and shown as the generic error; nothing is stored. *)
Theorem handleApply_to_missing_job
        (u : User) (jobId : uuid) (w : World) (ui : JobSeekerDashboard.State) :
  (forall j, In j (jobs (db w)) -> j_id j <> jobId) ->
  count_pair jobId (u_id u) (db w) = 0 ->
  (forall r, In r (job_applications (db w)) -> a_id r <> uuids w (drawn w)) ->
  db (fst (JobSeekerDashboard.handleApply (Some u) jobId w ui)) = db w
  /\ JobSeekerDashboard.toasts
       (snd (JobSeekerDashboard.handleApply (Some u) jobId w ui))
     = (JobSeekerDashboard.toasts ui
          ++ [mk_toast destructive "Error" "Failed to submit application"])%list
  /\ JobSeekerDashboard.appliedJobs
       (snd (JobSeekerDashboard.handleApply (Some u) jobId w ui))
     = JobSeekerDashboard.appliedJobs ui.
Proof.
  intros Hjob Hnew Hfresh.
  unfold JobSeekerDashboard.handleApply, run_statement, insert_job_applications.
  simpl. unfold Policy.job_applications_insert_check. simpl.
  rewrite String.eqb_refl. simpl.
  rewrite existsb_false.
  - rewrite existsb_false; [simpl; auto|].
    intros j Hin. apply Hjob in Hin. now apply String.eqb_neq.
  - intros r Hin. rewrite (count_pair_zero_rows _ _ _ _ Hnew Hin).
    apply Hfresh in Hin. apply String.eqb_neq in Hin. now rewrite Hin.
Qed.

Lemma handleApply_to_missing_job_witness :
  db (fst (JobSeekerDashboard.handleApply (Some Scenario.seeker) "j7"
             (Scenario.world Scenario.ledger Scenario.delivering)
             (JobSeekerDashboard.mk_state [] [] [])))
  = Scenario.ledger.
Proof.
  apply (handleApply_to_missing_job Scenario.seeker "j7"
           (Scenario.world Scenario.ledger Scenario.delivering)
           (JobSeekerDashboard.mk_state [] [] [])).
  - intros j [Hj|[]]. subst j. simpl. discriminate.
  - reflexivity.
  - intros r [Hr|[]]. subst r. simpl. discriminate.
Defined.

(* ===================================================================== *)
(** * What the employer's dialog lists *)
(* ===================================================================== *)

(** The owner of a job is shown every application to it; anybody else is
    shown their own application to it at most, and a caller who is not
    signed in is shown none.  The query asks for the newest first, so the
    rows are those stated in some order. *)
Theorem fetchApplicants_by_role
        (u : User) (jobId : uuid) (w : World) (ui : ViewApplicants.State) :
  ((exists J, In J (jobs (db w)) /\ j_id J = jobId /\ j_user_id J = Some (u_id u)) ->
   Permutation
     (ViewApplicants.applicants (ViewApplicants.fetchApplicants (Some u) jobId w ui))
     (map ViewApplicants.to_applicant
          (filter (fun r => String.eqb (a_job_id r) jobId) (job_applications (db w)))))
  /\ ((forall J, In J (jobs (db w)) -> j_id J = jobId -> j_user_id J <> Some (u_id u)) ->
      Permutation
        (ViewApplicants.applicants (ViewApplicants.fetchApplicants (Some u) jobId w ui))
        (map ViewApplicants.to_applicant
             (filter (fun r => String.eqb (a_job_id r) jobId
                               && String.eqb (a_user_id r) (u_id u))
                     (job_applications (db w)))))
  /\ ViewApplicants.applicants (ViewApplicants.fetchApplicants None jobId w ui) = [].
Proof.
  split; [|split].
  - intros HJ. simpl. apply Permutation_map. unfold rls_select.
    erewrite filter_ext; [apply Permutation_refl|]. intros r. simpl.
    destruct (String.eqb (a_job_id r) jobId) eqn:E; [|apply andb_false_r].
    apply String.eqb_eq in E. rewrite andb_true_r.
    unfold Policy.job_applications_select. rewrite E.
    assert (Ho : Policy.is_job_owner (db w) (Some (u_id u)) jobId = true)
      by (apply is_job_owner_spec; exact HJ).
    rewrite Ho. apply orb_true_r.
  - intros HJ. simpl. apply Permutation_map. unfold rls_select.
    erewrite filter_ext; [apply Permutation_refl|]. intros r. simpl.
    destruct (String.eqb (a_job_id r) jobId) eqn:E; [|apply andb_false_r].
    apply String.eqb_eq in E. rewrite andb_true_r. simpl.
    unfold Policy.job_applications_select. rewrite E.
    assert (Ho : Policy.is_job_owner (db w) (Some (u_id u)) jobId = false).
    { apply not_true_is_false. intros C.
      apply is_job_owner_spec in C as [J [H1 [H2 H3]]]. exact (HJ J H1 H2 H3). }
    rewrite Ho, orb_false_r. simpl. apply String.eqb_sym.
  - simpl. unfold rls_select.
    assert (E : filter
      (fun r => Policy.job_applications_select (db w) None r
                && String.eqb (a_job_id r) jobId)
      (job_applications (db w)) = []).
    { induction (job_applications (db w)) as [|r t IH]; simpl; [reflexivity|].
      unfold Policy.job_applications_select at 1. simpl.
      rewrite is_job_owner_anonymous. simpl. exact IH. }
    now rewrite E.
Qed.

(** e1 sees a1's application to j1; e2 sees nothing. *)
Lemma fetchApplicants_by_role_witness :
  Permutation
    (ViewApplicants.applicants
       (ViewApplicants.fetchApplicants (Some Scenario.employer1) "j1"
          (Scenario.world Scenario.ledger Scenario.delivering) ViewApplicants.initial))
    [Scenario.ada]
  /\ Permutation
       (ViewApplicants.applicants
          (ViewApplicants.fetchApplicants (Some Scenario.employer2) "j1"
             (Scenario.world Scenario.ledger Scenario.delivering)
             ViewApplicants.initial))
       [].
Proof.
  destruct (fetchApplicants_by_role Scenario.employer1 "j1"
              (Scenario.world Scenario.ledger Scenario.delivering)
              ViewApplicants.initial) as [H1 _].
  destruct (fetchApplicants_by_role Scenario.employer2 "j1"
              (Scenario.world Scenario.ledger Scenario.delivering)
              ViewApplicants.initial) as [_ [H2 _]].
  split.
  - apply H1.
    exists Scenario.job1. split; [now left | split; reflexivity].
  - apply H2.
    intros J [HJ|[]] _. subst J. simpl. discriminate.
Defined.

Lemma to_applicant_with_status (s : string) (r : job_applications_row) :
  ViewApplicants.to_applicant (with_status (Some s) r)
  = ViewApplicants.spread_status s (ViewApplicants.to_applicant r).
Proof. reflexivity. Qed.

(** Rewriting, in the rows of one job, the status of the rows with a given
    id is what [mark] does to the list shown for that job. *)
Lemma listed_after_rewrite (jobId applicationId : uuid) (s : string)
      (f : job_applications_row -> job_applications_row)
      (t : list job_applications_row) :
  (forall r, a_job_id (f r) = a_job_id r) ->
  (forall r, a_job_id r = jobId ->
             f r = if String.eqb (a_id r) applicationId
                   then with_status (Some s) r else r) ->
  map ViewApplicants.to_applicant
      (filter (fun r => String.eqb (a_job_id r) jobId) (map f t))
  = ViewApplicants.mark applicationId s
      (map ViewApplicants.to_applicant
           (filter (fun r => String.eqb (a_job_id r) jobId) t)).
Proof.
  intros Hk Hf. induction t as [|r t IH]; simpl; [reflexivity|].
  rewrite Hk. destruct (String.eqb (a_job_id r) jobId) eqn:E; [|exact IH].
  simpl. rewrite IH. f_equal. apply String.eqb_eq in E. rewrite (Hf r E).
  destruct (String.eqb (a_id r) applicationId); reflexivity.
Qed.

(** If the dialog lists the applications of the selected job as the database
    has them, it still does after [sendEmailAndUpdateStatus], whether the
    letter went out or not. *)
Theorem sendEmailAndUpdateStatus_keeps_list_in_step
        (jobId : uuid) (applicant : ViewApplicants.Applicant)
        (s : ViewApplicants.LetterStatus) (w : World) (ui : ViewApplicants.State) :
  ViewApplicants.applicants ui
  = map ViewApplicants.to_applicant
        (filter (fun r => String.eqb (a_job_id r) jobId) (job_applications (db w))) ->
  ViewApplicants.applicants
    (snd (ViewApplicants.sendEmailAndUpdateStatus applicant s w ui))
  = map ViewApplicants.to_applicant
        (filter (fun r => String.eqb (a_job_id r) jobId)
                (job_applications
                   (db (fst (ViewApplicants.sendEmailAndUpdateStatus applicant s w ui))))).
Proof.
  intros Hm. unfold ViewApplicants.sendEmailAndUpdateStatus.
  destruct (negb (truthy_opt (ViewApplicants.applicant_email applicant)));
    [exact Hm|].
  destruct (ViewApplicants.selectedJob ui) as [job|]; [|exact Hm].
  unfold functions_invoke, SendApplicantEmail.handler. simpl.
  unfold try_catch, bind, resend_emails_send, service_update_status,
    run_statement, throw, ret.
  destruct (resend w _); simpl; [|exact Hm].
  rewrite Hm. symmetry. apply listed_after_rewrite.
  - intros r. destruct (String.eqb (a_id r) _); reflexivity.
  - reflexivity.
Qed.

Lemma sendEmailAndUpdateStatus_keeps_list_in_step_witness :
  ViewApplicants.applicants
    (snd (ViewApplicants.sendEmailAndUpdateStatus Scenario.ada
            ViewApplicants.rejected
            (Scenario.world Scenario.ledger Scenario.delivering)
            (Scenario.dialog [Scenario.ada])))
  = map ViewApplicants.to_applicant
        (job_applications
           (snd (service_update_job_applications_status "app1" "rejected"
                   Scenario.ledger))).
Proof.
  apply (sendEmailAndUpdateStatus_keeps_list_in_step "j1" Scenario.ada
           ViewApplicants.rejected
           (Scenario.world Scenario.ledger Scenario.delivering)
           (Scenario.dialog [Scenario.ada])).
  reflexivity.
Defined.

(** The same for the plain status buttons when the signed-in user owns the
    selected job. *)
Theorem updateApplicationStatus_keeps_list_in_step
        (u : User) (jobId applicationId : uuid) (s : string) (w : World)
        (ui : ViewApplicants.State) :
  (exists J, In J (jobs (db w)) /\ j_id J = jobId /\ j_user_id J = Some (u_id u)) ->
  ViewApplicants.applicants ui
  = map ViewApplicants.to_applicant
        (filter (fun r => String.eqb (a_job_id r) jobId) (job_applications (db w))) ->
  ViewApplicants.applicants
    (snd (ViewApplicants.updateApplicationStatus (Some u) applicationId s w ui))
  = map ViewApplicants.to_applicant
        (filter (fun r => String.eqb (a_job_id r) jobId)
                (job_applications
                   (db (fst (ViewApplicants.updateApplicationStatus
                               (Some u) applicationId s w ui))))).
Proof.
  intros HJ Hm. rewrite updateApplicationStatus_reports_success. simpl.
  rewrite update_status_as_map. simpl.
  rewrite Hm. symmetry. apply listed_after_rewrite.
  - intros r. destruct (targeted _ _ _ r); reflexivity.
  - intros r Hr. unfold targeted, Policy.job_applications_select,
      Policy.job_applications_update_using.
    assert (Ho : Policy.is_job_owner (db w) (Some (u_id u)) (a_job_id r) = true)
      by (rewrite Hr; apply is_job_owner_spec; exact HJ).
    rewrite Ho, orb_true_r, !andb_true_r. reflexivity.
Qed.

Lemma updateApplicationStatus_keeps_list_in_step_witness :
  ViewApplicants.applicants
    (snd (ViewApplicants.updateApplicationStatus (Some Scenario.employer1) "app1"
            "reviewed" (Scenario.world Scenario.ledger Scenario.delivering)
            (Scenario.dialog [Scenario.ada])))
  = map ViewApplicants.to_applicant
        (job_applications
           (run [UpdateStatus (Some "e1") "app1" "reviewed"] Scenario.ledger)).
Proof.
  apply (updateApplicationStatus_keeps_list_in_step Scenario.employer1 "j1" "app1"
           "reviewed" (Scenario.world Scenario.ledger Scenario.delivering)
           (Scenario.dialog [Scenario.ada])).
  - exists Scenario.job1. split; [now left | split; reflexivity].
  - reflexivity.
Defined.

(* ===================================================================== *)
(** * The filters of the dialog *)
(* ===================================================================== *)

(** [applicant.experience_years ?? 0] *)
Lemma passes_without_bounds (parseInt : string -> number) (ui : ViewApplicants.State)
      (a : ViewApplicants.Applicant) :
  ViewApplicants.minExperience ui = "" ->
  ViewApplicants.maxExperience ui = "" ->
  ViewApplicants.passes_filters parseInt ui a
  = (0 <=? match ViewApplicants.experience_years a with Some y => y | None => 0 end)%Z
    && (String.eqb (ViewApplicants.statusFilter ui) "all"
        || String.eqb (or_else (ViewApplicants.status a) "pending")
                      (ViewApplicants.statusFilter ui)).
Proof.
  intros Hmin Hmax. unfold ViewApplicants.passes_filters. rewrite Hmin, Hmax. simpl.
  unfold number_gt. simpl. rewrite orb_false_r.
  rewrite Z.leb_antisym.
  destruct (_ <? 0)%Z; simpl; [reflexivity|].
  destruct (String.eqb (ViewApplicants.statusFilter ui) "all"); simpl; [reflexivity|].
  destruct (String.eqb _ (ViewApplicants.statusFilter ui)); reflexivity.
Qed.

(** Selecting a job clears the three filters; what is then shown is what was
    fetched for the job, less the applicants whose years of experience are
    negative (a missing value counts as 0). *)
Theorem handleJobSelect_shows_what_was_fetched
        (parseInt : string -> number) (user : option User) (jobId : uuid)
        (w : World) (ui : ViewApplicants.State) :
  ViewApplicants.filteredApplicants parseInt
    (ViewApplicants.handleJobSelect user jobId w ui)
  = filter (fun a => (0 <=? match ViewApplicants.experience_years a with
                            | Some y => y
                            | None => 0
                            end)%Z)
           (ViewApplicants.applicants (ViewApplicants.fetchApplicants user jobId w ui))
  /\ ViewApplicants.selectedJob (ViewApplicants.handleJobSelect user jobId w ui)
     = find (fun j => String.eqb (ViewApplicants.job_id j) jobId)
            (ViewApplicants.jobs_listed ui).
Proof.
  split; [|reflexivity].
  unfold ViewApplicants.filteredApplicants. apply filter_ext. intros a.
  rewrite passes_without_bounds by reflexivity. simpl. apply andb_true_r.
Qed.

(** The "Pending" filter also keeps the applicants whose status is NULL or
    empty. *)
Theorem pending_filter_keeps_missing_status
        (parseInt : string -> number) (ui : ViewApplicants.State)
        (a : ViewApplicants.Applicant) :
  ViewApplicants.minExperience ui = "" ->
  ViewApplicants.maxExperience ui = "" ->
  ViewApplicants.statusFilter ui = "pending" ->
  (In a (ViewApplicants.filteredApplicants parseInt ui)
   <-> In a (ViewApplicants.applicants ui)
       /\ (0 <= match ViewApplicants.experience_years a with Some y => y | None => 0 end)%Z
       /\ (ViewApplicants.status a = None \/ ViewApplicants.status a = Some ""
           \/ ViewApplicants.status a = Some "pending")).
Proof.
  intros Hmin Hmax Hs. unfold ViewApplicants.filteredApplicants.
  rewrite filter_In, passes_without_bounds by assumption.
  rewrite Hs. simpl. rewrite andb_true_iff, Z.leb_le, String.eqb_eq.
  assert (E : or_else (ViewApplicants.status a) "pending" = "pending"
              <-> ViewApplicants.status a = None \/ ViewApplicants.status a = Some ""
                  \/ ViewApplicants.status a = Some "pending").
  { destruct (ViewApplicants.status a) as [v|]; simpl.
    - unfold truthy. destruct (String.eqb v "") eqn:Ev; simpl.
      + apply String.eqb_eq in Ev. subst v. intuition.
      + apply String.eqb_neq in Ev. split.
        * intros ->. auto.
        * intros [H|[H|H]]; try discriminate; inversion H; congruence.
    - intuition. }
  rewrite E. tauto.
Qed.

Lemma pending_filter_keeps_missing_status_witness :
  In (ViewApplicants.mk_applicant "app4" (Some "Dee") None None None None None)
     (ViewApplicants.filteredApplicants Scenario.not_a_number
        (ViewApplicants.mk_state [] [Scenario.bob;
             ViewApplicants.mk_applicant "app4" (Some "Dee") None None None None None]
           "j1" None false None "" "" "pending" false "" "" false [])).
Proof.
  apply (pending_filter_keeps_missing_status Scenario.not_a_number
           (ViewApplicants.mk_state [] [Scenario.bob;
                ViewApplicants.mk_applicant "app4" (Some "Dee") None None None None None]
              "j1" None false None "" "" "pending" false "" "" false [])
           (ViewApplicants.mk_applicant "app4" (Some "Dee") None None None None None));
    try reflexivity.
  split; [right; left; reflexivity|]. split; [simpl; lia | left; reflexivity].
Defined.

(** A lower bound that [parseInt] cannot read bounds nothing: every
    applicant is shown, those with negative experience too. *)
Theorem unreadable_minimum_filters_nothing
        (parseInt : string -> number) (ui : ViewApplicants.State) :
  ViewApplicants.minExperience ui <> "" ->
  parseInt (ViewApplicants.minExperience ui) = NaN ->
  ViewApplicants.maxExperience ui = "" ->
  ViewApplicants.statusFilter ui = "all" ->
  ViewApplicants.filteredApplicants parseInt ui = ViewApplicants.applicants ui.
Proof.
  intros Hne Hnan Hmax Hs. unfold ViewApplicants.filteredApplicants.
  assert (E : forall a, ViewApplicants.passes_filters parseInt ui a = true).
  { intros a. unfold ViewApplicants.passes_filters. unfold truthy.
    apply String.eqb_neq in Hne. rewrite Hne, Hnan, Hmax, Hs. reflexivity. }
  induction (ViewApplicants.applicants ui) as [|a l IH]; simpl; [reflexivity|].
  rewrite E. now rewrite IH.
Qed.

Lemma unreadable_minimum_filters_nothing_witness :
  ViewApplicants.filteredApplicants Scenario.not_a_number
    (ViewApplicants.mk_state [] [Scenario.ada; Scenario.cyd]
       "j1" None false None "-" "" "all" false "" "" false [])
  = [Scenario.ada; Scenario.cyd].
Proof.
  apply (unreadable_minimum_filters_nothing Scenario.not_a_number
           (ViewApplicants.mk_state [] [Scenario.ada; Scenario.cyd]
              "j1" None false None "-" "" "all" false "" "" false []));
    try reflexivity.
  discriminate.
Defined.

(** Bounds that cross show nobody. *)
Theorem crossed_bounds_show_nobody
        (parseInt : string -> number) (ui : ViewApplicants.State) (lo hi : Z) :
  ViewApplicants.minExperience ui <> "" ->
  ViewApplicants.maxExperience ui <> "" ->
  parseInt (ViewApplicants.minExperience ui) = Finite lo ->
  parseInt (ViewApplicants.maxExperience ui) = Finite hi ->
  (hi < lo)%Z ->
  ViewApplicants.filteredApplicants parseInt ui = [].
Proof.
  intros Hmin Hmax Hlo Hhi Hlt. unfold ViewApplicants.filteredApplicants.
  assert (E : forall a, ViewApplicants.passes_filters parseInt ui a = false).
  { intros a. unfold ViewApplicants.passes_filters, truthy.
    apply String.eqb_neq in Hmin. apply String.eqb_neq in Hmax.
    rewrite Hmin, Hmax, Hlo, Hhi. simpl. unfold number_gt. simpl.
    destruct (_ <? lo)%Z eqn:E1; simpl; [reflexivity|].
    destruct (hi <? _)%Z eqn:E2; simpl; [reflexivity|].
    apply Z.ltb_ge in E1, E2. lia. }
  induction (ViewApplicants.applicants ui) as [|a l IH]; simpl; [reflexivity|].
  now rewrite E.
Qed.

Lemma crossed_bounds_show_nobody_witness :
  ViewApplicants.filteredApplicants Cases.one_digit
    (ViewApplicants.mk_state [] [Scenario.ada; Scenario.bob; Scenario.cyd]
       "j1" None false None "7" "3" "all" false "" "" false [])
  = [].
Proof.
  apply (crossed_bounds_show_nobody Cases.one_digit
           (ViewApplicants.mk_state [] [Scenario.ada; Scenario.bob; Scenario.cyd]
              "j1" None false None "7" "3" "all" false "" "" false [])
           7 3); try reflexivity; discriminate.
Defined.

(** With the status filter on anything but "all" or "shortlisted" no
    shortlisted applicant is in view, so "Send to Boss" sends everybody the
    filter shows: filtering on "rejected" sends the rejected. *)
Theorem send_to_boss_under_a_status_filter
        (parseInt : string -> number) (ui : ViewApplicants.State) :
  ViewApplicants.statusFilter ui <> "all" ->
  ViewApplicants.statusFilter ui <> "shortlisted" ->
  ViewApplicants.applicantsToSend parseInt ui
  = ViewApplicants.filteredApplicants parseInt ui
  /\ forall a, In a (ViewApplicants.applicantsToSend parseInt ui) ->
               or_else (ViewApplicants.status a) "pending"
               = ViewApplicants.statusFilter ui.
Proof.
  intros Hall Hshort.
  assert (Hst : forall a, In a (ViewApplicants.filteredApplicants parseInt ui) ->
                          or_else (ViewApplicants.status a) "pending"
                          = ViewApplicants.statusFilter ui).
  { intros a Ha. unfold ViewApplicants.filteredApplicants in Ha.
    apply filter_In in Ha as [_ Hp]. unfold ViewApplicants.passes_filters in Hp.
    destruct (number_lt _ _ || number_gt _ _); [discriminate|].
    apply String.eqb_neq in Hall. rewrite Hall in Hp. simpl in Hp.
    destruct (String.eqb (or_else (ViewApplicants.status a) "pending")
                         (ViewApplicants.statusFilter ui)) eqn:E;
      [now apply String.eqb_eq in E | discriminate]. }
  assert (E : ViewApplicants.shortlistedApplicants parseInt ui = []).
  { unfold ViewApplicants.shortlistedApplicants.
    destruct (filter _ (ViewApplicants.filteredApplicants parseInt ui))
      as [|a l] eqn:E; [reflexivity|].
    assert (Ha : In a (a :: l)) by now left.
    rewrite <- E in Ha. apply filter_In in Ha as [Hin Hs].
    apply strict_eq_true in Hs. apply Hst in Hin. rewrite Hs in Hin.
    simpl in Hin. congruence. }
  assert (E' : ViewApplicants.applicantsToSend parseInt ui
               = ViewApplicants.filteredApplicants parseInt ui).
  { unfold ViewApplicants.applicantsToSend. now rewrite E. }
  split; [exact E'|]. intros a Ha. rewrite E' in Ha. now apply Hst.
Qed.

Lemma send_to_boss_under_a_status_filter_witness :
  ViewApplicants.applicantsToSend Scenario.not_a_number
    (ViewApplicants.mk_state [] [Scenario.ada; Scenario.bob; Scenario.cyd]
       "j1" None false None "" "" "reviewed" false "" "" false [])
  = [Scenario.cyd].
Proof.
  destruct (send_to_boss_under_a_status_filter Scenario.not_a_number
              (ViewApplicants.mk_state [] [Scenario.ada; Scenario.bob; Scenario.cyd]
                 "j1" None false None "" "" "reviewed" false "" "" false []))
    as [H _]; try discriminate.
  rewrite H. reflexivity.
Defined.

(* ===================================================================== *)
(** * The resume input *)
(* ===================================================================== *)

Lemma handleFileChange_keeps_acceptable
      (picked : option JobApplicationForm.File) (ui : JobApplicationForm.State) :
  match JobApplicationForm.resumeFile ui with
  | None => True
  | Some f => ResumeInput.acceptable f = true
  end ->
  match JobApplicationForm.resumeFile (ResumeInput.handleFileChange picked ui) with
  | None => True
  | Some f => ResumeInput.acceptable f = true
  end.
Proof.
  intros H. unfold ResumeInput.handleFileChange.
  destruct picked as [file|]; [|exact H].
  destruct (String.eqb (JobApplicationForm.file_type file) "application/pdf") eqn:Et;
    destruct (5 * 1024 * 1024 <? JobApplicationForm.file_size file)%Z eqn:Es;
    cbn [negb]; cbv iota; try exact H.
  cbn [ResumeInput.setResumeFile JobApplicationForm.resumeFile].
  unfold ResumeInput.acceptable. rewrite Et. cbn [andb].
  apply Z.ltb_ge in Es. now apply Z.leb_le.
Qed.

(** Whatever files are picked, in whatever order, the file the form holds is
    a PDF of at most 5 MiB (or there is none); a pick that is refused leaves
    the file held before in place. *)
Theorem resume_input_holds_small_pdfs_only
        (picks : list (option JobApplicationForm.File))
        (ui : JobApplicationForm.State) :
  match JobApplicationForm.resumeFile ui with
  | None => True
  | Some f => ResumeInput.acceptable f = true
  end ->
  match JobApplicationForm.resumeFile
          (fold_left (fun ui p => ResumeInput.handleFileChange p ui) picks ui) with
  | None => True
  | Some f => ResumeInput.acceptable f = true
  end
  /\ forall f, ResumeInput.acceptable f = false ->
               JobApplicationForm.resumeFile (ResumeInput.handleFileChange (Some f) ui)
               = JobApplicationForm.resumeFile ui.
Proof.
  intros H. split.
  - revert ui H. induction picks as [|p picks IH]; intros ui H; [exact H|].
    simpl. apply IH. now apply handleFileChange_keeps_acceptable.
  - intros f Hf. unfold ResumeInput.handleFileChange, ResumeInput.acceptable in *.
    destruct (String.eqb (JobApplicationForm.file_type f) "application/pdf");
      destruct (5 * 1024 * 1024 <? JobApplicationForm.file_size f)%Z eqn:Es;
      cbn [negb andb] in *; cbv iota; try reflexivity.
    apply Z.ltb_ge in Es. apply Z.leb_gt in Hf. lia.
Qed.

(** A photo, the CV, a photo again: the form holds the CV. *)
Lemma resume_input_holds_small_pdfs_only_witness :
  JobApplicationForm.resumeFile
    (fold_left (fun ui p => ResumeInput.handleFileChange p ui)
               [Some Cases.photo; Some Cases.cv; Some Cases.photo] Cases.blank_form)
  = Some Cases.cv
  /\ ResumeInput.acceptable Cases.cv = true.
Proof.
  split; [reflexivity|].
  exact (proj1 (resume_input_holds_small_pdfs_only
                  [Some Cases.photo; Some Cases.cv; Some Cases.photo]
                  Cases.blank_form I)).
Defined.

(* ===================================================================== *)
(** * Posting a job *)
(* ===================================================================== *)

Lemma set_jobs_same (d : Db) : set_jobs (jobs d) d = d.
Proof. now destruct d. Qed.

(** A job posted through the form is stored as the poster's, active, and is
    at once among the jobs every visitor of its company sees and among the
    poster's own; the form is cleared and closed. *)
Theorem posted_job_is_listed
        (parseInt : string -> number) (u : User) (w : World)
        (ui : CreateJobForm.State) :
  CreateJobForm.companyId ui <> "" ->
  int4_ok (json_number (parseInt (CreateJobForm.minimumExperience ui))) = true ->
  (forall j, In j (jobs (db w)) -> j_id j <> uuids w (drawn w)) ->
  jobs (db (fst (CreateJobForm.handleSubmit parseInt (Some u) w ui)))
  = (jobs (db w) ++ [CreateJobForm.new_job parseInt u (uuids w (drawn w)) ui])%list
  /\ (forall viewer,
         In (CreateJobForm.new_job parseInt u (uuids w (drawn w)) ui)
            (JobSeekerDashboard.fetchJobs_query viewer (CreateJobForm.companyId ui)
               (db (fst (CreateJobForm.handleSubmit parseInt (Some u) w ui)))))
  /\ In (CreateJobForm.new_job parseInt u (uuids w (drawn w)) ui)
        (ViewApplicants.fetchEmployerJobs_query u
           (db (fst (CreateJobForm.handleSubmit parseInt (Some u) w ui))))
  /\ snd (CreateJobForm.handleSubmit parseInt (Some u) w ui)
     = CreateJobForm.mk_state false false "" "" "Full-time" "" "" "0" "" ""
         (S (CreateJobForm.posted ui))
         (CreateJobForm.toasts ui
            ++ [mk_toast plain "Job Posted!" "Your job listing is now live"]).
Proof.
  intros Hc Hi Hfresh.
  assert (E : insert_jobs (Some (u_id u))
                (CreateJobForm.new_job parseInt u (uuids w (drawn w)) ui) (db w)
              = (None, set_jobs
                         (jobs (db w)
                            ++ [CreateJobForm.new_job parseInt u (uuids w (drawn w)) ui])
                         (db w))).
  { unfold insert_jobs. simpl. rewrite Hi. simpl.
    unfold Policy.jobs_insert_check. simpl. rewrite String.eqb_refl. simpl.
    rewrite existsb_false; [reflexivity|].
    intros j Hin. apply Hfresh in Hin. now apply String.eqb_neq. }
  assert (Hrun : CreateJobForm.handleSubmit parseInt (Some u) w ui
                 = (set_db (set_jobs
                              (jobs (db w)
                                 ++ [CreateJobForm.new_job parseInt u (uuids w (drawn w)) ui])
                              (db w))
                           (snd (gen_random_uuid w)),
                    CreateJobForm.mk_state false false "" "" "Full-time" "" "" "0" "" ""
                      (S (CreateJobForm.posted ui))
                      (CreateJobForm.toasts ui
                         ++ [mk_toast plain "Job Posted!"
                                      "Your job listing is now live"]))).
  { unfold CreateJobForm.handleSubmit, run_statement. unfold truthy.
    apply String.eqb_neq in Hc. rewrite Hc. simpl.
    simpl in E. rewrite E. reflexivity. }
  rewrite Hrun. simpl. repeat split.
  - intros viewer. apply fetchJobs_active_only. simpl. split; [|split; reflexivity].
    apply in_or_app. right. now left.
  - apply fetchEmployerJobs_active_only. simpl. split; [|split; reflexivity].
    apply in_or_app. right. now left.
Qed.

Lemma posted_job_is_listed_witness :
  In (mk_job "app2" "Data Analyst" "c1" (Some "Full-time") None None
             (Some "Analyze large datasets") None (Some true) (Some "e2") (Some 2%Z))
     (JobSeekerDashboard.fetchJobs_query None "c1"
        (db (fst (CreateJobForm.handleSubmit Cases.one_digit (Some Scenario.employer2)
                    (Scenario.world Scenario.ledger Scenario.delivering)
                    Cases.job_form)))).
Proof.
  destruct (posted_job_is_listed Cases.one_digit Scenario.employer2
              (Scenario.world Scenario.ledger Scenario.delivering) Cases.job_form)
    as [_ [H _]].
  - discriminate.
  - reflexivity.
  - intros j [Hj|[]]. subst j. simpl. discriminate.
  - exact (H None).
Defined.

(** A minimum experience that does not fit an INTEGER makes the insert
    fail: nothing is stored, the generic error is shown, and the form keeps
    what was typed. *)
Theorem job_with_oversized_experience_is_not_posted
        (parseInt : string -> number) (u : User) (w : World)
        (ui : CreateJobForm.State) :
  CreateJobForm.companyId ui <> "" ->
  int4_ok (json_number (parseInt (CreateJobForm.minimumExperience ui))) = false ->
  db (fst (CreateJobForm.handleSubmit parseInt (Some u) w ui)) = db w
  /\ snd (CreateJobForm.handleSubmit parseInt (Some u) w ui)
     = CreateJobForm.setLoading false (CreateJobForm.toast CreateJobForm.post_failed ui).
Proof.
  intros Hc Hi. unfold CreateJobForm.handleSubmit, run_statement, insert_jobs, truthy.
  apply String.eqb_neq in Hc. rewrite Hc. simpl. rewrite Hi. simpl.
  split; [now destruct (db w) | reflexivity].
Qed.

Lemma job_with_oversized_experience_is_not_posted_witness :
  db (fst (CreateJobForm.handleSubmit (fun _ => Finite 4000000000)
             (Some Scenario.employer1)
             (Scenario.world Scenario.ledger Scenario.delivering) Cases.job_form))
  = Scenario.ledger.
Proof.
  apply (job_with_oversized_experience_is_not_posted (fun _ => Finite 4000000000)
           Scenario.employer1
           (Scenario.world Scenario.ledger Scenario.delivering) Cases.job_form).
  - discriminate.
  - reflexivity.
Defined.

(* ===================================================================== *)
(** * The employer's dashboard *)
(* ===================================================================== *)

Lemma with_is_active_same (j : jobs_row) :
  j_is_active j = Some true -> with_is_active (Some true) j = j.
Proof. destruct j; simpl; intros ->; reflexivity. Qed.

(** Under the policies of the migrations the activate/deactivate statement
    leaves the database as it finds it: a row it can reach is active, and
    the row it would write must be visible, hence active, too. *)
Lemma update_jobs_is_active_keeps_db (uid : option uuid) (jobId : uuid) (b : bool)
      (d : Db) :
  snd (update_jobs_is_active uid jobId b d) = d.
Proof.
  unfold update_jobs_is_active, rls_update.
  destruct (existsb _ (jobs d)) eqn:E; simpl; [apply set_jobs_same|].
  rewrite map_unchanged; [apply set_jobs_same|].
  intros j Hin.
  destruct (String.eqb (j_id j) jobId && Policy.jobs_select uid j
            && Policy.jobs_update_using uid j) eqn:Et; [|reflexivity].
  assert (Hc : Policy.jobs_update_check uid (with_is_active (Some b) j)
               && Policy.jobs_select uid (with_is_active (Some b) j) = true).
  { destruct (Policy.jobs_update_check uid (with_is_active (Some b) j)
              && Policy.jobs_select uid (with_is_active (Some b) j)) eqn:Ec;
      [reflexivity|].
    exfalso.
    assert (C : existsb
      (fun r => String.eqb (j_id r) jobId && Policy.jobs_select uid r
                && Policy.jobs_update_using uid r
                && negb (Policy.jobs_update_check uid (with_is_active (Some b) r)
                         && Policy.jobs_select uid (with_is_active (Some b) r)))
      (jobs d) = true).
    { apply existsb_exists. exists j. split; [assumption|]. now rewrite Et, Ec. }
    congruence. }
  apply andb_true_iff in Hc as [_ Hv]. unfold Policy.jobs_select in Hv. simpl in Hv.
  destruct b; [|discriminate].
  apply andb_true_iff in Et as [Et _]. apply andb_true_iff in Et as [_ Ha].
  unfold Policy.jobs_select in Ha. apply with_is_active_same.
  destruct (j_is_active j) as [[|]|]; simpl in Ha; congruence.
Qed.

(** No call of the activate/deactivate statement, by anybody, changes a
    stored job; the owner's request to deactivate an active job is refused
    by the policy check on the new row, and the dashboard, which only acts
    when there is no error, stays as it is. *)
Theorem toggleJobActive_changes_no_stored_job
        (u : User) (jobId : uuid) (w : World) (ui : EmployerDashboard.State) :
  (forall uid b, snd (update_jobs_is_active uid jobId b (db w)) = db w)
  /\ ((exists j, In j (jobs (db w)) /\ j_id j = jobId
                 /\ j_user_id j = Some (u_id u) /\ j_is_active j = Some true) ->
      fst (update_jobs_is_active (Some (u_id u)) jobId false (db w))
      = Some insufficient_privilege
      /\ EmployerDashboard.toggleJobActive (Some u) jobId true w ui = (w, ui)).
Proof.
  split; [intros; apply update_jobs_is_active_keeps_db|].
  intros [j [Hin [Hid [Hu Ha]]]].
  assert (E : update_jobs_is_active (Some (u_id u)) jobId false (db w)
              = (Some insufficient_privilege, db w)).
  { unfold update_jobs_is_active, rls_update.
    assert (C : existsb
      (fun r => String.eqb (j_id r) jobId && Policy.jobs_select (Some (u_id u)) r
                && Policy.jobs_update_using (Some (u_id u)) r
                && negb (Policy.jobs_update_check (Some (u_id u))
                           (with_is_active (Some false) r)
                         && Policy.jobs_select (Some (u_id u))
                              (with_is_active (Some false) r)))
      (jobs (db w)) = true).
    { apply existsb_exists. exists j. split; [assumption|].
      unfold Policy.jobs_select, Policy.jobs_update_using, Policy.jobs_update_check,
        Policy.jobs_update_using.
      simpl. rewrite Hid, Hu, Ha. simpl. now rewrite !String.eqb_refl. }
    rewrite C. now rewrite set_jobs_same. }
  split; [now rewrite E|].
  unfold EmployerDashboard.toggleJobActive, run_statement. simpl.
  rewrite E. now rewrite set_db_same.
Qed.

Lemma toggleJobActive_changes_no_stored_job_witness :
  update_jobs_is_active (Some "e1") "j1" false Scenario.ledger
  = (Some insufficient_privilege, Scenario.ledger).
Proof.
  destruct (toggleJobActive_changes_no_stored_job Scenario.employer1 "j1"
              (Scenario.world Scenario.ledger Scenario.delivering)
              (EmployerDashboard.mk_state [] 0 0 false)) as [H1 H2].
  destruct H2 as [H2 _].
  - exists Scenario.job1. split; [now left | repeat split].
  - apply injective_projections; [exact H2 | apply (H1 (Some "e1") false)].
Defined.

(** What [fetchData] puts on the dashboard: every job listed is active, so
    the "Active Jobs" figure is the number of jobs listed; and "Total
    Applications" counts the applications to the listed jobs, all of them. *)
Theorem fetchData_counts (u : User) (w : World) (ui : EmployerDashboard.State) :
  (forall j, In j (EmployerDashboard.jobs_listed
                     (EmployerDashboard.fetchData (Some u) w ui)) ->
             EmployerDashboard.job_is_active j = Some true)
  /\ EmployerDashboard.activeJobs (EmployerDashboard.fetchData (Some u) w ui)
     = Z.of_nat (length (EmployerDashboard.jobs_listed
                           (EmployerDashboard.fetchData (Some u) w ui)))
  /\ EmployerDashboard.totalApplications (EmployerDashboard.fetchData (Some u) w ui)
     = length (filter
                 (fun r => existsb (String.eqb (a_job_id r))
                             (map EmployerDashboard.job_id
                                  (EmployerDashboard.jobs_listed
                                     (EmployerDashboard.fetchData (Some u) w ui))))
                 (job_applications (db w))).
Proof.
  simpl.
  assert (Hact : forall j,
    In j (map (EmployerDashboard.to_listed w)
              (ViewApplicants.fetchEmployerJobs_query u (db w))) ->
    EmployerDashboard.job_is_active j = Some true).
  { intros j Hj. apply in_map_iff in Hj as [r [<- Hr]].
    apply fetchEmployerJobs_active_only in Hr as [_ [_ Ha]]. exact Ha. }
  split; [exact Hact|]. split.
  - f_equal. f_equal.
    induction (map (EmployerDashboard.to_listed w)
                   (ViewApplicants.fetchEmployerJobs_query u (db w))) as [|j l IH];
      [reflexivity|].
    simpl. rewrite (Hact j (or_introl eq_refl)). simpl. f_equal.
    apply IH. intros j' Hj'. apply Hact. now right.
  - unfold EmployerDashboard.count_applications, rls_select. f_equal.
    apply filter_ext. intros r.
    destruct (existsb (String.eqb (a_job_id r)) _) eqn:E; [|apply andb_false_r].
    rewrite andb_true_r.
    apply existsb_exists in E as [i [Hi Heq]]. apply String.eqb_eq in Heq.
    rewrite map_map in Hi. apply in_map_iff in Hi as [j [Hj Hin]]. simpl in Hj.
    apply fetchEmployerJobs_active_only in Hin as [Hin [Hu _]].
    unfold Policy.job_applications_select.
    assert (Ho : Policy.is_job_owner (db w) (Some (u_id u)) (a_job_id r) = true).
    { apply is_job_owner_spec. exists j. repeat split; congruence. }
    rewrite Ho. apply orb_true_r.
Qed.

(* ===================================================================== *)
(** * Where the pages send a visitor *)
(* ===================================================================== *)

(** A signed-in user with a role, once the session has loaded, ends on the
    dashboard of that role from whichever page they open, after at most two
    redirects, and stays there; the other role's dashboard sends them
    away. *)
Theorem signed_in_user_reaches_own_dashboard
        (p : Routes.Page) (u : User) (r : user_role) :
  Routes.settle 2 p (Routes.mk_session false (Some u) (Some r)) = Routes.home r
  /\ Routes.redirect (Routes.home r) (Routes.mk_session false (Some u) (Some r)) = None
  /\ Routes.redirect
       (Routes.home (match r with employer => job_seeker | job_seeker => employer end))
       (Routes.mk_session false (Some u) (Some r))
     = Some Routes.Auth.
Proof. destruct p, r; repeat split; reflexivity. Qed.

(** Without a user, or with a user whose role is missing, no dashboard
    keeps the visitor: both send them to the sign-in page, which, like the
    landing page, sends them nowhere. *)
Theorem no_dashboard_without_user_and_role
        (n : nat) (p : Routes.Page) (s : Routes.Session) :
  Routes.loading s = false ->
  Routes.user s = None \/ Routes.role s = None ->
  Routes.settle (S n) p s
  = match p with
    | Routes.Index => Routes.Index
    | _ => Routes.Auth
    end.
Proof.
  intros Hl Hmissing.
  assert (Hstay : forall q, q = Routes.Index \/ q = Routes.Auth ->
                            Routes.redirect q s = None).
  { intros q [->| ->]; simpl; rewrite Hl; simpl;
      destruct Hmissing as [-> | ->]; simpl; [reflexivity| |reflexivity|];
      destruct (Routes.user s); reflexivity. }
  assert (Hgo : forall q, q = Routes.EmployerDashboard \/ q = Routes.JobSeekerDashboard ->
                          Routes.redirect q s = Some Routes.Auth).
  { intros q [->| ->]; simpl; rewrite Hl; simpl;
      destruct Hmissing as [-> | ->]; simpl; try reflexivity;
      destruct (Routes.user s); reflexivity. }
  assert (Hauth : forall k, Routes.settle k Routes.Auth s = Routes.Auth).
  { intros [|k]; [reflexivity|]. cbn [Routes.settle].
    now rewrite (Hstay Routes.Auth (or_intror eq_refl)). }
  destruct p; cbn [Routes.settle].
  - now rewrite (Hstay Routes.Index (or_introl eq_refl)).
  - now rewrite (Hstay Routes.Auth (or_intror eq_refl)).
  - rewrite (Hgo Routes.EmployerDashboard (or_introl eq_refl)). apply Hauth.
  - rewrite (Hgo Routes.JobSeekerDashboard (or_intror eq_refl)). apply Hauth.
Qed.

(** A user whose role row is missing opens the employer dashboard. *)
Lemma no_dashboard_without_user_and_role_witness :
  Routes.settle 3 Routes.EmployerDashboard
    (Routes.mk_session false (Some Scenario.employer1) None)
  = Routes.Auth.
Proof.
  apply (no_dashboard_without_user_and_role 2 Routes.EmployerDashboard
           (Routes.mk_session false (Some Scenario.employer1) None)).
  - reflexivity.
  - right. reflexivity.
Defined.

(* ===================================================================== *)
(** * Keys and references in every reachable state *)
(* ===================================================================== *)

Lemma NoDup_map_snoc {A B : Type} (k : A -> B) (l : list A) (x : A) :
  NoDup (map k l) -> (forall y, In y l -> k y <> k x) -> NoDup (map k (l ++ [x])).
Proof.
  intros Hn Hfresh. rewrite map_app. simpl.
  apply NoDup_app; [assumption | repeat constructor; intros [] |].
  intros b Hb [Hx|[]]. subst b.
  apply in_map_iff in Hb as [y [Hy Hin]]. exact (Hfresh y Hin Hy).
Qed.

(** What a command can do to the jobs table. *)
Lemma exec_jobs (c : Command) (d : Db) :
  jobs (snd (exec c d)) = jobs d
  \/ exists row, jobs (snd (exec c d)) = (jobs d ++ [row])%list
                 /\ forall j, In j (jobs d) -> j_id j <> j_id row.
Proof.
  destruct c as [uid gen user role|uid row|uid jobId b|uid gen p|uid appId s|appId s];
    simpl.
  - left. unfold insert_user_roles.
    repeat match goal with |- context [if ?b then _ else _] => destruct b end;
      reflexivity.
  - unfold insert_jobs.
    destruct (negb (int4_ok (j_minimum_experience row))); [now left|].
    destruct (negb (Policy.jobs_insert_check uid row)); [now left|].
    destruct (existsb _ (jobs d)) eqn:E; [now left|].
    right. exists row. split; [reflexivity|].
    intros j Hin Heq.
    assert (C : existsb (fun j0 => String.eqb (j_id j0) (j_id row)) (jobs d) = true).
    { apply existsb_exists. exists j. split; [assumption|].
      rewrite Heq. apply String.eqb_refl. }
    congruence.
  - left. now rewrite update_jobs_is_active_keeps_db.
  - left. unfold insert_job_applications.
    repeat match goal with |- context [if ?b then _ else _] => destruct b end;
      reflexivity.
  - left. now rewrite update_status_as_map.
  - now left.
Qed.

(** What a command can do to the applications table, with what an appended
    row is known to satisfy. *)
Lemma exec_applications (c : Command) (d : Db) :
  (exists f, (forall r, a_id (f r) = a_id r /\ a_job_id (f r) = a_job_id r)
             /\ job_applications (snd (exec c d)) = map f (job_applications d))
  \/ exists row,
      job_applications (snd (exec c d)) = (job_applications d ++ [row])%list
      /\ (forall r, In r (job_applications d) -> a_id r <> a_id row)
      /\ exists j, In j (jobs d) /\ j_id j = a_job_id row.
Proof.
  assert (Hsame : forall d' : Db, job_applications d' = job_applications d ->
    exists f, (forall r, a_id (f r) = a_id r /\ a_job_id (f r) = a_job_id r)
              /\ job_applications d' = map f (job_applications d)).
  { intros d' E. exists (fun r => r). split; [auto|]. now rewrite map_id. }
  destruct c as [uid gen user role|uid row|uid jobId b|uid gen p|uid appId s|appId s];
    simpl.
  - left. apply Hsame. unfold insert_user_roles.
    repeat match goal with |- context [if ?b then _ else _] => destruct b end;
      reflexivity.
  - left. apply Hsame. unfold insert_jobs.
    repeat match goal with |- context [if ?b then _ else _] => destruct b end;
      reflexivity.
  - left. apply Hsame. now rewrite update_jobs_is_active_keeps_db.
  - unfold insert_job_applications.
    destruct (negb (int4_ok (ai_age p) && int4_ok (ai_experience_years p)));
      [left; now apply Hsame|].
    destruct (negb (Policy.job_applications_insert_check uid (apply_defaults gen p)));
      [left; now apply Hsame|].
    destruct (existsb _ (job_applications d)) eqn:E; [left; now apply Hsame|].
    destruct (existsb _ (jobs d)) eqn:Ej; simpl; [|left; now apply Hsame].
    right. exists (apply_defaults gen p). split; [reflexivity|]. split.
    + intros r Hin Heq. simpl in Heq.
      assert (C : existsb
        (fun r0 => String.eqb (a_id r0) gen
                   || same_pair (ai_job_id p) (ai_user_id p) r0)
        (job_applications d) = true).
      { apply existsb_exists. exists r. split; [assumption|].
        rewrite Heq, String.eqb_refl. reflexivity. }
      congruence.
    + apply existsb_exists in Ej as [j [Hin Hj]]. apply String.eqb_eq in Hj.
      exists j. auto.
  - left. rewrite update_status_as_map. simpl.
    exists (fun r => if targeted d uid appId r then with_status (Some s) r else r).
    split; [|reflexivity].
    intros r. destruct (targeted d uid appId r); split; reflexivity.
  - left.
    exists (fun r => if String.eqb (a_id r) appId then with_status (Some s) r else r).
    split; [|reflexivity].
    intros r. destruct (String.eqb (a_id r) appId); split; reflexivity.
Qed.

Lemma exec_keeps_references (c : Command) (d : Db) :
  references_hold d -> references_hold (snd (exec c d)).
Proof.
  intros H r' Hr'.
  assert (Hjobs : forall j, In j (jobs d) -> In j (jobs (snd (exec c d)))).
  { intros j Hj. destruct (exec_jobs c d) as [E|[row [E _]]]; rewrite E;
      [assumption | apply in_or_app; now left]. }
  destruct (exec_applications c d) as [[f [Hf E]]|[row [E [_ [j [Hj Hid]]]]]];
    rewrite E in Hr'.
  - apply in_map_iff in Hr' as [r [<- Hr]]. destruct (H r Hr) as [j [Hj Hid]].
    exists j. split; [now apply Hjobs|]. destruct (Hf r) as [_ ->]. exact Hid.
  - apply in_app_or in Hr' as [Hr|[<-|[]]].
    + destruct (H r' Hr) as [j' [Hj' Hid']]. exists j'. split; [now apply Hjobs|auto].
    + exists j. split; [now apply Hjobs | exact Hid].
Qed.

Lemma exec_keeps_ids_unique (c : Command) (d : Db) :
  ids_unique d -> ids_unique (snd (exec c d)).
Proof.
  intros [Ha Hj]. split.
  - destruct (exec_applications c d) as [[f [Hf E]]|[row [E [Hfresh _]]]]; rewrite E.
    + rewrite map_map.
      rewrite (map_ext (fun r => a_id (f r)) a_id); [assumption|].
      intros r. now destruct (Hf r).
    + now apply NoDup_map_snoc.
  - destruct (exec_jobs c d) as [E|[row [E Hfresh]]]; rewrite E;
      [assumption | now apply NoDup_map_snoc].
Qed.

(** In every state the ledger reaches, every application refers to a job
    that is in the jobs table. *)
Theorem reachable_references_hold (cs : list Command) :
  references_hold (run cs empty_db).
Proof.
  assert (G : forall d, references_hold d -> references_hold (run cs d)).
  { induction cs as [|c cs IH]; intros d H; [exact H|].
    rewrite run_cons. apply IH. now apply exec_keeps_references. }
  apply G. intros r [].
Qed.

(** In every state the ledger reaches, application ids are pairwise
    distinct and so are job ids, whatever ids the generator hands out. *)
Theorem reachable_ids_unique (cs : list Command) :
  ids_unique (run cs empty_db).
Proof.
  assert (G : forall d, ids_unique d -> ids_unique (run cs d)).
  { induction cs as [|c cs IH]; intros d H; [exact H|].
    rewrite run_cons. apply IH. now apply exec_keeps_ids_unique. }
  apply G. split; constructor.
Qed.

(* ===================================================================== *)
(** * The digest sent to the boss *)
(* ===================================================================== *)

Lemma nth_error_map_indexed {A B : Type} (f : A -> nat -> B) (i k : nat)
      (xs : list A) :
  nth_error (SendToBoss.map_indexed f i xs) k
  = option_map (fun x => f x (i + k)) (nth_error xs k).
Proof.
  revert i k. induction xs as [|x xs IH]; intros i k; destruct k; simpl;
    try reflexivity.
  - now rewrite Nat.add_0_r.
  - rewrite IH. now rewrite Nat.add_succ_r.
Qed.

(** The digest is addressed to the boss alone and lists the applicants of
    the request in their order, one row each, the k-th (from 0) numbered
    k + 1 and named as in the request, with no link when the resume URL is
    missing or empty; the count it announces is the number of rows. *)
Theorem digest_lists_every_applicant_in_order
        (b : SendToBoss.SendToBossRequest) (jobTitle companyName : string)
        (message : option string) (count : nat) (rows : list CandidateRow) :
  email_html (SendToBoss.digest b)
  = CandidateTable jobTitle companyName message count rows ->
  email_to (SendToBoss.digest b) = [SendToBoss.bossEmail b]
  /\ count = length (SendToBoss.shortlistedApplicants b)
  /\ length rows = count
  /\ forall k a,
      nth_error (SendToBoss.shortlistedApplicants b) k = Some a ->
      exists row,
        nth_error rows k = Some row
        /\ row_number row = to_string (Z.of_nat k + 1)
        /\ row_name row = SendToBoss.name a
        /\ (truthy_opt (SendToBoss.resumeUrl a) = false -> row_resume row = None).
Proof.
  unfold SendToBoss.digest. simpl. intros E. inversion E; subst. clear E.
  split; [reflexivity|]. split; [reflexivity|]. split; [apply length_map_indexed|].
  intros k a Hk. rewrite nth_error_map_indexed, Hk. simpl.
  eexists. split; [reflexivity|]. simpl. repeat split.
  intros ->. reflexivity.
Qed.

Lemma digest_lists_every_applicant_in_order_witness :
  exists row,
    nth_error
      (SendToBoss.map_indexed SendToBoss.generateApplicantRow 0
         [SendToBoss.mk_applicant "Ada" (Some 30%Z) (Some 4%Z) None;
          SendToBoss.mk_applicant "Bob" None None (Some "")]) 1
    = Some row
    /\ row_number row = "2" /\ row_name row = "Bob" /\ row_resume row = None.
Proof.
  destruct (digest_lists_every_applicant_in_order
              (SendToBoss.mk_body "boss@corp.example" "Data Analyst" "DataFlow Systems"
                 None
                 [SendToBoss.mk_applicant "Ada" (Some 30%Z) (Some 4%Z) None;
                  SendToBoss.mk_applicant "Bob" None None (Some "")])
              _ _ _ _ _ eq_refl) as [_ [_ [_ H]]].
  destruct (H 1 (SendToBoss.mk_applicant "Bob" None None (Some "")) eq_refl)
    as [row [H1 [H2 [H3 H4]]]].
  exists row. split; [exact H1|]. split; [exact H2|]. split; [exact H3|].
  apply H4. reflexivity.
Defined.

(* ===================================================================== *)
(** * From a resume URL back to the storage path *)
(* ===================================================================== *)

Lemma prefix_app_long (p s t : string) :
  String.length p <= String.length s ->
  String.prefix p (s ++ t) = String.prefix p s.
Proof.
  revert s. induction p as [|c p IH]; intros s H;
    [destruct s; simpl; [destruct t|]; reflexivity|].
  destruct s as [|c' s]; simpl in *; [lia|].
  destruct (Ascii.ascii_dec c c'); [apply IH; lia | reflexivity].
Qed.

Lemma prefix_self_app (p t : string) : String.prefix p (p ++ t) = true.
Proof.
  induction p as [|c p IH]; simpl; [now destruct t|].
  destruct (Ascii.ascii_dec c c); [exact IH | congruence].
Qed.

Lemma append_assoc (a b c : string) : ((a ++ b) ++ c = a ++ (b ++ c))%string.
Proof. induction a as [|x a IH]; simpl; [reflexivity | now rewrite IH]. Qed.

Lemma append_nil_r (a : string) : (a ++ "" = a)%string.
Proof. induction a as [|x a IH]; simpl; [reflexivity | now rewrite IH]. Qed.

Lemma length_append (a b : string) :
  String.length (a ++ b) = String.length a + String.length b.
Proof. induction a as [|x a IH]; simpl; [reflexivity | now rewrite IH]. Qed.

(** Passing over the rest of a matched separator. *)
Lemma split_go_skip (sep x b cur : string) :
  split_go sep (x ++ b) (String.length x) cur = split_go sep b 0 cur.
Proof.
  induction x as [|c x IH]; simpl; [now destruct b | exact IH].
Qed.

(** A string without the separator is one piece. *)
Lemma split_go_no_occurrence (sep b cur : string) :
  occurs sep b = false -> split_go sep b 0 cur = [(cur ++ b)%string].
Proof.
  revert cur. induction b as [|c b IH]; intros cur H; cbn [split_go].
  - now rewrite append_nil_r.
  - change (occurs sep (String c b))
      with (String.prefix sep (String c b) || occurs sep b) in H.
    apply orb_false_iff in H as [Hp Ho]. rewrite Hp.
    rewrite (IH _ Ho). now rewrite append_assoc.
Qed.

(** Up to the first occurrence of the separator. *)
Lemma split_go_first (sep_init : string) (l : ascii) (a b cur : string) :
  occurs (sep_init ++ String l "") (a ++ sep_init) = false ->
  split_go (sep_init ++ String l "") (a ++ (sep_init ++ String l "") ++ b) 0 cur
  = (cur ++ a)%string :: split_go (sep_init ++ String l "") b 0 "".
Proof.
  set (sep := (sep_init ++ String l "")%string).
  assert (Hlen : String.length sep = S (String.length sep_init)).
  { unfold sep. rewrite length_append. simpl. lia. }
  revert cur. induction a as [|c a IH]; intros cur H.
  - simpl. rewrite append_nil_r.
    destruct sep as [|c0 sep'] eqn:Es; [simpl in Hlen; lia|].
    change ((String c0 sep' ++ b)%string) with (String c0 (sep' ++ b)%string).
    cbn [split_go].
    assert (Hp : String.prefix (String c0 sep') (String c0 (sep' ++ b)) = true)
      by apply (prefix_self_app (String c0 sep') b).
    rewrite Hp. f_equal.
    replace (String.length (String c0 sep') - 1) with (String.length sep')
      by (simpl; lia).
    apply split_go_skip.
  - change ((String c a ++ sep ++ b)%string) with (String c (a ++ sep ++ b)%string).
    cbn [split_go].
    change (occurs sep (String c a ++ sep_init))
      with (String.prefix sep (String c (a ++ sep_init))
            || occurs sep (a ++ sep_init)) in H.
    apply orb_false_iff in H as [Hp Ho].
    assert (Hp' : String.prefix sep (String c (a ++ sep ++ b)) = false).
    { unfold sep at 2. rewrite append_assoc.
      rewrite <- (append_assoc a sep_init).
      change (String c ((a ++ sep_init) ++ String l "" ++ b))
        with ((String c (a ++ sep_init) ++ (String l "" ++ b))%string).
      rewrite prefix_app_long; [exact Hp|].
      simpl. rewrite length_append, Hlen. lia. }
    rewrite Hp'. rewrite (IH _ Ho). now rewrite append_assoc.
Qed.

(** For a resume URL of the form base/resumes/path, with no other
    "/resumes/" in it, the link sent to the boss is the link signed for
    exactly that path, for seven days; if signing gives nothing the stored
    URL is sent as it is. *)
Theorem signed_link_is_for_the_stored_path
        (w : World) (applicant : ViewApplicants.Applicant) (base path : string) :
  ViewApplicants.resume_url applicant = Some (base ++ "/resumes/" ++ path) ->
  occurs "/resumes/" (base ++ "/resumes") = false ->
  occurs "/resumes/" path = false ->
  SendToBoss.resumeUrl (ViewApplicants.with_signed_url w applicant)
  = Some (or_else (storage_signed_url w path 604800)
                  (base ++ "/resumes/" ++ path)).
Proof.
  intros Hurl Hbase Hpath. unfold ViewApplicants.with_signed_url. simpl.
  rewrite Hurl.
  assert (Ht : truthy (base ++ "/resumes/" ++ path) = true).
  { unfold truthy. destruct base; reflexivity. }
  rewrite Ht. unfold split.
  pose proof (split_go_first "/resumes" "/" base path "" Hbase) as E.
  change (("/resumes" ++ String "/" "")%string) with "/resumes/" in E.
  rewrite E. rewrite (split_go_no_occurrence "/resumes/" path "");
    [reflexivity | exact Hpath].
Qed.

Lemma signed_link_is_for_the_stored_path_witness :
  SendToBoss.resumeUrl
    (ViewApplicants.with_signed_url
       (Scenario.world Scenario.ledger Scenario.delivering) Scenario.ada)
  = Some "https://s/sign/resumes/a1/j1-1.pdf".
Proof.
  apply (signed_link_is_for_the_stored_path
           (Scenario.world Scenario.ledger Scenario.delivering) Scenario.ada
           "https://s" "a1/j1-1.pdf" eq_refl eq_refl eq_refl).
Defined.

(* ===================================================================== *)
(** * Submitting the application form *)
(* ===================================================================== *)

(** A submitted form whose resume is uploaded stores one pending
    application of the user for the job, with the name and email typed, the
    numbers as [parseInt] reads them, and the public URL of the object just
    uploaded; the form is closed and its age, experience and file are
    cleared. *)
Theorem handleSubmit_stores_the_application
        (parseInt : string -> number) (u : User) (jobId : uuid) (w : World)
        (ui : JobApplicationForm.State) (file : JobApplicationForm.File)
        (ext : string) :
  JobApplicationForm.resumeFile ui = Some file ->
  pop (split "." (JobApplicationForm.file_name file)) = Some ext ->
  storage_upload w (u_id u ++ "/" ++ jobId ++ "-" ++ to_string (now w) ++ "." ++ ext)
  = None ->
  int4_ok (json_number (parseInt (JobApplicationForm.age ui))) = true ->
  int4_ok (json_number (parseInt (JobApplicationForm.experienceYears ui))) = true ->
  (exists j, In j (jobs (db w)) /\ j_id j = jobId) ->
  count_pair jobId (u_id u) (db w) = 0 ->
  (forall r, In r (job_applications (db w)) -> a_id r <> uuids w (drawn w)) ->
  job_applications
    (db (fst (JobApplicationForm.handleSubmit parseInt (Some u) jobId w ui)))
  = (job_applications (db w)
       ++ [mk_application (uuids w (drawn w)) jobId (u_id u) (Some "pending")
             (Some (JobApplicationForm.fullName ui))
             (Some (JobApplicationForm.email ui))
             (json_number (parseInt (JobApplicationForm.age ui)))
             (json_number (parseInt (JobApplicationForm.experienceYears ui)))
             (Some (storage_public_url w
                      (u_id u ++ "/" ++ jobId ++ "-" ++ to_string (now w)
                            ++ "." ++ ext)))])%list
  /\ snd (JobApplicationForm.handleSubmit parseInt (Some u) jobId w ui)
     = JobApplicationForm.mk_state false false
         (JobApplicationForm.fullName ui) (JobApplicationForm.email ui) "" "" None
         (S (JobApplicationForm.submitted ui))
         (JobApplicationForm.toasts ui
            ++ [mk_toast plain "Application Submitted!"
                         "Your application has been sent to the employer"]).
Proof.
  intros Hf Hext Hup Ha He Hjob Hnew Hfresh.
  unfold JobApplicationForm.handleSubmit, run_statement.
  rewrite Hf, Hext, Hup. simpl.
  match goal with
  | |- context [insert_job_applications ?a ?g ?p ?d] =>
      pose proof (insert_job_applications_succeeds g p d Ha He Hfresh Hnew Hjob) as E
  end.
  simpl in E. rewrite E. simpl. split; reflexivity.
Qed.

Lemma handleSubmit_stores_the_application_witness :
  job_applications
    (db (fst (JobApplicationForm.handleSubmit Cases.one_digit
                (Some Scenario.employer2) "j1"
                (Scenario.world Scenario.ledger Scenario.delivering)
                (ResumeInput.setResumeFile (Some Cases.cv)
                   (JobApplicationForm.mk_state true false "Eve" "e2@other.example"
                                                "9" "3" None 0 [])))))
  = (job_applications Scenario.ledger
       ++ [mk_application "app2" "j1" "e2" (Some "pending") (Some "Eve")
             (Some "e2@other.example") (Some 9%Z) (Some 3%Z)
             (Some "https://s/resumes/e2/j1-1766400000000.pdf")])%list.
Proof.
  apply (handleSubmit_stores_the_application Cases.one_digit Scenario.employer2 "j1"
           (Scenario.world Scenario.ledger Scenario.delivering)
           (ResumeInput.setResumeFile (Some Cases.cv)
              (JobApplicationForm.mk_state true false "Eve" "e2@other.example"
                                           "9" "3" None 0 []))
           Cases.cv "pdf"); try reflexivity.
  - exists Scenario.job1. split; [now left | reflexivity].
  - intros r [Hr|[]]. subst r. simpl. discriminate.
Defined.

(** When the upload of the resume fails nothing is sent to the database;
    the generic error is shown and the form stays as it was, open and with
    the file still chosen. *)
Theorem handleSubmit_stops_when_the_upload_fails
        (parseInt : string -> number) (u : User) (jobId : uuid) (w : World)
        (ui : JobApplicationForm.State) (file : JobApplicationForm.File)
        (ext uploadError : string) :
  JobApplicationForm.resumeFile ui = Some file ->
  pop (split "." (JobApplicationForm.file_name file)) = Some ext ->
  storage_upload w (u_id u ++ "/" ++ jobId ++ "-" ++ to_string (now w) ++ "." ++ ext)
  = Some uploadError ->
  JobApplicationForm.handleSubmit parseInt (Some u) jobId w ui
  = (w, JobApplicationForm.mk_state
          (JobApplicationForm.is_open ui) false
          (JobApplicationForm.fullName ui) (JobApplicationForm.email ui)
          (JobApplicationForm.age ui) (JobApplicationForm.experienceYears ui)
          (Some file) (JobApplicationForm.submitted ui)
          (JobApplicationForm.toasts ui ++ [JobApplicationForm.submit_failed])).
Proof.
  intros Hf Hext Hup. unfold JobApplicationForm.handleSubmit.
  rewrite Hf, Hext, Hup.
  unfold JobApplicationForm.setLoading, JobApplicationForm.toast. simpl.
  now rewrite Hf.
Qed.

Lemma handleSubmit_stops_when_the_upload_fails_witness :
  fst (JobApplicationForm.handleSubmit Cases.one_digit (Some Scenario.seeker) "j1"
         (mk_world Scenario.ledger [] Scenario.delivering (fun _ => "app2") 0 17
                   (fun _ => Some "quota exceeded") (fun p => p) (fun _ _ => None)
                   (fun _ => None))
         (ResumeInput.setResumeFile (Some Cases.cv) Cases.blank_form))
  = mk_world Scenario.ledger [] Scenario.delivering (fun _ => "app2") 0 17
             (fun _ => Some "quota exceeded") (fun p => p) (fun _ _ => None)
             (fun _ => None).
Proof.
  rewrite (handleSubmit_stops_when_the_upload_fails Cases.one_digit Scenario.seeker
             "j1" _ _ Cases.cv "pdf" "quota exceeded"); reflexivity.
Defined.

(** e1 has one active posting and one application to it. *)
Lemma fetchData_counts_witness :
  EmployerDashboard.activeJobs
    (EmployerDashboard.fetchData (Some Scenario.employer1)
       (Scenario.world Scenario.ledger Scenario.delivering)
       (EmployerDashboard.mk_state [] 0 0 true)) = 1%Z
  /\ EmployerDashboard.totalApplications
       (EmployerDashboard.fetchData (Some Scenario.employer1)
          (Scenario.world Scenario.ledger Scenario.delivering)
          (EmployerDashboard.mk_state [] 0 0 true)) = 1.
Proof.
  destruct (fetchData_counts Scenario.employer1
              (Scenario.world Scenario.ledger Scenario.delivering)
              (EmployerDashboard.mk_state [] 0 0 true)) as [_ [H1 H2]].
  split; [rewrite H1 | rewrite H2]; reflexivity.
Defined.
